(** * RoborockService: a shallow embedding of [src/roborockService.ts]

    The service is a class whose methods mutate a handful of [Map] fields
    and talk to collaborators that live outside the file (the logger, the
    per-device message processor, the client router, the IoT REST client
    and Node's timers).  The embedding keeps the fields as a record, runs
    the methods in a state-and-exception monad over a [World], and records
    every call made on a collaborator as an [event] of a trace.  What a
    collaborator answers is read from an environment [Env]. *)

From stdpp Require Import gmap strings list.
From Stdlib Require Import ZArith Lia.

Open Scope string_scope.

(** ** Insertion-ordered maps

    A JavaScript [Map] iterates in insertion order.  The two maps that
    [stopService] walks are kept as association lists so that the order of
    the walk is the order of the source; the maps that are only read and
    written by key are [gmap]s. *)
Module JsMap.

Definition t (V : Type) : Type := list (string * V).

Definition empty {V} : t V := [].

Fixpoint get {V} (k : string) (m : t V) : option V :=
  match m with
  | [] => None
  | (k', v) :: m' => if String.eqb k' k then Some v else get k m'
  end.

(** [set] overwrites in place when the key is present and appends
    otherwise, as [Map.prototype.set] does. *)
Fixpoint set {V} (k : string) (v : V) (m : t V) : t V :=
  match m with
  | [] => [(k, v)]
  | (k', v') :: m' =>
      if String.eqb k' k then (k, v) :: m' else (k', v') :: set k v m'
  end.

Definition delete {V} (k : string) (m : t V) : t V :=
  List.filter (fun e => negb (String.eqb (fst e) k)) m.

Definition size {V} (m : t V) : nat := length m.

Definition entries {V} (m : t V) : list (string * V) := m.

Definition keys {V} (m : t V) : list string := List.map fst m.

End JsMap.

(** ** Data exchanged with the collaborators *)

(** [ServiceArea.Area] of the host platform; the service reads [areaId] only. *)
Record Area := {
  areaId : Z;
  mapId : option Z;
  areaInfo : string;
}.

(** [RoomIndexMap] is declared in [model/roomIndexMap.ts], which is not part
    of the sources at hand.  The service uses one method of it, [getRoomId],
    which answers a room id or [undefined]; the index map is taken as that
    method. *)
Record RoomIndexMap := {
  getRoomId : Z → option Z;
}.

Record RequestMessage := {
  method : string;
  params : option string;
  secure : bool;
}.

Record CleanModeSetting := {
  suctionPower : Z;
  waterFlow : Z;
  distance_off : Z;
  mopRoute : option Z;
}.

Record NetworkInfo := {
  ip : option string;
}.

Record DeviceStatus := {
  errorStatus : list (string * Z);
  message : list (string * Z);
}.

Record Device := {
  duid : string;
  localKey : string;
  pv : string;
  model : string;
}.

Record UserData := {
  token : string;
}.

(** Handles of the collaborators.  Each is identified by what it was built
    from. *)
Record RoborockIoTApi := {
  apiUserData : UserData;
}.

Record ClientRouter := {
  routerUser : string;
  routerUserData : UserData;
}.

Record MessageProcessor := {
  processorClient : ClientRouter;
}.

Record Client := {
  clientDuid : string;
  clientIp : string;
}.

Record ClientManager := {
  managerName : string;
}.

(** ** Events: calls that leave the service *)

Inductive LogLevel := Debug | Notice | Warn | Error.

Inductive NotifyMessageTypes := LocalMessage | CloudMessage | ErrorOccurred | BatteryUpdate.

(** Methods of [MessageProcessor] that the service invokes. *)
Inductive ProcCall :=
| PInjectLogger
| PRegisterListener
| PStartClean (duid : string)
| PStartRoomClean (duid : string) (rooms : list Z) (count : Z)
| PPauseClean (duid : string)
| PResumeClean (duid : string)
| PGotoDock (duid : string)
| PFindMyRobot (duid : string)
| PGetCleanModeData (duid : string)
| PChangeCleanMode (duid : string) (suction water route distance : Z)
| PGetCustomMessage (duid : string) (request : RequestMessage)
| PSendCustomMessage (duid : string) (request : RequestMessage)
| PGetNetworkInfo (duid : string)
| PGetDeviceStatus (duid : string)
| PGetDeviceStatusOverMQTT (duid : string).

(** Methods of [ClientRouter] that the service invokes. *)
Inductive RouterCall :=
| RRegisterDevice (duid localKey pv : string)
| RRegisterMessageListener
| RConnect
| RDisconnect
| RRegisterClient (duid ip : string)
| RGet (duid : string) (request : RequestMessage).

Inductive ClientCall := CConnect | CDisconnect.

Inductive event :=
| ELog (level : LogLevel) (msg : string)
| EProc (p : MessageProcessor) (c : ProcCall)
| ERouter (r : ClientRouter) (c : RouterCall)
| EClient (c : Client) (call : ClientCall)
| EStartScene (api : RoborockIoTApi) (sceneId : Z)
| ENotify (source : NotifyMessageTypes) (duid : string) (status : DeviceStatus)
| ESleep (ms : Z)
| ESetInterval (handle : nat) (ms : Z)
| EClearInterval (handle : nat).

(** ** The service object and the world around it *)

Record RoborockService := {
  iotApi : option RoborockIoTApi;
  userdata : option UserData;
  deviceNotify : bool;
  messageClient : option ClientRouter;
  messageProcessorMap : JsMap.t MessageProcessor;
  ipMap : gmap string string;
  localClientMap : JsMap.t Client;
  mqttAlwaysOnDevices : gmap string bool;
  clientManager : option ClientManager;
  refreshInterval : Z;
  requestDeviceStatusInterval : option nat;
  supportedAreas : gmap string (list Area);
  supportedRoutines : gmap string (list Area);
  selectedAreas : gmap string (list Z);
  supportedAreaIndexMaps : gmap string RoomIndexMap;
}.

(** A recurring timer created by [setInterval].  The callback of the source
    closes over the device and over the processor looked up when the timer
    was created; both are kept here. *)
Record Interval := {
  handle : nat;
  overMQTT : bool;
  timerDuid : string;
  timerProcessor : option MessageProcessor;
  period : Z;
}.

Record World := {
  this : RoborockService;
  trace : list event;
  now : Z;
  intervals : list Interval;
  nextHandle : nat;
}.

(** Field updates of the service, one per assigned field. *)
Definition set_iotApi (v : option RoborockIoTApi) (s : RoborockService) : RoborockService :=
  {| iotApi := v; userdata := userdata s; deviceNotify := deviceNotify s;
     messageClient := messageClient s; messageProcessorMap := messageProcessorMap s;
     ipMap := ipMap s; localClientMap := localClientMap s;
     mqttAlwaysOnDevices := mqttAlwaysOnDevices s; clientManager := clientManager s;
     refreshInterval := refreshInterval s;
     requestDeviceStatusInterval := requestDeviceStatusInterval s;
     supportedAreas := supportedAreas s; supportedRoutines := supportedRoutines s;
     selectedAreas := selectedAreas s; supportedAreaIndexMaps := supportedAreaIndexMaps s |}.

Definition set_userdata (v : option UserData) (s : RoborockService) : RoborockService :=
  {| iotApi := iotApi s; userdata := v; deviceNotify := deviceNotify s;
     messageClient := messageClient s; messageProcessorMap := messageProcessorMap s;
     ipMap := ipMap s; localClientMap := localClientMap s;
     mqttAlwaysOnDevices := mqttAlwaysOnDevices s; clientManager := clientManager s;
     refreshInterval := refreshInterval s;
     requestDeviceStatusInterval := requestDeviceStatusInterval s;
     supportedAreas := supportedAreas s; supportedRoutines := supportedRoutines s;
     selectedAreas := selectedAreas s; supportedAreaIndexMaps := supportedAreaIndexMaps s |}.

Definition set_deviceNotify (v : bool) (s : RoborockService) : RoborockService :=
  {| iotApi := iotApi s; userdata := userdata s; deviceNotify := v;
     messageClient := messageClient s; messageProcessorMap := messageProcessorMap s;
     ipMap := ipMap s; localClientMap := localClientMap s;
     mqttAlwaysOnDevices := mqttAlwaysOnDevices s; clientManager := clientManager s;
     refreshInterval := refreshInterval s;
     requestDeviceStatusInterval := requestDeviceStatusInterval s;
     supportedAreas := supportedAreas s; supportedRoutines := supportedRoutines s;
     selectedAreas := selectedAreas s; supportedAreaIndexMaps := supportedAreaIndexMaps s |}.

Definition set_messageClient (v : option ClientRouter) (s : RoborockService) : RoborockService :=
  {| iotApi := iotApi s; userdata := userdata s; deviceNotify := deviceNotify s;
     messageClient := v; messageProcessorMap := messageProcessorMap s;
     ipMap := ipMap s; localClientMap := localClientMap s;
     mqttAlwaysOnDevices := mqttAlwaysOnDevices s; clientManager := clientManager s;
     refreshInterval := refreshInterval s;
     requestDeviceStatusInterval := requestDeviceStatusInterval s;
     supportedAreas := supportedAreas s; supportedRoutines := supportedRoutines s;
     selectedAreas := selectedAreas s; supportedAreaIndexMaps := supportedAreaIndexMaps s |}.

Definition set_messageProcessorMap (v : JsMap.t MessageProcessor) (s : RoborockService) : RoborockService :=
  {| iotApi := iotApi s; userdata := userdata s; deviceNotify := deviceNotify s;
     messageClient := messageClient s; messageProcessorMap := v;
     ipMap := ipMap s; localClientMap := localClientMap s;
     mqttAlwaysOnDevices := mqttAlwaysOnDevices s; clientManager := clientManager s;
     refreshInterval := refreshInterval s;
     requestDeviceStatusInterval := requestDeviceStatusInterval s;
     supportedAreas := supportedAreas s; supportedRoutines := supportedRoutines s;
     selectedAreas := selectedAreas s; supportedAreaIndexMaps := supportedAreaIndexMaps s |}.

Definition set_ipMap (v : gmap string string) (s : RoborockService) : RoborockService :=
  {| iotApi := iotApi s; userdata := userdata s; deviceNotify := deviceNotify s;
     messageClient := messageClient s; messageProcessorMap := messageProcessorMap s;
     ipMap := v; localClientMap := localClientMap s;
     mqttAlwaysOnDevices := mqttAlwaysOnDevices s; clientManager := clientManager s;
     refreshInterval := refreshInterval s;
     requestDeviceStatusInterval := requestDeviceStatusInterval s;
     supportedAreas := supportedAreas s; supportedRoutines := supportedRoutines s;
     selectedAreas := selectedAreas s; supportedAreaIndexMaps := supportedAreaIndexMaps s |}.

Definition set_localClientMap (v : JsMap.t Client) (s : RoborockService) : RoborockService :=
  {| iotApi := iotApi s; userdata := userdata s; deviceNotify := deviceNotify s;
     messageClient := messageClient s; messageProcessorMap := messageProcessorMap s;
     ipMap := ipMap s; localClientMap := v;
     mqttAlwaysOnDevices := mqttAlwaysOnDevices s; clientManager := clientManager s;
     refreshInterval := refreshInterval s;
     requestDeviceStatusInterval := requestDeviceStatusInterval s;
     supportedAreas := supportedAreas s; supportedRoutines := supportedRoutines s;
     selectedAreas := selectedAreas s; supportedAreaIndexMaps := supportedAreaIndexMaps s |}.

Definition set_mqttAlwaysOnDevices (v : gmap string bool) (s : RoborockService) : RoborockService :=
  {| iotApi := iotApi s; userdata := userdata s; deviceNotify := deviceNotify s;
     messageClient := messageClient s; messageProcessorMap := messageProcessorMap s;
     ipMap := ipMap s; localClientMap := localClientMap s;
     mqttAlwaysOnDevices := v; clientManager := clientManager s;
     refreshInterval := refreshInterval s;
     requestDeviceStatusInterval := requestDeviceStatusInterval s;
     supportedAreas := supportedAreas s; supportedRoutines := supportedRoutines s;
     selectedAreas := selectedAreas s; supportedAreaIndexMaps := supportedAreaIndexMaps s |}.

Definition set_requestDeviceStatusInterval (v : option nat) (s : RoborockService) : RoborockService :=
  {| iotApi := iotApi s; userdata := userdata s; deviceNotify := deviceNotify s;
     messageClient := messageClient s; messageProcessorMap := messageProcessorMap s;
     ipMap := ipMap s; localClientMap := localClientMap s;
     mqttAlwaysOnDevices := mqttAlwaysOnDevices s; clientManager := clientManager s;
     refreshInterval := refreshInterval s;
     requestDeviceStatusInterval := v;
     supportedAreas := supportedAreas s; supportedRoutines := supportedRoutines s;
     selectedAreas := selectedAreas s; supportedAreaIndexMaps := supportedAreaIndexMaps s |}.

Definition set_supportedAreas (v : gmap string (list Area)) (s : RoborockService) : RoborockService :=
  {| iotApi := iotApi s; userdata := userdata s; deviceNotify := deviceNotify s;
     messageClient := messageClient s; messageProcessorMap := messageProcessorMap s;
     ipMap := ipMap s; localClientMap := localClientMap s;
     mqttAlwaysOnDevices := mqttAlwaysOnDevices s; clientManager := clientManager s;
     refreshInterval := refreshInterval s;
     requestDeviceStatusInterval := requestDeviceStatusInterval s;
     supportedAreas := v; supportedRoutines := supportedRoutines s;
     selectedAreas := selectedAreas s; supportedAreaIndexMaps := supportedAreaIndexMaps s |}.

Definition set_supportedRoutines (v : gmap string (list Area)) (s : RoborockService) : RoborockService :=
  {| iotApi := iotApi s; userdata := userdata s; deviceNotify := deviceNotify s;
     messageClient := messageClient s; messageProcessorMap := messageProcessorMap s;
     ipMap := ipMap s; localClientMap := localClientMap s;
     mqttAlwaysOnDevices := mqttAlwaysOnDevices s; clientManager := clientManager s;
     refreshInterval := refreshInterval s;
     requestDeviceStatusInterval := requestDeviceStatusInterval s;
     supportedAreas := supportedAreas s; supportedRoutines := v;
     selectedAreas := selectedAreas s; supportedAreaIndexMaps := supportedAreaIndexMaps s |}.

Definition set_selectedAreas (v : gmap string (list Z)) (s : RoborockService) : RoborockService :=
  {| iotApi := iotApi s; userdata := userdata s; deviceNotify := deviceNotify s;
     messageClient := messageClient s; messageProcessorMap := messageProcessorMap s;
     ipMap := ipMap s; localClientMap := localClientMap s;
     mqttAlwaysOnDevices := mqttAlwaysOnDevices s; clientManager := clientManager s;
     refreshInterval := refreshInterval s;
     requestDeviceStatusInterval := requestDeviceStatusInterval s;
     supportedAreas := supportedAreas s; supportedRoutines := supportedRoutines s;
     selectedAreas := v; supportedAreaIndexMaps := supportedAreaIndexMaps s |}.

Definition set_supportedAreaIndexMaps (v : gmap string RoomIndexMap) (s : RoborockService) : RoborockService :=
  {| iotApi := iotApi s; userdata := userdata s; deviceNotify := deviceNotify s;
     messageClient := messageClient s; messageProcessorMap := messageProcessorMap s;
     ipMap := ipMap s; localClientMap := localClientMap s;
     mqttAlwaysOnDevices := mqttAlwaysOnDevices s; clientManager := clientManager s;
     refreshInterval := refreshInterval s;
     requestDeviceStatusInterval := requestDeviceStatusInterval s;
     supportedAreas := supportedAreas s; supportedRoutines := supportedRoutines s;
     selectedAreas := selectedAreas s; supportedAreaIndexMaps := v |}.

(** The state of a freshly constructed service (the constructor's
    arguments are the refresh interval and the client manager). *)
Definition newService (refresh : Z) (manager : option ClientManager) : RoborockService :=
  {| iotApi := None; userdata := None; deviceNotify := false;
     messageClient := None; messageProcessorMap := JsMap.empty;
     ipMap := ∅; localClientMap := JsMap.empty;
     mqttAlwaysOnDevices := ∅; clientManager := manager;
     refreshInterval := refresh;
     requestDeviceStatusInterval := None;
     supportedAreas := ∅; supportedRoutines := ∅;
     selectedAreas := ∅; supportedAreaIndexMaps := ∅ |}.

Definition newWorld (s : RoborockService) : World :=
  {| this := s; trace := []; now := 0; intervals := []; nextHandle := 0 |}.

(** ** The monad of the methods

    A method either resolves with a value or rejects with an error
    message; both leave a world behind. *)
Inductive Outcome (A : Type) :=
| Resolved (a : A)
| Rejected (err : string).
Arguments Resolved {A} a.
Arguments Rejected {A} err.

Definition M (A : Type) : Type := World → Outcome A * World.

Definition ret {A} (a : A) : M A := fun w => (Resolved a, w).

Definition throw {A} (err : string) : M A := fun w => (Rejected err, w).

Definition bind {A B} (m : M A) (k : A → M B) : M B :=
  fun w =>
    match m w with
    | (Resolved a, w') => k a w'
    | (Rejected err, w') => (Rejected err, w')
    end.

(** [try { m } catch (error) { h error }] *)
Definition tryCatch {A} (m : M A) (h : string → M A) : M A :=
  fun w =>
    match m w with
    | (Resolved a, w') => (Resolved a, w')
    | (Rejected err, w') => h err w'
    end.

Declare Scope js_scope.
Delimit Scope js_scope with js.
Notation "x <- m ;; k" := (bind m (fun x => k))
  (at level 100, m at next level, right associativity) : js_scope.
Notation "m ;; k" := (bind m (fun _ => k))
  (at level 100, right associativity) : js_scope.
Open Scope js_scope.

Definition getThis : M RoborockService := fun w => (Resolved (this w), w).

Definition modifyThis (f : RoborockService → RoborockService) : M unit :=
  fun w =>
    (Resolved tt,
     {| this := f (this w); trace := trace w; now := now w;
        intervals := intervals w; nextHandle := nextHandle w |}).

Definition emit (e : event) : M unit :=
  fun w =>
    (Resolved tt,
     {| this := this w; trace := trace w ++ [e]; now := now w;
        intervals := intervals w; nextHandle := nextHandle w |}).

Definition getNow : M Z := fun w => (Resolved (now w), w).

(** [this.logger.<level>(msg, ...)]; the values formatted after the message
    are not kept. *)
Definition logger (level : LogLevel) (msg : string) : M unit := emit (ELog level msg).

(** [sleep(ms)]: the caller is suspended until [ms] milliseconds later. *)
Definition sleep (ms : Z) : M unit :=
  fun w =>
    (Resolved tt,
     {| this := this w; trace := trace w ++ [ESleep ms]; now := (now w + ms)%Z;
        intervals := intervals w; nextHandle := nextHandle w |}).

(** [setInterval(callback, ms)]: a fresh handle, and the timer is live. *)
Definition setInterval (mqtt : bool) (d : string) (p : option MessageProcessor) (ms : Z) : M nat :=
  fun w =>
    let h := nextHandle w in
    (Resolved h,
     {| this := this w; trace := trace w ++ [ESetInterval h ms]; now := now w;
        intervals := intervals w ++
          [{| handle := h; overMQTT := mqtt; timerDuid := d; timerProcessor := p; period := ms |}];
        nextHandle := S h |}).

(** [clearInterval(h)]: the timer with that handle is no longer live. *)
Definition clearInterval (h : nat) : M unit :=
  fun w =>
    (Resolved tt,
     {| this := this w; trace := trace w ++ [EClearInterval h]; now := now w;
        intervals := List.filter (fun i => negb (Nat.eqb (handle i) h)) (intervals w);
        nextHandle := nextHandle w |}).

(** ** What the collaborators answer *)
Record Env := {
  (** [Some err]: the promise returned by that processor method rejects. *)
  procRejects : MessageProcessor → ProcCall → option string;
  cleanModeReply : MessageProcessor → string → option CleanModeSetting;
  customReply : MessageProcessor → string → RequestMessage → option Z;
  networkInfoReply : MessageProcessor → string → option NetworkInfo;
  deviceStatusReply : MessageProcessor → bool → string → option DeviceStatus;
  sceneRejects : RoborockIoTApi → Z → option string;
  roomMappingReply : ClientRouter → string → RequestMessage → Outcome (option (list (list Z)));
  (** Connection state of a local client and of the router at a time. *)
  localConnected : Client → Z → bool;
  routerConnected : ClientRouter → Z → bool;
}.

(** ** The methods of [RoborockService] *)
Section Service.

Context (E : Env).

(** [await p.method(...)]: the call is made, and its rejection is the
    caller's. *)
Definition awaitProc (p : MessageProcessor) (c : ProcCall) : M unit :=
  emit (EProc p c);;
  match procRejects E p c with
  | Some err => throw err
  | None => ret tt
  end.

(** [p.method(...)] with the returned promise dropped: the call is made,
    the caller goes on whatever becomes of it. *)
Definition fireProc (p : MessageProcessor) (c : ProcCall) : M unit :=
  emit (EProc p c).

Definition getMessageProcessor (duid : string) : M (option MessageProcessor) :=
  s <- getThis;;
  let messageProcessor := JsMap.get duid (messageProcessorMap s) in
  (if messageProcessor is None
   then logger Error "MessageApi is not initialized."
   else ret tt);;
  ret messageProcessor.

Definition setSelectedAreas (duid : string) (areas : list Z) : M unit :=
  logger Debug "RoborockService - setSelectedAreas";;
  s <- getThis;;
  let roomIds :=
    List.map (fun areaId =>
                match supportedAreaIndexMaps s !! duid with
                | Some indexMap => getRoomId indexMap areaId
                | None => None
                end) areas in
  logger Debug "RoborockService - setSelectedAreas - roomIds";;
  modifyThis (fun s =>
    set_selectedAreas (<[duid := omap id roomIds]> (selectedAreas s)) s).

Definition getSelectedAreas (duid : string) : M (list Z) :=
  s <- getThis;;
  ret (default [] (selectedAreas s !! duid)).

Definition setSupportedAreas (duid : string) (areas : list Area) : M unit :=
  modifyThis (fun s => set_supportedAreas (<[duid := areas]> (supportedAreas s)) s).

Definition setSupportedAreaIndexMap (duid : string) (indexMap : RoomIndexMap) : M unit :=
  modifyThis (fun s =>
    set_supportedAreaIndexMaps (<[duid := indexMap]> (supportedAreaIndexMaps s)) s).

Definition setSupportedScenes (duid : string) (routineAsRooms : list Area) : M unit :=
  modifyThis (fun s => set_supportedRoutines (<[duid := routineAsRooms]> (supportedRoutines s)) s).

Definition getSupportedAreas (duid : string) : M (option (list Area)) :=
  s <- getThis;;
  ret (supportedAreas s !! duid).

Definition getCleanModeData (duid : string) : M CleanModeSetting :=
  logger Notice "RoborockService - getCleanModeData";;
  mp <- getMessageProcessor duid;;
  data <- match mp with
          | Some p => awaitProc p (PGetCleanModeData duid);; ret (cleanModeReply E p duid)
          | None => ret None
          end;;
  match data with
  | None => throw "Failed to retrieve clean mode data"
  | Some d => ret d
  end.

Definition changeCleanMode (duid : string) (setting : CleanModeSetting) : M unit :=
  logger Notice "RoborockService - changeCleanMode";;
  mp <- getMessageProcessor duid;;
  match mp with
  | Some p =>
      awaitProc p (PChangeCleanMode duid (suctionPower setting) (waterFlow setting)
                     (default 0%Z (mopRoute setting)) (distance_off setting))
  | None => ret tt
  end.

(** [selected.filter((slt) => areas.some((a) => a.areaId == slt))] *)
Definition selectedAmong (areas : list Area) (selected : list Z) : list Z :=
  List.filter (fun slt => existsb (fun a => (areaId a =? slt)%Z) areas) selected.

Definition startClean (duid : string) : M unit :=
  s <- getThis;;
  let supportedRooms := default [] (supportedAreas s !! duid) in
  let routines := default [] (supportedRoutines s !! duid) in
  let selected := default [] (selectedAreas s !! duid) in
  logger Debug "RoborockService - begin cleaning";;
  if (length routines =? 0)%nat then
    if (length selected =? length supportedRooms)%nat
       || (length selected =? 0)%nat
       || (length supportedRooms =? 0)%nat
    then
      logger Debug "RoborockService - startGlobalClean";;
      mp <- getMessageProcessor duid;;
      match mp with
      | Some p => fireProc p (PStartClean duid)
      | None => ret tt
      end
    else
      logger Debug "RoborockService - startRoomClean";;
      mp <- getMessageProcessor duid;;
      match mp with
      | Some p => awaitProc p (PStartRoomClean duid selected 1)
      | None => ret tt
      end
  else
    let rooms := selectedAmong supportedRooms selected in
    let rt := selectedAmong routines selected in
    if (1 <? length rt)%nat then
      logger Warn "RoborockService - Multiple routines selected, which is not supported."
    else if (length rt =? 1)%nat then
      logger Debug "RoborockService - startScene";;
      match iotApi s with
      | Some api =>
          emit (EStartScene api (List.nth 0 rt 0%Z));;
          match sceneRejects E api (List.nth 0 rt 0%Z) with
          | Some err => throw err
          | None => ret tt
          end
      | None => ret tt
      end
    else if (length rooms =? length supportedRooms)%nat
            || (length rooms =? 0)%nat
            || (length supportedRooms =? 0)%nat
    then
      logger Debug "RoborockService - startGlobalClean";;
      mp <- getMessageProcessor duid;;
      match mp with
      | Some p => fireProc p (PStartClean duid)
      | None => ret tt
      end
    else if (0 <? length rooms)%nat then
      logger Debug "RoborockService - startRoomClean";;
      mp <- getMessageProcessor duid;;
      match mp with
      | Some p => awaitProc p (PStartRoomClean duid rooms 1)
      | None => ret tt
      end
    else
      logger Warn "RoborockService - something goes wrong.".

Definition pauseClean (duid : string) : M unit :=
  logger Debug "RoborockService - pauseClean";;
  mp <- getMessageProcessor duid;;
  match mp with
  | Some p => awaitProc p (PPauseClean duid)
  | None => ret tt
  end.

Definition stopAndGoHome (duid : string) : M unit :=
  logger Debug "RoborockService - stopAndGoHome";;
  mp <- getMessageProcessor duid;;
  match mp with
  | Some p => awaitProc p (PGotoDock duid)
  | None => ret tt
  end.

Definition resumeClean (duid : string) : M unit :=
  logger Debug "RoborockService - resumeClean";;
  mp <- getMessageProcessor duid;;
  match mp with
  | Some p => awaitProc p (PResumeClean duid)
  | None => ret tt
  end.

Definition playSoundToLocate (duid : string) : M unit :=
  logger Debug "RoborockService - findMe";;
  mp <- getMessageProcessor duid;;
  match mp with
  | Some p => awaitProc p (PFindMyRobot duid)
  | None => ret tt
  end.

(** The result is [None] for [undefined]. *)
Definition customGet (duid : string) (request : RequestMessage) : M (option Z) :=
  logger Debug "RoborockService - customSend-message";;
  mp <- getMessageProcessor duid;;
  match mp with
  | Some p => awaitProc p (PGetCustomMessage duid request);; ret (customReply E p duid request)
  | None => ret None
  end.

Definition customSend (duid : string) (request : RequestMessage) : M unit :=
  mp <- getMessageProcessor duid;;
  match mp with
  | Some p => awaitProc p (PSendCustomMessage duid request)
  | None => ret tt
  end.

Fixpoint forEach {A} (l : list A) (body : A → M unit) : M unit :=
  match l with
  | [] => ret tt
  | x :: l' => body x;; forEach l' body
  end.

(** The two [for ... of map.entries()] loops delete the entry they are at.
    A [Map] iterator is live, and deleting the current entry does not make
    it skip another one, so each loop visits the entries the map had when
    the loop started, in insertion order. *)
Definition stopService : M unit :=
  s <- getThis;;
  match messageClient s with
  | Some client =>
      emit (ERouter client RDisconnect);;
      modifyThis (set_messageClient None)
  | None => ret tt
  end;;
  s <- getThis;;
  (if (0 <? JsMap.size (localClientMap s))%nat then
     forEach (JsMap.entries (localClientMap s)) (fun entry =>
       logger Debug "Disconnecting local client for device";;
       emit (EClient (snd entry) CDisconnect);;
       modifyThis (fun s => set_localClientMap (JsMap.delete (fst entry) (localClientMap s)) s);;
       logger Debug "Local client disconnected for device")
   else ret tt);;
  s <- getThis;;
  (if (0 <? JsMap.size (messageProcessorMap s))%nat then
     forEach (JsMap.entries (messageProcessorMap s)) (fun entry =>
       logger Debug "Disconnecting message processor for device";;
       modifyThis (fun s =>
         set_messageProcessorMap (JsMap.delete (fst entry) (messageProcessorMap s)) s);;
       logger Debug "Message processor disconnected for device")
   else ret tt);;
  s <- getThis;;
  match requestDeviceStatusInterval s with
  | Some h =>
      clearInterval h;;
      modifyThis (set_requestDeviceStatusInterval None)
  | None => ret tt
  end.

Definition setDeviceNotify : M unit :=
  modifyThis (set_deviceNotify true).

Definition activateDeviceNotify (device : Device) : M unit :=
  logger Debug "Requesting device info for device";;
  messageProcessor <- getMessageProcessor (duid device);;
  s <- getThis;;
  h <- setInterval false (duid device) messageProcessor (refreshInterval s * 1000)%Z;;
  modifyThis (set_requestDeviceStatusInterval (Some h)).

Definition activateDeviceNotifyOverMQTT (device : Device) : M unit :=
  logger Notice "Requesting device info for device over MQTT";;
  messageProcessor <- getMessageProcessor (duid device);;
  s <- getThis;;
  h <- setInterval true (duid device) messageProcessor (refreshInterval s * 500)%Z;;
  modifyThis (set_requestDeviceStatusInterval (Some h)).

(** One run of the callback handed to [setInterval] by the two methods
    above. *)
Definition tick (i : Interval) : M unit :=
  match timerProcessor i with
  | Some p =>
      awaitProc p (if overMQTT i
                   then PGetDeviceStatusOverMQTT (timerDuid i)
                   else PGetDeviceStatus (timerDuid i));;
      s <- getThis;;
      match deviceStatusReply E p (overMQTT i) (timerDuid i) with
      | Some response =>
          if deviceNotify s then
            logger Debug (if overMQTT i
                          then "MQTT - Device status update"
                          else "Socket - Device status update");;
            emit (ENotify LocalMessage (timerDuid i) response)
          else ret tt
      | None => ret tt
      end
  | None => logger Error "Local client not initialized"
  end.

Definition isRequestSecure (s : RoborockService) (duid : string) : bool :=
  default false (mqttAlwaysOnDevices s !! duid).

(** The request that [getRoomMappings] builds. *)
Definition roomMappingRequest (s : RoborockService) (duid : string) : RequestMessage :=
  {| method := "get_room_mapping"; params := None; secure := isRequestSecure s duid |}.

Definition getRoomMappings (duid : string) : M (option (list (list Z))) :=
  s <- getThis;;
  match messageClient s with
  | None =>
      logger Warn "messageClient not initialized. Waititing for next execution";;
      ret None
  | Some client =>
      emit (ERouter client (RGet duid (roomMappingRequest s duid)));;
      match roomMappingReply E client duid (roomMappingRequest s duid) with
      | Resolved r => ret r
      | Rejected err => throw err
      end
  end.

Definition auth (ud : UserData) : M UserData :=
  modifyThis (set_userdata (Some ud));;
  modifyThis (set_iotApi (Some {| apiUserData := ud |}));;
  ret ud.

(** [while (!this.messageClient.isConnected()) await this.sleep(500)].
    The loop has no bound of its own; [fuel] bounds the number of sleeps
    the model follows, and [None] says that the loop was still running
    when the fuel ran out. *)
Fixpoint awaitRouterConnected (fuel : nat) (client : ClientRouter) (w : World) : option World :=
  if routerConnected E client (now w) then Some w
  else
    match fuel with
    | O => None
    | S fuel' => awaitRouterConnected fuel' client (snd (sleep 500 w))
    end.

(** The message listener registered below is a closure; what it does on
    a message is outside the methods modelled here. *)
Definition initializeMessageClient (fuel : nat) (username : string) (device : Device)
    (ud : UserData) (w : World) : option (Outcome unit * World) :=
  match clientManager (this w) with
  | None => Some (logger Error "ClientManager not initialized" w)
  | Some _ =>
      let client := {| routerUser := username; routerUserData := ud |} in
      let w1 :=
        snd ((modifyThis (set_messageClient (Some client));;
              emit (ERouter client
                      (RRegisterDevice (duid device) (localKey device) (pv device)));;
              emit (ERouter client RRegisterMessageListener);;
              emit (ERouter client RConnect)) w) in
      match awaitRouterConnected fuel client w1 with
      | None => None
      | Some w2 => Some (logger Debug "MessageClient connected" w2)
      end
  end.

(** JavaScript truthiness of [string | undefined]. *)
Definition truthy (s : option string) : bool :=
  match s with
  | Some a => negb (String.eqb a "")
  | None => false
  end.

(** [while (!localClient.isConnected() && count < 20) { ...; count++;
    await this.sleep(500) }], with [left] the distance of [count] from
    20. *)
Fixpoint pollLocalClient (left : nat) (localClient : Client) : M unit :=
  match left with
  | O => ret tt
  | S left' =>
      t <- getNow;;
      if localConnected E localClient t then ret tt
      else
        logger Debug "Keep waiting for local client to connect";;
        sleep 500;;
        pollLocalClient left' localClient
  end.

(** The [if (localIp) { ... }] block of [initializeMessageClientForLocal]. *)
Definition connectLocalClient (client : ClientRouter) (device : Device)
    (localIp : option string) : M unit :=
  match localIp with
  | Some a =>
      if negb (String.eqb a "") then
        logger Debug "initializing the local connection for this client towards ";;
        emit (ERouter client (RRegisterClient (duid device) a));;
        let localClient := {| clientDuid := duid device; clientIp := a |} in
        emit (EClient localClient CConnect);;
        pollLocalClient 20 localClient;;
        t <- getNow;;
        if negb (localConnected E localClient t) then
          throw "Local client did not connect after 10 attempts, something is wrong"
        else
          modifyThis (fun s => set_ipMap (<[duid device := a]> (ipMap s)) s);;
          modifyThis (fun s =>
            set_localClientMap (JsMap.set (duid device) localClient (localClientMap s)) s);;
          logger Debug "LocalClient connected"
      else ret tt
  | None => ret tt
  end.

Definition initializeMessageClientForLocal (device : Device) : M bool :=
  logger Debug "Begin get local ip";;
  s <- getThis;;
  match messageClient s with
  | None =>
      logger Error "messageClient not initialized";;
      ret false
  | Some client =>
      let messageProcessor := {| processorClient := client |} in
      fireProc messageProcessor PInjectLogger;;
      fireProc messageProcessor PRegisterListener;;
      modifyThis (fun s =>
        set_messageProcessorMap
          (JsMap.set (duid device) messageProcessor (messageProcessorMap s)) s);;
      logger Debug "Checking if device supports local connection";;
      if String.eqb (pv device) "B01" then
        logger Warn "Device does not support local connection";;
        modifyThis (fun s =>
          set_mqttAlwaysOnDevices (<[duid device := true]> (mqttAlwaysOnDevices s)) s);;
        ret true
      else
        modifyThis (fun s =>
          set_mqttAlwaysOnDevices (<[duid device := false]> (mqttAlwaysOnDevices s)) s);;
        logger Debug "Local device";;
        s <- getThis;;
        let localIp := ipMap s !! duid device in
        tryCatch
          (if negb (truthy localIp) then
             logger Debug "Requesting network info for device";;
             awaitProc messageProcessor (PGetNetworkInfo (duid device));;
             let networkInfo := networkInfoReply E messageProcessor (duid device) in
             if negb (truthy (networkInfo ≫= ip)) then
               logger Error "Failed to retrieve network info for device";;
               ret false
             else
               logger Debug "Network ip for device";;
               connectLocalClient client device (networkInfo ≫= ip);;
               ret true
           else
             connectLocalClient client device localIp;;
             ret true)
          (fun _ =>
             logger Error "Error requesting network info";;
             ret false)
  end.

End Service.

(** ** Reading a run *)

(** The world [w] with the events [evs] appended to its trace and nothing
    else changed. *)
Definition addTrace (evs : list event) (w : World) : World :=
  {| this := this w; trace := trace w ++ evs; now := now w;
     intervals := intervals w; nextHandle := nextHandle w |}.

Definition isProcCall (e : event) : bool :=
  match e with EProc _ _ => true | _ => false end.

Definition isSleep (e : event) : bool :=
  match e with ESleep _ => true | _ => false end.

(** Total time slept in a list of events. *)
Definition sleptMs (evs : list event) : Z :=
  fold_right (fun e acc => match e with ESleep ms => (ms + acc)%Z | _ => acc end) 0%Z evs.

(** Two lists of ids denote the same set. *)
Definition sameSet (l1 l2 : list Z) : Prop := ∀ x, In x l1 ↔ In x l2.

(** An environment in which nothing rejects, nothing is answered and no
    connection ever comes up. *)
Definition quietEnv : Env :=
  {| procRejects := fun _ _ => None;
     cleanModeReply := fun _ _ => None;
     customReply := fun _ _ _ => None;
     networkInfoReply := fun _ _ => None;
     deviceStatusReply := fun _ _ _ => None;
     sceneRejects := fun _ _ => None;
     roomMappingReply := fun _ _ _ => Resolved None;
     localConnected := fun _ _ => false;
     routerConnected := fun _ _ => false |}.

Definition sampleUser : UserData := {| token := "token" |}.

Definition sampleRouter : ClientRouter :=
  {| routerUser := "user"; routerUserData := sampleUser |}.

Definition sampleProcessor : MessageProcessor :=
  {| processorClient := sampleRouter |}.

Definition room (n : Z) : Area := {| areaId := n; mapId := None; areaInfo := "" |}.

(** A service that knows device ["d"], with the given supported rooms,
    routines and selection, and a processor registered for it. *)
Definition sampleService (rooms routines : list Area) (selected : list Z) : RoborockService :=
  set_messageProcessorMap (JsMap.set "d" sampleProcessor JsMap.empty)
    (set_iotApi (Some {| apiUserData := sampleUser |})
      (set_supportedAreas (<["d" := rooms]> ∅)
        (set_supportedRoutines (<["d" := routines]> ∅)
          (set_selectedAreas (<["d" := selected]> ∅)
            (newService 10 (Some {| managerName := "manager" |})))))).

(** What [stopService] sends out, read off the service it is called on. *)
Definition stopTrace (s : RoborockService) : list event :=
  (match messageClient s with
   | Some client => [ERouter client RDisconnect]
   | None => []
   end
   ++ flat_map (fun entry =>
        [ELog Debug "Disconnecting local client for device";
         EClient (snd entry) CDisconnect;
         ELog Debug "Local client disconnected for device"]) (localClientMap s)
   ++ flat_map (fun entry =>
        [ELog Debug "Disconnecting message processor for device";
         ELog Debug "Message processor disconnected for device"]) (messageProcessorMap s)
   ++ match requestDeviceStatusInterval s with
      | Some h => [EClearInterval h]
      | None => []
      end)%list.

(** The world in which [stopService] leaves [w]. *)
Definition stopped (w : World) : World :=
  {| this :=
       set_requestDeviceStatusInterval None
         (set_messageProcessorMap JsMap.empty
            (set_localClientMap JsMap.empty
               (set_messageClient None (this w))));
     trace := trace w ++ stopTrace (this w);
     now := now w;
     intervals :=
       match requestDeviceStatusInterval (this w) with
       | Some h => List.filter (fun i => negb (Nat.eqb (handle i) h)) (intervals w)
       | None => intervals w
       end;
     nextHandle := nextHandle w |}.

(** The two ways of starting a status poll. *)
Inductive activation :=
| Local (device : Device)
| OverMQTT (device : Device).

Definition activate (a : activation) : M unit :=
  match a with
  | Local device => activateDeviceNotify device
  | OverMQTT device => activateDeviceNotifyOverMQTT device
  end.

Definition activateAll (acts : list activation) : M unit := forEach acts activate.

(** Every live timer was handed out by [setInterval] before. *)
Definition handlesFresh (w : World) : Prop :=
  Forall (fun i => handle i < nextHandle w) (intervals w).

(** An environment in which the router is connected from the start and
    every status request is answered. *)
Definition readyEnv : Env :=
  {| procRejects := fun _ _ => None;
     cleanModeReply := fun _ _ => None;
     customReply := fun _ _ _ => None;
     networkInfoReply := fun _ _ => None;
     deviceStatusReply := fun _ _ _ => Some {| errorStatus := []; message := [] |};
     sceneRejects := fun _ _ => None;
     roomMappingReply := fun _ _ _ => Resolved None;
     localConnected := fun _ _ => false;
     routerConnected := fun _ _ => true |}.

Definition deviceA : Device :=
  {| duid := "a"; localKey := "key-a"; pv := "B01"; model := "roborock.vacuum.a" |}.

Definition deviceB : Device :=
  {| duid := "b"; localKey := "key-b"; pv := "B01"; model := "roborock.vacuum.b" |}.

(** A session with two vacuums, as the platform drives it: the router is
    initialised, each device gets its processor, the status poll of each is
    started, and the service is stopped. *)
Definition twoDeviceSession : M unit :=
  initializeMessageClientForLocal readyEnv deviceA;;
  initializeMessageClientForLocal readyEnv deviceB;;
  setDeviceNotify;;
  activateDeviceNotify deviceA;;
  activateDeviceNotify deviceB;;
  stopService.

Definition afterTwoDeviceSession : World :=
  let w0 := newWorld (newService 10 (Some {| managerName := "manager" |})) in
  match initializeMessageClient readyEnv 0 "user" deviceA sampleUser w0 with
  | Some (_, w1) => snd (twoDeviceSession w1)
  | None => w0
  end.

(** The events of [n] rounds of the local connection wait. *)
Definition pollEvents (n : nat) : list event :=
  concat (replicate n [ELog Debug "Keep waiting for local client to connect"; ESleep 500]).

(** The world [w] after [k] sleeps of 500 ms and nothing else. *)
Definition sleeps (k : nat) (w : World) : World :=
  {| this := this w; trace := trace w ++ replicate k (ESleep 500);
     now := (now w + 500 * Z.of_nat k)%Z;
     intervals := intervals w; nextHandle := nextHandle w |}.

(** An environment whose router reports connected from time [t] on. *)
Definition connectsAt (t : Z) : Env :=
  {| procRejects := fun _ _ => None;
     cleanModeReply := fun _ _ => None;
     customReply := fun _ _ _ => None;
     networkInfoReply := fun _ _ => None;
     deviceStatusReply := fun _ _ _ => None;
     sceneRejects := fun _ _ => None;
     roomMappingReply := fun _ _ _ => Resolved None;
     localConnected := fun _ _ => false;
     routerConnected := fun _ now => (t <=? now)%Z |}.

(** A device that speaks the local protocol, and a service that knows its
    address. *)
Definition deviceC : Device :=
  {| duid := "c"; localKey := "key-c"; pv := "1.0"; model := "roborock.vacuum.c" |}.

Definition serviceWithIp : RoborockService :=
  set_ipMap (<["c" := "192.168.1.7"]> ∅)
    (set_messageClient (Some sampleRouter)
       (newService 10 (Some {| managerName := "manager" |}))).

(** The events that a run of [m] from [w] adds to the trace. *)
Definition emitted {A} (m : M A) (w : World) : list event :=
  drop (length (trace w)) (trace (snd (m w))).

(** The rule for [startClean] in the words of the specification: with no
    routine configured, a processor [p] registered, the processor is asked
    for a global clean and for nothing else when nothing is selected, when
    the selected set is the whole set of supported rooms, or when no room
    is supported; otherwise it is asked for a room clean of the selection,
    once, and for nothing else. *)
Definition specifiedCleanRule (E : Env) (d : string) (w : World) : Prop :=
  let supportedRooms := default [] (supportedAreas (this w) !! d) in
  let selected := default [] (selectedAreas (this w) !! d) in
  let calls := List.filter isProcCall (emitted (startClean E d) w) in
  ∀ p,
    default [] (supportedRoutines (this w) !! d) = [] →
    JsMap.get d (messageProcessorMap (this w)) = Some p →
    (selected = [] ∨ sameSet selected (List.map areaId supportedRooms) ∨ supportedRooms = [] →
       calls = [EProc p (PStartClean d)])
    ∧ (¬ (selected = [] ∨ sameSet selected (List.map areaId supportedRooms)
          ∨ supportedRooms = []) →
       calls = [EProc p (PStartRoomClean d selected 1)]).

(** What the specification promises of a command on a device without a
    processor: it resolves, and the missing initialisation is among the
    things it logs. *)
Definition resolvesWithMissingLog {A} (m : M A) (w : World) : Prop :=
  (∃ a, fst (m w) = Resolved a)
  ∧ In (ELog Error "MessageApi is not initialized.") (emitted m w).

(** A service without any processor, on which routine 99 is configured and
    selected for device ["d"]. *)
Definition routineOnlyService : RoborockService :=
  set_iotApi (Some {| apiUserData := sampleUser |})
    (set_supportedRoutines (<["d" := [room 99]]> ∅)
      (set_selectedAreas (<["d" := [99%Z]]> ∅)
        (newService 10 (Some {| managerName := "manager" |})))).

(** A call that leaves the service for a device or for the cloud: a method
    of a processor, or a scene started through the IoT API. *)
Definition isRequest (e : event) : bool :=
  match e with
  | EProc _ _ => true
  | EStartScene _ _ => true
  | _ => false
  end.




(** An index map that knows areas 100 and 101 as rooms 16 and 17. *)
Definition sampleIndexMap : RoomIndexMap :=
  {| getRoomId := fun areaId =>
       if (areaId =? 100)%Z then Some 16%Z
       else if (areaId =? 101)%Z then Some 17%Z
       else None |}.

(** An environment whose local clients report connected from time [t] on. *)
Definition localConnectsAt (t : Z) : Env :=
  {| procRejects := fun _ _ => None;
     cleanModeReply := fun _ _ => None;
     customReply := fun _ _ _ => None;
     networkInfoReply := fun _ _ => None;
     deviceStatusReply := fun _ _ _ => None;
     sceneRejects := fun _ _ => None;
     roomMappingReply := fun _ _ _ => Resolved None;
     localConnected := fun _ now => (t <=? now)%Z;
     routerConnected := fun _ _ => true |}.

(** A service whose router exists and that knows no address. *)
Definition serviceWithRouter : RoborockService :=
  set_messageClient (Some sampleRouter)
    (newService 10 (Some {| managerName := "manager" |})).

(** ** Logging in

    The login API is handed to the service by a factory; the service sees
    an object with asynchronous methods.  Each method is taken as a
    computation of its own, about which nothing is assumed; so are the
    callbacks that load, save and clear the persisted user data. *)
Record UrlByEmailResult := {
  baseUrl : string;
  country : string;
  countryCode : string;
}.

Record HomeInfo := {
  rrHomeId : Z;
}.

Record LoginApi := {
  login_getUrlInfo : string → M UrlByEmailResult;
  login_requestCode : string → M UrlByEmailResult;
  login_loginWithCode : string → string → string → M UserData;
  login_loginWithCodeV4 : string → string → string → string → string → M UserData;
  login_loginWithUserData : string → UserData → M UserData;
  login_getHomeDetails : M (option HomeInfo);
}.

Section Login.

Context (loginApi : LoginApi).

Definition getUrlInfo (username : string) : M UrlByEmailResult :=
  logger Debug "Getting URL info for user";;
  login_getUrlInfo loginApi username.

Definition requestCode (username : string) : M UrlByEmailResult :=
  logger Debug "Requesting 2FA code for user";;
  login_requestCode loginApi username.

(** [urlResult.country && urlResult.countryCode]: both strings are
    non-empty. *)
Definition hasCountryInfo (urlResult : UrlByEmailResult) : bool :=
  negb (String.eqb (country urlResult) "") && negb (String.eqb (countryCode urlResult) "").

Definition loginWithCode (username twofa : string) (urlResult : UrlByEmailResult)
    (savedUserData : UserData → M unit) : M UserData :=
  userdata <-
    (if hasCountryInfo urlResult then
       logger Debug "Logging in with V4 API";;
       login_loginWithCodeV4 loginApi username twofa (baseUrl urlResult)
         (country urlResult) (countryCode urlResult)
     else
       logger Debug "Logging in with V1 API (no country info)";;
       login_loginWithCode loginApi username twofa (baseUrl urlResult));;
  savedUserData userdata;;
  auth userdata.


End Login.

(** The world [w] with its service authenticated for [ud], as [auth]
    leaves it. *)
Definition authenticated (ud : UserData) (w : World) : World :=
  {| this := set_iotApi (Some {| apiUserData := ud |}) (set_userdata (Some ud) (this w));
     trace := trace w; now := now w;
     intervals := intervals w; nextHandle := nextHandle w |}.

(** A login API all of whose methods reject, except that it accepts saved
    user data whose token is not empty. *)
Definition strictLoginApi : LoginApi :=
  {| login_getUrlInfo := fun _ => throw "offline";
     login_requestCode := fun _ => throw "offline";
     login_loginWithCode := fun _ _ _ => throw "offline";
     login_loginWithCodeV4 := fun _ _ _ _ _ => throw "offline";
     login_loginWithUserData := fun _ ud =>
       if String.eqb (token ud) "" then throw "expired" else ret ud;
     login_getHomeDetails := ret None |}.

(** ** Listing the devices of a home

    The records of the cloud API ([Zmodel/*]) are not part of the sources
    at hand; they are given the fields that [roborockService.ts] reads.
    Field names that Rocq already uses ([id], [model], [duid], ...) carry
    the name of their record in front. *)
Record Product := {
  product_id : string;
  product_model : string;
  product_category : string;
}.

(** A device as the cloud API sends it. *)
Record HomeDevice := {
  device_duid : string;
  device_name : string;
  device_sn : string;
  device_fv : string;
  device_localKey : string;
  device_pv : string;
  device_productId : string;
  deviceStatus : option (gmap Z Z);
}.

Record Room := {
  room_id : Z;
  room_name : string;
}.

Record Home := {
  products : list Product;
  devices : list HomeDevice;
  receivedDevices : list HomeDevice;
  rooms : list Room;
}.

Record Scene := {
  scene_name : string;
  param : option string;
}.

Record DeviceData := {
  data_id : string;
  firmwareVersion : string;
  data_serialNumber : string;
  data_model : option string;
  data_category : option string;
  batteryLevel : Z;
}.

Record DeviceStore := {
  store_username : option string;
  store_userData : option UserData;
  store_localKey : string;
  store_pv : string;
  store_model : option string;
}.

(** A device as the service hands it on: the device of the cloud API
    ([...device]) with the fields that the service adds.  [scenes] and the
    user name of the store are set by [listDevices] and left out by
    [getHomeDataForUpdating]. *)
Record ListedDevice := {
  listed : HomeDevice;
  listed_rrHomeId : Z;
  listed_rooms : list Room;
  serialNumber : string;
  scenes : option (list Scene);
  data : DeviceData;
  store : DeviceStore;
}.

(** What [getHomeDataForUpdating] returns: [{ ...homeData, devices: dvs }]. *)
Record UpdatedHome := {
  updated_products : list Product;
  updated_devices : list ListedDevice;
  updated_receivedDevices : list HomeDevice;
  updated_rooms : list Room;
}.

(** The calls of the IoT API that list a home, and [JSON.parse] on the
    parameter of a scene, which gives the entity ids of
    [action.items] or throws.  A call is answered by the API object and
    the home id alone: asked twice during one listing, the API answers the
    same. *)
Record HomeApi := {
  getHome : RoborockIoTApi → Z → Outcome (option Home);
  getHomev2 : RoborockIoTApi → Z → Outcome (option Home);
  getHomev3 : RoborockIoTApi → Z → Outcome (option Home);
  getScenes : RoborockIoTApi → Z → Outcome (option (list Scene));
  parseSceneParam : string → Outcome (list string);
}.

Definition vacuumNeedAPIV3 : list string := ["roborock.vacuum.ss07"].

Definition await {A} (o : Outcome A) : M A :=
  match o with
  | Resolved a => ret a
  | Rejected err => throw err
  end.

(** [this.iotApi.method(...)] after an [await]: the field is read again. *)
Definition currentIotApi : M RoborockIoTApi :=
  s <- getThis;;
  match iotApi s with
  | Some api => ret api
  | None => throw "TypeError"
  end.

(** [[...old, ...fresh.filter((d) => !old.some((x) => x.duid === d.duid))]] *)
Definition mergeByDuid (old fresh : list HomeDevice) : list HomeDevice :=
  old ++ List.filter
           (fun d => negb (existsb (fun x => String.eqb (device_duid x) (device_duid d)) old))
           fresh.

(** [home && home.rooms && home.rooms.length > 0] *)
Definition hasRooms (home : option Home) : bool :=
  match home with
  | Some h => (0 <? length (rooms h))%nat
  | None => false
  end.

(** [products.find((p) => p.id === productId)] *)
Definition findProduct (ps : list Product) (productId : string) : option Product :=
  List.find (fun p => String.eqb (product_id p) productId) ps.

(** The [Map] built by [products.forEach((p) => products.set(p.id, p.model))],
    read at [productId]: the last product with that id wins. *)
Definition productModels (ps : list Product) : gmap string string :=
  fold_left (fun m p => <[product_id p := product_model p]> m) ps ∅.

Section Homes.

Context (loginApi : LoginApi) (homeApi : HomeApi) (Protocol_battery : Z).

Definition deviceData (ps : list Product) (device : HomeDevice) : DeviceData :=
  {| data_id := device_duid device;
     firmwareVersion := device_fv device;
     data_serialNumber := device_sn device;
     data_model := product_model <$> findProduct ps (device_productId device);
     data_category := product_category <$> findProduct ps (device_productId device);
     batteryLevel :=
       default 100%Z (deviceStatus device ≫= fun status => status !! Protocol_battery) |}.

(** [scenes.filter((sc) => sc.param && JSON.parse(sc.param).action.items
    .some((x) => x.entityId == duid))] *)
Fixpoint scenesOf (duid : string) (all : list Scene) : M (list Scene) :=
  match all with
  | [] => ret []
  | sc :: rest =>
      keep <- (if truthy (param sc) then
                 entities <- await (parseSceneParam homeApi (default "" (param sc)));;
                 ret (existsb (fun x => String.eqb x duid) entities)
               else ret false);;
      others <- scenesOf duid rest;;
      ret (if keep then sc :: others else others)
  end.

Fixpoint mapM {A B} (f : A → M B) (l : list A) : M (list B) :=
  match l with
  | [] => ret []
  | x :: l' =>
      y <- f x;;
      ys <- mapM f l';;
      ret (y :: ys)
  end.

Definition listDevices (username : string) : M (list ListedDevice) :=
  s <- getThis;;
  if negb (bool_decide (is_Some (iotApi s))) then throw "AssertionError"
  else if negb (bool_decide (is_Some (userdata s))) then throw "AssertionError"
  else
    homeDetails <- login_getHomeDetails loginApi;;
    match homeDetails with
    | None => throw "Failed to retrieve the home details"
    | Some details =>
        api <- currentIotApi;;
        homeData <- await (getHome homeApi api (rrHomeId details));;
        match homeData with
        | None => ret []
        | Some home =>
            api <- currentIotApi;;
            listed <- await (getScenes homeApi api (rrHomeId details));;
            let allScenes := default [] listed in
            merged <-
              (if existsb (fun p => existsb (String.eqb (product_model p)) vacuumNeedAPIV3)
                    (products home)
               then
                 logger Debug "Using v3 API for home data retrieval";;
                 api <- currentIotApi;;
                 homeDataV3 <- await (getHomev3 homeApi api (rrHomeId details));;
                 match homeDataV3 with
                 | None => throw "Failed to retrieve the home data from v3 API"
                 | Some v3 =>
                     ret (mergeByDuid (devices home) (devices v3),
                          mergeByDuid (receivedDevices home) (receivedDevices v3))
                 end
               else ret (devices home, receivedDevices home));;
            homeRooms <-
              (if (length (rooms home) =? 0)%nat then
                 api <- currentIotApi;;
                 homeDataV2 <- await (getHomev2 homeApi api (rrHomeId details));;
                 if hasRooms homeDataV2 then ret (default [] (rooms <$> homeDataV2))
                 else
                   api <- currentIotApi;;
                   homeDataV3 <- await (getHomev3 homeApi api (rrHomeId details));;
                   if hasRooms homeDataV3 then ret (default [] (rooms <$> homeDataV3))
                   else ret (rooms home)
               else ret (rooms home));;
            mapM (fun device =>
                    deviceScenes <- scenesOf (device_duid device) allScenes;;
                    s <- getThis;;
                    ret {| listed := device;
                           listed_rrHomeId := rrHomeId details;
                           listed_rooms := homeRooms;
                           serialNumber := device_sn device;
                           scenes := Some deviceScenes;
                           data := deviceData (products home) device;
                           store :=
                             {| store_username := Some username;
                                store_userData := userdata s;
                                store_localKey := device_localKey device;
                                store_pv := device_pv device;
                                store_model :=
                                  productModels (products home) !! device_productId device |} |})
                 (fst merged ++ snd merged)
        end
    end.

Definition getHomeDataForUpdating (homeid : Z) : M UpdatedHome :=
  s <- getThis;;
  if negb (bool_decide (is_Some (iotApi s))) then throw "AssertionError"
  else if negb (bool_decide (is_Some (userdata s))) then throw "AssertionError"
  else
    api <- currentIotApi;;
    homeData <- await (getHomev2 homeApi api homeid);;
    match homeData with
    | None => throw "Failed to retrieve the home data"
    | Some home =>
        let chosen :=
          if (0 <? length (devices home))%nat then devices home else receivedDevices home in
        homeRooms <-
          (if (length (rooms home) =? 0)%nat then
             api <- currentIotApi;;
             homeDataV3 <- await (getHomev3 homeApi api homeid);;
             if hasRooms homeDataV3 then ret (default [] (rooms <$> homeDataV3))
             else
               api <- currentIotApi;;
               homeDataV1 <- await (getHome homeApi api homeid);;
               if hasRooms homeDataV1 then ret (default [] (rooms <$> homeDataV1))
               else ret (rooms home)
           else ret (rooms home));;
        dvs <- mapM (fun device =>
                       s <- getThis;;
                       ret {| listed := device;
                              listed_rrHomeId := homeid;
                              listed_rooms := homeRooms;
                              serialNumber := device_sn device;
                              scenes := None;
                              data := deviceData (products home) device;
                              store :=
                                {| store_username := None;
                                   store_userData := userdata s;
                                   store_localKey := device_localKey device;
                                   store_pv := device_pv device;
                                   store_model :=
                                     productModels (products home)
                                       !! device_productId device |} |})
                    chosen;;
        ret {| updated_products := products home;
               updated_devices := dvs;
               updated_receivedDevices := receivedDevices home;
               updated_rooms := homeRooms |}
    end.

End Homes.

(** Whether a scene acts on the device [duid], when its parameter can be
    parsed. *)
Definition sceneTargets (homeApi : HomeApi) (duid : string) (sc : Scene) : bool :=
  truthy (param sc)
  && match parseSceneParam homeApi (default "" (param sc)) with
     | Resolved entities => existsb (fun x => String.eqb x duid) entities
     | Rejected _ => false
     end.

(** The entry that [listDevices] builds for a device. *)
Definition listedEntry (homeApi : HomeApi) (Protocol_battery : Z) (username : string)
    (ud : option UserData) (homeId : Z) (home : Home) (homeRooms : list Room)
    (allScenes : list Scene) (device : HomeDevice) : ListedDevice :=
  {| listed := device;
     listed_rrHomeId := homeId;
     listed_rooms := homeRooms;
     serialNumber := device_sn device;
     scenes := Some (List.filter (sceneTargets homeApi (device_duid device)) allScenes);
     data := deviceData Protocol_battery (products home) device;
     store :=
       {| store_username := Some username;
          store_userData := ud;
          store_localKey := device_localKey device;
          store_pv := device_pv device;
          store_model := productModels (products home) !! device_productId device |} |}.

(** The first of the three homes that has rooms gives the rooms. *)
Definition roomsByPriority (first : Home) (second third : option Home) : list Room :=
  if (0 <? length (rooms first))%nat then rooms first
  else if hasRooms second then default [] (rooms <$> second)
  else if hasRooms third then default [] (rooms <$> third)
  else [].

(** The entry that [getHomeDataForUpdating] builds for a device. *)
Definition updatedEntry (Protocol_battery : Z) (ud : option UserData) (homeId : Z)
    (home : Home) (homeRooms : list Room) (device : HomeDevice) : ListedDevice :=
  {| listed := device;
     listed_rrHomeId := homeId;
     listed_rooms := homeRooms;
     serialNumber := device_sn device;
     scenes := None;
     data := deviceData Protocol_battery (products home) device;
     store :=
       {| store_username := None;
          store_userData := ud;
          store_localKey := device_localKey device;
          store_pv := device_pv device;
          store_model := productModels (products home) !! device_productId device |} |}.

(** [products.some((p) => vacuumNeedAPIV3.includes(p.model))] *)
Definition needsV3 (home : Home) : bool :=
  existsb (fun p => existsb (String.eqb (product_model p)) vacuumNeedAPIV3) (products home).

(** A login API that knows the home 7 and is otherwise [strictLoginApi]. *)
Definition homeLoginApi : LoginApi :=
  {| login_getUrlInfo := login_getUrlInfo strictLoginApi;
     login_requestCode := login_requestCode strictLoginApi;
     login_loginWithCode := login_loginWithCode strictLoginApi;
     login_loginWithCodeV4 := login_loginWithCodeV4 strictLoginApi;
     login_loginWithUserData := login_loginWithUserData strictLoginApi;
     login_getHomeDetails := ret (Some {| rrHomeId := 7 |}) |}.

Definition homeDevice (duid productId : string) : HomeDevice :=
  {| device_duid := duid; device_name := "vacuum"; device_sn := "sn-" ++ duid;
     device_fv := "02.16.12"; device_localKey := "key"; device_pv := "1.0";
     device_productId := productId; deviceStatus := None |}.

(** A home without rooms whose only product needs the v3 API. *)
Definition sampleHome : Home :=
  {| products :=
       [{| product_id := "p1"; product_model := "roborock.vacuum.ss07";
           product_category := "robot.vacuum.cleaner" |}];
     devices := [homeDevice "d1" "p1"];
     receivedDevices := [homeDevice "d2" "p1"];
     rooms := [] |}.

Definition sampleHomeV3 : Home :=
  {| products := products sampleHome;
     devices := [homeDevice "d1" "p1"; homeDevice "d3" "p1"];
     receivedDevices := [];
     rooms := [{| room_id := 1; room_name := "Kitchen" |}] |}.

Definition sampleScenes : list Scene :=
  [{| scene_name := "morning"; param := Some "d3" |};
   {| scene_name := "empty"; param := None |}].

(** An IoT API that has [sampleHome] under every id, its v2 form under
    every id but 7, and [sampleHomeV3]; the parameter of a scene stands
    for the one entity it names. *)
Definition sampleHomeApi : HomeApi :=
  {| getHome := fun _ _ => Resolved (Some sampleHome);
     getHomev2 := fun _ homeid =>
       Resolved (if (homeid =? 7)%Z then None else Some sampleHome);
     getHomev3 := fun _ _ => Resolved (Some sampleHomeV3);
     getScenes := fun _ _ => Resolved (Some sampleScenes);
     parseSceneParam := fun text =>
       if String.eqb text "" then Rejected "SyntaxError" else Resolved [text] |}.

(** A service after login. *)
Definition loggedInService : RoborockService :=
  set_iotApi (Some {| apiUserData := sampleUser |})
    (set_userdata (Some sampleUser) (newService 10 None)).

(** * RoborockAuthenticateApi: [roborockCommunication/RESTAPI/roborockAuthenticateApi.ts]

    The login API keeps the user name and the token of the last login and
    talks to the cloud through axios.  Its methods run in a monad of their
    own, over the object and the list of the HTTP requests sent so far.
    What the cloud answers, the MD5 digest and the random UUIDs come from
    an environment [Net]. *)
Module RoborockAuthenticateApi.

(** The body of an answer, [AuthenticateResponse<T>].  [response_msg] and
    [response_code] are the texts that string concatenation makes of
    [msg] and [code]. *)
Record AuthenticateResponse (A : Type) := {
  response_data : option A;
  response_msg : string;
  response_code : string;
}.
Arguments response_data {A} _.
Arguments response_msg {A} _.
Arguments response_code {A} _.

Record BaseUrl := {
  url : string;
  base_country : string;
  base_countrycode : string;
}.

(** What [axiosFactory.create] is given. *)
Record AxiosInstance := {
  baseURL : string;
  header_clientid : string;
  Authorization : option string;
}.

Inductive HttpVerb := HttpGet | HttpPost.

(** A request as it leaves: the instance it is sent through, the path, the
    entries of the [URLSearchParams] of its body and the headers of the
    call. *)
Record HttpRequest := {
  req_instance : AxiosInstance;
  req_verb : HttpVerb;
  req_path : string;
  req_body : list (string * string);
  req_headers : list (string * string);
}.

(** The fields of the object. *)
Record t := {
  this_deviceId : string;
  this_username : option string;
  this_authToken : option string;
  this_country : string;
  this_countryCode : string;
}.

Record AuthWorld := {
  self : t;
  sent : list HttpRequest;
  draws : nat;
}.

(** The world outside.  An answer is the [data] of the axios response, or
    the rejection of the call; for [api/v3/key/sign] it is the value of
    [signCode?.data?.k]. *)
Record Net := {
  md5 : string → string → string;
  randomUUID : nat → string;
  answer_getUrlByEmail : HttpRequest → Outcome (AuthenticateResponse BaseUrl);
  answer_codeSend : HttpRequest → Outcome unit;
  answer_login : HttpRequest → Outcome (AuthenticateResponse UserData);
  answer_sign : HttpRequest → Outcome (option string);
  answer_loginV4 : HttpRequest → Outcome (AuthenticateResponse UserData);
  answer_getHomeDetail : HttpRequest → Outcome (AuthenticateResponse HomeInfo);
}.

Definition AuthM (A : Type) : Type := AuthWorld → Outcome A * AuthWorld.

#[global] Instance AuthM_ret : MRet AuthM := fun A a w => (Resolved a, w).

#[global] Instance AuthM_bind : MBind AuthM := fun A B k m w =>
  match m w with
  | (Resolved a, w') => k a w'
  | (Rejected err, w') => (Rejected err, w')
  end.

Definition fail {A} (err : string) : AuthM A := fun w => (Rejected err, w).

Definition getSelf : AuthM t := fun w => (Resolved (self w), w).

Definition setSelf (f : t → t) : AuthM unit :=
  fun w => (Resolved tt, {| self := f (self w); sent := sent w; draws := draws w |}).

(** [await api.post(...)] and [await api.get(...)]: the request leaves and
    the answer comes back. *)
Definition send {A} (answer : HttpRequest → Outcome A) (r : HttpRequest) : AuthM A :=
  fun w => (answer r, {| self := self w; sent := (sent w ++ [r])%list; draws := draws w |}).

Section Methods.

Context (N : Net).

(** [crypto.randomUUID()] *)
Definition drawUUID : AuthM string :=
  fun w => (Resolved (randomUUID N (draws w)),
            {| self := self w; sent := sent w; draws := S (draws w) |}).

(** [new RoborockAuthenticateApi(logger)] *)
Definition constructor : AuthWorld :=
  {| self := {| this_deviceId := randomUUID N 0; this_username := None;
                this_authToken := None; this_country := ""; this_countryCode := "" |};
     sent := []; draws := 1 |}.

Definition loginWithAuthToken (username token : string) : AuthM unit :=
  setSelf (fun s =>
    {| this_deviceId := this_deviceId s; this_username := Some username;
       this_authToken := Some token; this_country := this_country s;
       this_countryCode := this_countryCode s |}).

Definition loginWithUserData (username : string) (userData : UserData) : AuthM UserData :=
  _ ← loginWithAuthToken username (token userData);
  mret userData.

(** [baseUrl = 'https://usiot.roborock.com'] when the argument is left out. *)
Definition apiForUser (username : string) (baseUrl : option string) : AuthM AxiosInstance :=
  s ← getSelf;
  mret {| baseURL := default "https://usiot.roborock.com" baseUrl;
          header_clientid := md5 N username (this_deviceId s);
          Authorization := this_authToken s |}.

Definition auth (username : string) (response : AuthenticateResponse UserData)
    : AuthM UserData :=
  match response_data response with
  | Some userdata =>
      if String.eqb (token userdata) "" then
        fail ("Authentication failed: " ++ response_msg response
              ++ " code: " ++ response_code response)
      else
        _ ← loginWithAuthToken username (token userdata);
        mret userdata
  | None =>
      fail ("Authentication failed: " ++ response_msg response
            ++ " code: " ++ response_code response)
  end.

Definition getUrlByEmail (username : string) : AuthM UrlByEmailResult :=
  api ← apiForUser username None;
  apiResponse ←
    send (answer_getUrlByEmail N)
      {| req_instance := api; req_verb := HttpPost; req_path := "api/v1/getUrlByEmail";
         req_body := [("email", username); ("needtwostepauth", "false")];
         req_headers := [] |};
  match response_data apiResponse with
  | None => fail ("Failed to retrieve base URL: " ++ response_msg apiResponse)
  | Some d =>
      _ ← setSelf (fun s =>
            {| this_deviceId := this_deviceId s; this_username := this_username s;
               this_authToken := this_authToken s; this_country := base_country d;
               this_countryCode := base_countrycode d |});
      mret {| baseUrl := url d; country := base_country d;
              countryCode := base_countrycode d |}
  end.

Definition getAPIFor (username : string) : AuthM AxiosInstance :=
  urlResult ← getUrlByEmail username;
  apiForUser username (Some (baseUrl urlResult)).

Definition requestCode (username : string) : AuthM UrlByEmailResult :=
  urlResult ← getUrlByEmail username;
  api ← apiForUser username (Some (baseUrl urlResult));
  _ ← send (answer_codeSend N)
        {| req_instance := api; req_verb := HttpPost; req_path := "api/v4/email/code/send";
           req_body := [("email", username); ("type", "login"); ("platform", "")];
           req_headers := [("content-type", "application/x-www-form-urlencoded");
                           ("header_clientlang", "en")] |};
  mret urlResult.

Definition loginWithCode (username twofa baseUrl : string) : AuthM UserData :=
  api ← apiForUser username (Some baseUrl);
  response ←
    send (answer_login N)
      {| req_instance := api; req_verb := HttpPost; req_path := "api/v1/login";
         req_body := [("username", username); ("verifycode", twofa);
                      ("verifycodetype", "AUTH_EMAIL_CODE")];
         req_headers := [] |};
  auth username response.

Definition signKeyV3 (username baseUrl nonce : string) : AuthM (option string) :=
  api ← apiForUser username (Some baseUrl);
  send (answer_sign N)
    {| req_instance := api; req_verb := HttpPost; req_path := "api/v3/key/sign";
       req_body := [("s", nonce)]; req_headers := [] |}.

Definition loginWithCodeV4 (username twofa baseUrl country countryCode : string)
    : AuthM UserData :=
  uuid ← drawUUID;
  let xMercyKs := String.substring 0 16 uuid in
  signCode ← signKeyV3 username baseUrl xMercyKs;
  if negb (truthy signCode) then fail "Failed to obtain sign key for V4 login"
  else
    api ← apiForUser username (Some baseUrl);
    response ←
      send (answer_loginV4 N)
        {| req_instance := api; req_verb := HttpPost;
           req_path := "api/v4/auth/email/login/code";
           req_body := [("country", country); ("countryCode", countryCode);
                        ("email", username); ("code", twofa);
                        ("majorVersion", "14"); ("minorVersion", "0")];
           req_headers := [("content-type", "application/json");
                           ("x-mercy-ks", xMercyKs);
                           ("x-mercy-k", default "" signCode);
                           ("header_clientlang", "en");
                           ("header_appversion", "4.54.02");
                           ("header_phonesystem", "iOS");
                           ("header_phonemodel", "iPhone16,1")] |};
    auth username response.

Definition getHomeDetails : AuthM (option HomeInfo) :=
  s ← getSelf;
  if negb (truthy (this_username s)) || negb (truthy (this_authToken s)) then mret None
  else
    api ← getAPIFor (default "" (this_username s));
    apiResponse ←
      send (answer_getHomeDetail N)
        {| req_instance := api; req_verb := HttpGet; req_path := "api/v1/getHomeDetail";
           req_body := []; req_headers := [] |};
    match response_data apiResponse with
    | None => fail "Failed to retrieve the home details"
    | Some d => mret (Some d)
    end.

End Methods.

(** The requests that a method sends, in their order. *)
Definition sentBy {A} (m : AuthM A) (w : AuthWorld) : list HttpRequest :=
  drop (length (sent w)) (sent (snd (m w))).

(** The axios instance of a user for a base URL, made from the object [s]. *)
Definition instanceFor (N : Net) (username : string) (s : t) (base : string)
    : AxiosInstance :=
  {| baseURL := base;
     header_clientid := md5 N username (this_deviceId s);
     Authorization := this_authToken s |}.

(** A cloud that knows one account: it sends every user to the European
    server, accepts the code 123456 and hands out the token [t1]. *)
Definition sampleNet : Net :=
  let login := fun r =>
    Resolved
      (if bool_decide (("verifycode", "123456") ∈ req_body r)
          || bool_decide (("code", "123456") ∈ req_body r)
       then {| response_data := Some {| token := "t1" |};
               response_msg := "success"; response_code := "200" |}
       else {| response_data := None;
               response_msg := "invalid code"; response_code := "2018" |}) in
  {| md5 := fun username deviceId => username ++ "/" ++ deviceId;
     randomUUID := fun _ => "3f2b8c1e-7d4a-4e0b-9a6c-5d1f0e2b7c8a";
     answer_getUrlByEmail := fun _ =>
       Resolved {| response_data :=
                     Some {| url := "https://euiot.roborock.com";
                             base_country := "DE"; base_countrycode := "49" |};
                   response_msg := "success"; response_code := "200" |};
     answer_codeSend := fun _ => Resolved tt;
     answer_login := login;
     answer_sign := fun r =>
       Resolved (if bool_decide (Authorization (req_instance r) = None)
                 then Some "k1" else None);
     answer_loginV4 := login;
     answer_getHomeDetail := fun _ =>
       Resolved {| response_data := Some {| rrHomeId := 7 |};
                   response_msg := "success"; response_code := "200" |} |}.

End RoborockAuthenticateApi.

(** * Properties of the service *)

(** ** Running the monad *)

Lemma bind_resolved {A B} (m : M A) (k : A → M B) w a w' :
  m w = (Resolved a, w') → bind m k w = k a w'.
Proof. intros H. unfold bind. by rewrite H. Qed.

Lemma emit_addTrace e w : emit e w = (Resolved tt, addTrace [e] w).
Proof. reflexivity. Qed.

Lemma logger_addTrace lv msg w : logger lv msg w = (Resolved tt, addTrace [ELog lv msg] w).
Proof. reflexivity. Qed.

Lemma addTrace_addTrace evs1 evs2 w :
  addTrace evs2 (addTrace evs1 w) = addTrace (evs1 ++ evs2) w.
Proof. unfold addTrace. simpl. by rewrite <- app_assoc. Qed.

Lemma this_addTrace evs w : this (addTrace evs w) = this w.
Proof. reflexivity. Qed.

Section ServiceFacts.

Variable E : Env.

Lemma getMessageProcessor_present d p w :
  JsMap.get d (messageProcessorMap (this w)) = Some p →
  getMessageProcessor d w = (Resolved (Some p), w).
Proof.
  intros H. unfold getMessageProcessor, bind, getThis. by rewrite H.
Qed.

Lemma getMessageProcessor_absent d w :
  JsMap.get d (messageProcessorMap (this w)) = None →
  getMessageProcessor d w =
    (Resolved None, addTrace [ELog Error "MessageApi is not initialized."] w).
Proof.
  intros H. unfold getMessageProcessor, bind, getThis. by rewrite H.
Qed.

(** A selection filtered against no area at all is empty. *)
Lemma selectedAmong_nil selected : selectedAmong [] selected = [].
Proof. induction selected as [|x l IH]; [done | by simpl]. Qed.

Lemma selectedAmong_of_nil areas : selectedAmong areas [] = [].
Proof. reflexivity. Qed.

Lemma selectedAmong_In areas selected x :
  In x (selectedAmong areas selected) ↔
  In x selected ∧ ∃ a, In a areas ∧ areaId a = x.
Proof.
  unfold selectedAmong. rewrite filter_In, existsb_exists.
  split; intros [Hx [a [Ha Heq]]]; (split; [done | exists a; split; [done | lia]]).
Qed.

(** The three ways in which [startClean] reaches for the processor. *)
Lemma globalClean_present d p w :
  JsMap.get d (messageProcessorMap (this w)) = Some p →
  (logger Debug "RoborockService - startGlobalClean";;
   mp <- getMessageProcessor d;;
   match mp with
   | Some p => fireProc p (PStartClean d)
   | None => ret tt
   end) w
  = (Resolved tt,
     addTrace [ELog Debug "RoborockService - startGlobalClean"; EProc p (PStartClean d)] w).
Proof.
  intros H. unfold bind at 1. rewrite logger_addTrace.
  erewrite bind_resolved by (apply getMessageProcessor_present; exact H).
  unfold fireProc. by rewrite emit_addTrace, addTrace_addTrace.
Qed.

Lemma roomClean_present d p rooms w :
  JsMap.get d (messageProcessorMap (this w)) = Some p →
  (logger Debug "RoborockService - startRoomClean";;
   mp <- getMessageProcessor d;;
   match mp with
   | Some p => awaitProc E p (PStartRoomClean d rooms 1)
   | None => ret tt
   end) w
  = (match procRejects E p (PStartRoomClean d rooms 1) with
     | Some err => Rejected err
     | None => Resolved tt
     end,
     addTrace [ELog Debug "RoborockService - startRoomClean";
               EProc p (PStartRoomClean d rooms 1)] w).
Proof.
  intros H. unfold bind at 1. rewrite logger_addTrace.
  erewrite bind_resolved by (apply getMessageProcessor_present; exact H).
  unfold awaitProc, bind. rewrite emit_addTrace, addTrace_addTrace. simpl.
  by destruct (procRejects E p _).
Qed.

Lemma processor_absent {A} d lv (msg : string) (k : MessageProcessor → M A) (a : A) w :
  JsMap.get d (messageProcessorMap (this w)) = None →
  (logger lv msg;;
   mp <- getMessageProcessor d;;
   match mp with
   | Some p => k p
   | None => ret a
   end) w
  = (Resolved a,
     addTrace [ELog lv msg; ELog Error "MessageApi is not initialized."] w).
Proof.
  intros H. unfold bind at 1. rewrite logger_addTrace.
  erewrite bind_resolved by (apply getMessageProcessor_absent; exact H).
  unfold ret. by rewrite addTrace_addTrace.
Qed.

(** [startClean], branch by branch. *)
Lemma startClean_unfold d w :
  startClean E d w =
  let s := this w in
  let supportedRooms := default [] (supportedAreas s !! d) in
  let routines := default [] (supportedRoutines s !! d) in
  let selected := default [] (selectedAreas s !! d) in
  let w0 := addTrace [ELog Debug "RoborockService - begin cleaning"] w in
  let global :=
    (logger Debug "RoborockService - startGlobalClean";;
     mp <- getMessageProcessor d;;
     match mp with
     | Some p => fireProc p (PStartClean d)
     | None => ret tt
     end) in
  let room := fun rooms =>
    (logger Debug "RoborockService - startRoomClean";;
     mp <- getMessageProcessor d;;
     match mp with
     | Some p => awaitProc E p (PStartRoomClean d rooms 1)
     | None => ret tt
     end) in
  if (length routines =? 0)%nat then
    if (length selected =? length supportedRooms)%nat
       || (length selected =? 0)%nat || (length supportedRooms =? 0)%nat
    then global w0 else room selected w0
  else
    let rooms := selectedAmong supportedRooms selected in
    let rt := selectedAmong routines selected in
    if (1 <? length rt)%nat then
      (Resolved tt,
       addTrace [ELog Debug "RoborockService - begin cleaning";
                 ELog Warn "RoborockService - Multiple routines selected, which is not supported."] w)
    else if (length rt =? 1)%nat then
      match iotApi s with
      | Some api =>
          (match sceneRejects E api (List.nth 0 rt 0%Z) with
           | Some err => Rejected err
           | None => Resolved tt
           end,
           addTrace [ELog Debug "RoborockService - begin cleaning";
                     ELog Debug "RoborockService - startScene";
                     EStartScene api (List.nth 0 rt 0%Z)] w)
      | None =>
          (Resolved tt,
           addTrace [ELog Debug "RoborockService - begin cleaning";
                     ELog Debug "RoborockService - startScene"] w)
      end
    else if (length rooms =? length supportedRooms)%nat
            || (length rooms =? 0)%nat || (length supportedRooms =? 0)%nat
    then global w0
    else if (0 <? length rooms)%nat then room rooms w0
    else
      (Resolved tt,
       addTrace [ELog Debug "RoborockService - begin cleaning";
                 ELog Warn "RoborockService - something goes wrong."] w).
Proof.
  unfold startClean. unfold bind at 1, getThis at 1. unfold bind at 1.
  rewrite logger_addTrace. cbv zeta.
  repeat case_match; try reflexivity;
    rewrite ?logger_addTrace, ?addTrace_addTrace; try reflexivity.
  all: unfold bind; rewrite ?logger_addTrace, ?emit_addTrace, ?addTrace_addTrace;
    simpl; rewrite ?addTrace_addTrace; try reflexivity.
  all: repeat case_match; simplify_eq; try reflexivity.
Qed.

(** ** Choosing between a global clean, a room clean and a scene *)

(** C1, as the code has it.  With no routine configured for the device and
    a processor registered for it: when the selection is empty, or has as
    many entries as the list of supported rooms, or no room is supported,
    [startClean] calls the processor's [startClean] and nothing else on
    it; otherwise it calls [startRoomClean] with the selection as it is
    stored and a pass count of 1, and nothing else.  The comparison with
    the supported rooms is one of lengths. *)
Theorem startClean_without_routines d p w :
  default [] (supportedRoutines (this w) !! d) = [] →
  JsMap.get d (messageProcessorMap (this w)) = Some p →
  let supportedRooms := default [] (supportedAreas (this w) !! d) in
  let selected := default [] (selectedAreas (this w) !! d) in
  (selected = [] ∨ length selected = length supportedRooms ∨ supportedRooms = [] →
     startClean E d w =
       (Resolved tt,
        addTrace [ELog Debug "RoborockService - begin cleaning";
                  ELog Debug "RoborockService - startGlobalClean";
                  EProc p (PStartClean d)] w))
  ∧ (¬ (selected = [] ∨ length selected = length supportedRooms ∨ supportedRooms = []) →
     startClean E d w =
       (match procRejects E p (PStartRoomClean d selected 1) with
        | Some err => Rejected err
        | None => Resolved tt
        end,
        addTrace [ELog Debug "RoborockService - begin cleaning";
                  ELog Debug "RoborockService - startRoomClean";
                  EProc p (PStartRoomClean d selected 1)] w)).
Proof.
  intros Hrt Hp supportedRooms selected.
  rewrite startClean_unfold. cbv zeta. rewrite Hrt.
  fold supportedRooms selected. simpl length at 1. simpl Nat.eqb at 1. cbv iota.
  split; intros Hcond.
  - replace ((length selected =? length supportedRooms)%nat
             || (length selected =? 0)%nat || (length supportedRooms =? 0)%nat)
      with true.
    + rewrite (globalClean_present d p) by (rewrite this_addTrace; exact Hp).
      by rewrite addTrace_addTrace.
    + symmetry. rewrite !orb_true_iff, !Nat.eqb_eq.
      destruct Hcond as [-> | [Hlen | Hempty]]; [by left; right | by left; left |].
      right. by rewrite Hempty.
  - replace ((length selected =? length supportedRooms)%nat
             || (length selected =? 0)%nat || (length supportedRooms =? 0)%nat)
      with false.
    + rewrite (roomClean_present d p) by (rewrite this_addTrace; exact Hp).
      by rewrite addTrace_addTrace.
    + symmetry. apply not_true_is_false. intros Htrue. apply Hcond.
      rewrite !orb_true_iff, !Nat.eqb_eq in Htrue.
      destruct Htrue as [[Hlen | Hsel] | Hsup].
      * by right; left.
      * left. by apply length_zero_iff_nil.
      * right; right. by apply length_zero_iff_nil.
Qed.

(** Duplicate-free lists that denote the same set have the same length:
    for such lists the length test of [startClean] is the test that the
    whole set of rooms is selected. *)
Lemma sameSet_length (l1 l2 : list Z) :
  List.NoDup l1 → List.NoDup l2 → sameSet l1 l2 → length l1 = length l2.
Proof.
  intros H1 H2 Hs. apply Nat.le_antisymm.
  - apply List.NoDup_incl_length; [done | intros x Hx; by apply Hs].
  - apply List.NoDup_incl_length; [done | intros x Hx; by apply Hs].
Qed.

(** C3.  When more than one selected area is a supported routine,
    [startClean] logs a warning and does nothing else: the service is
    left as it was, and no scene, global clean or room clean is
    requested. *)
Theorem startClean_multiple_routines d w :
  let routines := default [] (supportedRoutines (this w) !! d) in
  let selected := default [] (selectedAreas (this w) !! d) in
  1 < length (selectedAmong routines selected) →
  startClean E d w =
    (Resolved tt,
     addTrace [ELog Debug "RoborockService - begin cleaning";
               ELog Warn "RoborockService - Multiple routines selected, which is not supported."] w).
Proof.
  intros routines selected Hlen.
  rewrite startClean_unfold. cbv zeta. fold routines selected.
  destruct routines as [|r0 rs] eqn:Hr.
  - rewrite selectedAmong_nil in Hlen. simpl in Hlen. lia.
  - simpl length at 1. simpl Nat.eqb at 1. cbv iota.
    by apply Nat.ltb_lt in Hlen as ->.
Qed.

(** C2.  When the selected areas that are supported routines are exactly
    the one id [r], [startClean] asks the IoT API to start the scene
    [r] and makes no call on the message processor; [r] is the id of a
    configured routine and was selected. *)
Theorem startClean_single_routine d r api w :
  let routines := default [] (supportedRoutines (this w) !! d) in
  let selected := default [] (selectedAreas (this w) !! d) in
  selectedAmong routines selected = [r] →
  iotApi (this w) = Some api →
  routines ≠ []
  ∧ In r selected
  ∧ (∃ a, In a routines ∧ areaId a = r)
  ∧ startClean E d w =
      (match sceneRejects E api r with
       | Some err => Rejected err
       | None => Resolved tt
       end,
       addTrace [ELog Debug "RoborockService - begin cleaning";
                 ELog Debug "RoborockService - startScene";
                 EStartScene api r] w).
Proof.
  intros routines selected Hrt Hapi.
  assert (Hin : In r (selectedAmong routines selected)) by (rewrite Hrt; by left).
  apply selectedAmong_In in Hin as [Hsel [a [Ha Hid]]].
  assert (Hne : routines ≠ []) by (intros Hnil; rewrite Hnil in Ha; done).
  repeat split; [done | done | by exists a |].
  rewrite startClean_unfold. cbv zeta. fold routines selected.
  rewrite Hrt, Hapi.
  destruct routines as [|r0 rs]; [done |]. reflexivity.
Qed.

(** Before login there is no IoT API object, and the optional call on it
    is skipped: the branch logs and returns. *)
Lemma startClean_single_routine_without_api d r w :
  selectedAmong (default [] (supportedRoutines (this w) !! d))
                (default [] (selectedAreas (this w) !! d)) = [r] →
  iotApi (this w) = None →
  startClean E d w =
    (Resolved tt,
     addTrace [ELog Debug "RoborockService - begin cleaning";
               ELog Debug "RoborockService - startScene"] w).
Proof.
  intros Hrt Hapi. rewrite startClean_unfold. cbv zeta. rewrite Hrt, Hapi.
  destruct (default [] (supportedRoutines (this w) !! d)) as [|r0 rs] eqn:Hr;
    [| reflexivity].
  by rewrite selectedAmong_nil in Hrt.
Qed.

(** ** Commands on a device without a processor *)

(** C5, as the code has it.  With no processor registered for the device,
    [pauseClean], [resumeClean], [stopAndGoHome], [playSoundToLocate],
    [customGet] and [customSend] log that the message API is not
    initialised and resolve to nothing, leaving the service as it was;
    [startClean] does so whenever no selected area is a configured
    routine; [getCleanModeData] logs the same error and then rejects. *)
Theorem commands_without_processor d request w :
  JsMap.get d (messageProcessorMap (this w)) = None →
  let missing := ELog Error "MessageApi is not initialized." in
  pauseClean E d w =
    (Resolved tt, addTrace [ELog Debug "RoborockService - pauseClean"; missing] w)
  ∧ resumeClean E d w =
    (Resolved tt, addTrace [ELog Debug "RoborockService - resumeClean"; missing] w)
  ∧ stopAndGoHome E d w =
    (Resolved tt, addTrace [ELog Debug "RoborockService - stopAndGoHome"; missing] w)
  ∧ playSoundToLocate E d w =
    (Resolved tt, addTrace [ELog Debug "RoborockService - findMe"; missing] w)
  ∧ customGet E d request w =
    (Resolved None, addTrace [ELog Debug "RoborockService - customSend-message"; missing] w)
  ∧ customSend E d request w = (Resolved tt, addTrace [missing] w)
  ∧ getCleanModeData E d w =
    (Rejected "Failed to retrieve clean mode data",
     addTrace [ELog Notice "RoborockService - getCleanModeData"; missing] w)
  ∧ (selectedAmong (default [] (supportedRoutines (this w) !! d))
                   (default [] (selectedAreas (this w) !! d)) = [] →
     ∃ msg, startClean E d w =
       (Resolved tt,
        addTrace [ELog Debug "RoborockService - begin cleaning"; ELog Debug msg; missing] w)).
Proof.
  intros Hp missing. repeat split.
  - by apply processor_absent.
  - by apply processor_absent.
  - by apply processor_absent.
  - by apply processor_absent.
  - unfold customGet. by apply processor_absent.
  - unfold customSend. by rewrite (bind_resolved _ _ _ _ _ (getMessageProcessor_absent d w Hp)).
  - unfold getCleanModeData. unfold bind at 1. rewrite logger_addTrace.
    erewrite bind_resolved
      by (apply getMessageProcessor_absent; rewrite this_addTrace; exact Hp).
    unfold bind, ret, throw. by rewrite addTrace_addTrace.
  - intros Hrt. rewrite startClean_unfold. cbv zeta. rewrite Hrt.
    assert (Hw : JsMap.get d (messageProcessorMap
              (this (addTrace [ELog Debug "RoborockService - begin cleaning"] w))) = None)
      by exact Hp.
    repeat case_match; try discriminate;
      try (eexists; rewrite (processor_absent d Debug _ _ tt _ Hw);
           by rewrite addTrace_addTrace).
    all: exfalso; repeat match goal with
         | H : (_ || _) = false |- _ => apply orb_false_iff in H as [? ?]
         | H : (_ =? _)%nat = false |- _ => apply Nat.eqb_neq in H
         | H : (_ <? _)%nat = false |- _ => apply Nat.ltb_ge in H
         end; lia.
Qed.

(** ** Selecting areas *)

Lemma omap_translate {A} (f : A → option Z) (areas : list A) :
  omap id (List.map f areas) = omap f areas.
Proof.
  induction areas as [|a l IH]; [done |].
  cbn [List.map omap list_omap]. destruct (f a); cbn; by rewrite <- IH.
Qed.

(** C10.  [setSelectedAreas] stores, for the device, the room ids that
    the device's index map gives for the passed area ids, in order, and
    nothing for an area id the map does not know; it logs at debug level
    only.  With no index map set for the device the stored selection is
    empty, and a following [startClean] asks the registered processor for
    a global clean, whatever areas were passed and whatever rooms and
    routines are configured. *)
Theorem setSelectedAreas_translates d areas w :
  let translate : Z → option Z := fun areaId =>
    supportedAreaIndexMaps (this w) !! d ≫= fun indexMap => getRoomId indexMap areaId in
  let w' := snd (setSelectedAreas d areas w) in
  setSelectedAreas d areas w = (Resolved tt, w')
  ∧ trace w' = (trace w ++ [ELog Debug "RoborockService - setSelectedAreas";
                           ELog Debug "RoborockService - setSelectedAreas - roomIds"])%list
  ∧ selectedAreas (this w') !! d = Some (omap translate areas)
  ∧ (∀ roomId, roomId ∈ omap translate areas ↔
               ∃ areaId, areaId ∈ areas ∧ translate areaId = Some roomId)
  ∧ (supportedAreaIndexMaps (this w) !! d = None →
     selectedAreas (this w') !! d = Some []
     ∧ ∀ p, JsMap.get d (messageProcessorMap (this w)) = Some p →
         startClean E d w' =
           (Resolved tt,
            addTrace [ELog Debug "RoborockService - begin cleaning";
                      ELog Debug "RoborockService - startGlobalClean";
                      EProc p (PStartClean d)] w')).
Proof.
  intros translate w'.
  assert (Hsel : selectedAreas (this w') !! d = Some (omap translate areas)).
  { subst w'. unfold setSelectedAreas, bind, getThis, logger, emit, modifyThis. simpl.
    rewrite lookup_insert_eq. f_equal. rewrite omap_translate. apply list_omap_ext.
    apply Forall2_same_length_lookup_2; [done |].
    intros i x y Hx Hy. simplify_eq. unfold translate.
    by destruct (supportedAreaIndexMaps (this w) !! d). }
  split; [reflexivity |].
  split; [subst w'; simpl; by rewrite <- app_assoc |].
  split; [exact Hsel |].
  split; [intros roomId; apply list_elem_of_omap |].
  intros Hnone.
  assert (Hnil : omap translate areas = []).
  { unfold translate. rewrite Hnone. simpl. clear. induction areas; [done | by simpl]. }
  rewrite Hnil in Hsel. split; [exact Hsel |].
  intros p Hp.
  assert (Hp' : JsMap.get d (messageProcessorMap
            (this (addTrace [ELog Debug "RoborockService - begin cleaning"] w'))) = Some p)
    by exact Hp.
  rewrite startClean_unfold. cbv zeta. rewrite Hsel. simpl default at 3 5.
  rewrite !selectedAmong_of_nil. simpl.
  rewrite !orb_true_r.
  cbn [orb].
  destruct (length (default [] (supportedRoutines (this w) !! d)) =? 0)%nat;
    rewrite (globalClean_present d p _ Hp'); by rewrite addTrace_addTrace.
Qed.

End ServiceFacts.

(** ** Shutting the service down *)

Lemma delete_all {V} (entries m : JsMap.t V) :
  (∀ e, In e m → In (fst e) (JsMap.keys entries)) →
  fold_left (fun m e => JsMap.delete (fst e) m) entries m = [].
Proof.
  revert m. induction entries as [|x l IH]; intros m Hkeys; simpl.
  - destruct m as [|e m]; [done |]. destruct (Hkeys e); by left.
  - apply IH. intros e He. unfold JsMap.delete in He.
    apply filter_In in He as [He Hne].
    destruct (Hkeys e He) as [Heq | Hin]; [| done].
    rewrite <- Heq, String.eqb_refl in Hne. done.
Qed.

Lemma delete_all_self {V} (m : JsMap.t V) :
  fold_left (fun m e => JsMap.delete (fst e) m) (JsMap.entries m) m = [].
Proof.
  apply delete_all. intros e He. unfold JsMap.keys. by apply in_map.
Qed.

Lemma forEach_localClients (entries : list (string * Client)) w :
  forEach entries (fun entry =>
    logger Debug "Disconnecting local client for device";;
    emit (EClient (snd entry) CDisconnect);;
    modifyThis (fun s => set_localClientMap (JsMap.delete (fst entry) (localClientMap s)) s);;
    logger Debug "Local client disconnected for device") w
  = (Resolved tt,
     {| this := set_localClientMap
                  (fold_left (fun m e => JsMap.delete (fst e) m) entries
                             (localClientMap (this w))) (this w);
        trace := trace w ++ flat_map (fun entry =>
                   [ELog Debug "Disconnecting local client for device";
                    EClient (snd entry) CDisconnect;
                    ELog Debug "Local client disconnected for device"]) entries;
        now := now w; intervals := intervals w; nextHandle := nextHandle w |}).
Proof.
  revert w. induction entries as [|x l IH]; intros w.
  - destruct w as [[] ? ? ? ?]. simpl. unfold ret. by rewrite app_nil_r.
  - cbn [forEach]. unfold bind at 1.
    unfold bind, logger, emit, modifyThis. cbn [fst snd].
    rewrite IH. cbn. f_equal. f_equal. by rewrite <- !app_assoc.
Qed.

Lemma forEach_processors (entries : list (string * MessageProcessor)) w :
  forEach entries (fun entry =>
    logger Debug "Disconnecting message processor for device";;
    modifyThis (fun s =>
      set_messageProcessorMap (JsMap.delete (fst entry) (messageProcessorMap s)) s);;
    logger Debug "Message processor disconnected for device") w
  = (Resolved tt,
     {| this := set_messageProcessorMap
                  (fold_left (fun m e => JsMap.delete (fst e) m) entries
                             (messageProcessorMap (this w))) (this w);
        trace := trace w ++ flat_map (fun entry =>
                   [ELog Debug "Disconnecting message processor for device";
                    ELog Debug "Message processor disconnected for device"]) entries;
        now := now w; intervals := intervals w; nextHandle := nextHandle w |}).
Proof.
  revert w. induction entries as [|x l IH]; intros w.
  - destruct w as [[] ? ? ? ?]. simpl. unfold ret. by rewrite app_nil_r.
  - cbn [forEach]. unfold bind at 1.
    unfold bind, logger, emit, modifyThis. cbn [fst snd].
    rewrite IH. cbn. f_equal. f_equal. by rewrite <- !app_assoc.
Qed.

Lemma stop_localClients m w :
  localClientMap (this w) = m →
  (if (0 <? JsMap.size m)%nat
   then forEach (JsMap.entries m) (fun entry =>
          logger Debug "Disconnecting local client for device";;
          emit (EClient (snd entry) CDisconnect);;
          modifyThis (fun s =>
            set_localClientMap (JsMap.delete (fst entry) (localClientMap s)) s);;
          logger Debug "Local client disconnected for device")
   else ret tt) w
  = (Resolved tt,
     {| this := set_localClientMap [] (this w);
        trace := trace w ++ flat_map (fun entry =>
                   [ELog Debug "Disconnecting local client for device";
                    EClient (snd entry) CDisconnect;
                    ELog Debug "Local client disconnected for device"]) m;
        now := now w; intervals := intervals w; nextHandle := nextHandle w |}).
Proof.
  intros Hm. destruct m as [|e m].
  - destruct w as [[] ? ? ? ?]. simpl in *. subst. unfold ret. simpl.
    by rewrite app_nil_r.
  - cbn [JsMap.size length Nat.ltb Nat.leb]. rewrite forEach_localClients.
    rewrite Hm. change (e :: m) with (JsMap.entries (e :: m)) at 2.
    by rewrite delete_all_self.
Qed.

Lemma stop_processors m w :
  messageProcessorMap (this w) = m →
  (if (0 <? JsMap.size m)%nat
   then forEach (JsMap.entries m) (fun entry =>
          logger Debug "Disconnecting message processor for device";;
          modifyThis (fun s =>
            set_messageProcessorMap (JsMap.delete (fst entry) (messageProcessorMap s)) s);;
          logger Debug "Message processor disconnected for device")
   else ret tt) w
  = (Resolved tt,
     {| this := set_messageProcessorMap [] (this w);
        trace := trace w ++ flat_map (fun entry =>
                   [ELog Debug "Disconnecting message processor for device";
                    ELog Debug "Message processor disconnected for device"]) m;
        now := now w; intervals := intervals w; nextHandle := nextHandle w |}).
Proof.
  intros Hm. destruct m as [|e m].
  - destruct w as [[] ? ? ? ?]. simpl in *. subst. unfold ret. simpl.
    by rewrite app_nil_r.
  - cbn [JsMap.size length Nat.ltb Nat.leb]. rewrite forEach_processors.
    rewrite Hm. change (e :: m) with (JsMap.entries (e :: m)) at 2.
    by rewrite delete_all_self.
Qed.

(** [stopService] always resolves, and leaves the world [stopped]. *)
Lemma stopService_stopped w : stopService w = (Resolved tt, stopped w).
Proof.
  destruct w as [[api ud dn mc mpm ips lcm mq cm ri rq sa sr sel sim] tr t ivs nh].
  unfold stopService, stopped, stopTrace.
  destruct mc as [client|]; destruct rq as [h|];
    unfold bind, getThis, emit, modifyThis, clearInterval, ret;
    cbn [this fst snd messageClient set_messageClient localClientMap];
    erewrite stop_localClients by reflexivity;
    cbn [this fst snd messageProcessorMap set_localClientMap];
    erewrite stop_processors by reflexivity; cbn;
    rewrite <- ?app_assoc, ?app_nil_r; reflexivity.
Qed.

(** What [stopService] achieves on every world: the router is told to
    disconnect and forgotten, every registered local client is told to
    disconnect, both maps are empty, and the timer whose handle is stored
    is cancelled and forgotten. *)
Lemma stopService_teardown w :
  let w' := snd (stopService w) in
  fst (stopService w) = Resolved tt
  ∧ messageClient (this w') = None
  ∧ (∀ client, messageClient (this w) = Some client →
       In (ERouter client RDisconnect) (stopTrace (this w)))
  ∧ (∀ d client, In (d, client) (JsMap.entries (localClientMap (this w))) →
       In (EClient client CDisconnect) (stopTrace (this w)))
  ∧ trace w' = (trace w ++ stopTrace (this w))%list
  ∧ localClientMap (this w') = JsMap.empty
  ∧ messageProcessorMap (this w') = JsMap.empty
  ∧ requestDeviceStatusInterval (this w') = None
  ∧ (∀ h, requestDeviceStatusInterval (this w) = Some h →
       ∀ i, In i (intervals w') → handle i ≠ h).
Proof.
  rewrite stopService_stopped. cbn [fst snd].
  repeat split; try reflexivity.
  - intros client Hc. unfold stopTrace. rewrite Hc. by left.
  - intros d client Hin. unfold stopTrace. apply in_or_app. right.
    apply in_or_app. left. apply in_flat_map. exists (d, client).
    split; [exact Hin | right; by left].
  - intros h Hh i Hi. unfold stopped in Hi. cbn [intervals] in Hi. rewrite Hh in Hi.
    apply filter_In in Hi as [_ Hne]. apply negb_true_iff, Nat.eqb_neq in Hne. exact Hne.
Qed.

(** ** The status-poll timers *)

Lemma activate_world a w :
  ∃ evs i,
    activate a w =
      (Resolved tt,
       {| this := set_requestDeviceStatusInterval (Some (nextHandle w)) (this w);
          trace := trace w ++ evs; now := now w;
          intervals := intervals w ++ [i]; nextHandle := S (nextHandle w) |})
    ∧ handle i = nextHandle w
    ∧ (∀ h, ¬ In (EClearInterval h) evs).
Proof.
  destruct a as [device | device]; cbn [activate].
  - unfold activateDeviceNotify.
    destruct (JsMap.get (duid device) (messageProcessorMap (this w))) as [p|] eqn:Hp.
    + eexists _, _. split; [| split].
      * unfold bind at 1. rewrite logger_addTrace.
        erewrite bind_resolved by (by apply getMessageProcessor_present).
        unfold bind, getThis, setInterval, modifyThis. cbn. rewrite <- app_assoc.
        reflexivity.
      * reflexivity.
      * intros h [? | [? | []]]; discriminate.
    + eexists _, _. split; [| split].
      * unfold bind at 1. rewrite logger_addTrace.
        erewrite bind_resolved by (by apply getMessageProcessor_absent).
        unfold bind, getThis, setInterval, modifyThis. cbn. rewrite <- !app_assoc.
        reflexivity.
      * reflexivity.
      * intros h [? | [? | [? | []]]]; discriminate.
  - unfold activateDeviceNotifyOverMQTT.
    destruct (JsMap.get (duid device) (messageProcessorMap (this w))) as [p|] eqn:Hp.
    + eexists _, _. split; [| split].
      * unfold bind at 1. rewrite logger_addTrace.
        erewrite bind_resolved by (by apply getMessageProcessor_present).
        unfold bind, getThis, setInterval, modifyThis. cbn. rewrite <- app_assoc.
        reflexivity.
      * reflexivity.
      * intros h [? | [? | []]]; discriminate.
    + eexists _, _. split; [| split].
      * unfold bind at 1. rewrite logger_addTrace.
        erewrite bind_resolved by (by apply getMessageProcessor_absent).
        unfold bind, getThis, setInterval, modifyThis. cbn. rewrite <- !app_assoc.
        reflexivity.
      * reflexivity.
      * intros h [? | [? | [? | []]]]; discriminate.
Qed.

Lemma activate_fresh a w : handlesFresh w → handlesFresh (snd (activate a w)).
Proof.
  intros Hw. destruct (activate_world a w) as (evs & i & -> & Hi & _).
  unfold handlesFresh in *. cbn. apply Forall_app. split.
  - eapply Forall_impl; [exact Hw |]. intros x Hx. cbn in Hx. lia.
  - constructor; [lia | constructor].
Qed.

Lemma activateAll_handles acts w :
  handlesFresh w →
  let w1 := snd (activateAll acts w) in
  handlesFresh w1
  ∧ List.map handle (intervals w1)
    = (List.map handle (intervals w) ++ seq (nextHandle w) (length acts))%list.
Proof.
  revert w. induction acts as [|a acts IH]; intros w Hw; cbn zeta.
  - split; [exact Hw |]. cbn. by rewrite app_nil_r.
  - unfold activateAll. cbn [forEach]. unfold bind.
    pose proof (activate_fresh a w Hw) as Hfresh.
    destruct (activate_world a w) as (evs & i & Ha & Hi & _).
    rewrite Ha in *. cbn [snd] in Hfresh.
    destruct (IH _ Hfresh) as [IH1 IH2]. unfold activateAll in IH1, IH2.
    split; [exact IH1 |]. rewrite IH2. cbn [intervals nextHandle length seq].
    rewrite List.map_app, <- app_assoc. cbn. by rewrite Hi.
Qed.

(** C9.  The service keeps one timer handle.  An activation, local or over
    MQTT, starts a new timer next to all that are live and stores the new
    handle over the old one; nothing is cancelled.  So when the service is
    stopped after a run of activations, the timer of the last activation is
    the only one cancelled: the timers of all earlier activations, and any
    that were live before, are still live. *)
Theorem stopService_cancels_newest_timer_only acts a w :
  handlesFresh w →
  let w1 := snd (activateAll acts w) in
  let w2 := snd (activate a w1) in
  let w3 := snd (stopService w2) in
  (∃ i, intervals w2 = (intervals w1 ++ [i])%list ∧ handle i = nextHandle w1)
  ∧ (∀ h, ¬ In (EClearInterval h) (emitted (activate a) w1))
  ∧ requestDeviceStatusInterval (this w2) = Some (nextHandle w1)
  ∧ List.map handle (intervals w1)
    = (List.map handle (intervals w) ++ seq (nextHandle w) (length acts))%list
  ∧ intervals w3 = intervals w1
  ∧ requestDeviceStatusInterval (this w3) = None.
Proof.
  intros Hw w1 w2 w3.
  destruct (activateAll_handles acts w Hw) as [Hfresh Hhandles]. fold w1 in Hfresh, Hhandles.
  destruct (activate_world a w1) as (evs & i & Ha & Hi & Hquiet).
  subst w3 w2. unfold emitted. rewrite Ha, stopService_stopped. cbn [snd].
  split; [by exists i |].
  split; [cbn [trace]; by rewrite drop_app_length |].
  split; [reflexivity |]. split; [exact Hhandles |].
  split; [| reflexivity].
  unfold stopped. cbn. rewrite List.filter_app. cbn. rewrite Hi, Nat.eqb_refl. cbn.
  rewrite app_nil_r. apply forallb_filter_id. apply forallb_forall.
  intros x Hx. unfold handlesFresh in Hfresh. rewrite Forall_forall in Hfresh.
  apply negb_true_iff, Nat.eqb_neq.
  assert (handle x < nextHandle w1) by (apply Hfresh; by apply list_elem_of_In).
  lia.
Qed.

(** ** Initialising the local path of a device *)

Section LocalPath.

Variable E : Env.

(** C6.  For a device whose protocol version is ["B01"], on a service
    whose router exists, [initializeMessageClientForLocal] registers the
    processor, sets the device's cloud-always flag and returns [true];
    it asks for no network info, registers no local client and connects
    none.  From then on [isRequestSecure] answers [true] for the device,
    and the request that [getRoomMappings] sends carries [secure = true]. *)
Theorem initializeMessageClientForLocal_cloud_only device client w :
  pv device = "B01" →
  messageClient (this w) = Some client →
  let messageProcessor := {| processorClient := client |} in
  let w' := snd (initializeMessageClientForLocal E device w) in
  initializeMessageClientForLocal E device w = (Resolved true, w')
  ∧ this w' =
      set_mqttAlwaysOnDevices (<[duid device := true]> (mqttAlwaysOnDevices (this w)))
        (set_messageProcessorMap
           (JsMap.set (duid device) messageProcessor (messageProcessorMap (this w)))
           (this w))
  ∧ trace w' =
      (trace w ++ [ELog Debug "Begin get local ip";
                   EProc messageProcessor PInjectLogger;
                   EProc messageProcessor PRegisterListener;
                   ELog Debug "Checking if device supports local connection";
                   ELog Warn "Device does not support local connection"])%list
  ∧ localClientMap (this w') = localClientMap (this w)
  ∧ ipMap (this w') = ipMap (this w)
  ∧ mqttAlwaysOnDevices (this w') !! duid device = Some true
  ∧ isRequestSecure (this w') (duid device) = true
  ∧ trace (snd (getRoomMappings E (duid device) w')) =
      (trace w' ++ [ERouter client
                      (RGet (duid device)
                         {| method := "get_room_mapping"; params := None;
                            secure := true |})])%list.
Proof.
  intros Hpv Hclient messageProcessor w'.
  assert (Hrun : initializeMessageClientForLocal E device w =
    (Resolved true,
     {| this :=
          set_mqttAlwaysOnDevices (<[duid device := true]> (mqttAlwaysOnDevices (this w)))
            (set_messageProcessorMap
               (JsMap.set (duid device) messageProcessor (messageProcessorMap (this w)))
               (this w));
        trace := trace w ++ [ELog Debug "Begin get local ip";
                             EProc messageProcessor PInjectLogger;
                             EProc messageProcessor PRegisterListener;
                             ELog Debug "Checking if device supports local connection";
                             ELog Warn "Device does not support local connection"];
        now := now w; intervals := intervals w; nextHandle := nextHandle w |})).
  { unfold initializeMessageClientForLocal.
    unfold bind at 1. rewrite logger_addTrace.
    unfold bind at 1, getThis at 1. rewrite this_addTrace, Hclient, Hpv.
    cbn. by rewrite <- !app_assoc. }
  subst w'. rewrite Hrun. cbn [snd this trace].
  assert (Hflag : (<[duid device := true]> (mqttAlwaysOnDevices (this w))) !! duid device
                  = Some true) by apply lookup_insert_eq.
  repeat split; try reflexivity.
  - exact Hflag.
  - unfold isRequestSecure. cbn. by rewrite Hflag.
  - unfold getRoomMappings, bind, getThis. cbn [this messageClient set_mqttAlwaysOnDevices
      set_messageProcessorMap]. rewrite Hclient.
    unfold roomMappingRequest, isRequestSecure.
    cbn [mqttAlwaysOnDevices set_mqttAlwaysOnDevices].
    rewrite Hflag. cbn [default]. rewrite emit_addTrace.
    by destruct (roomMappingReply E client _ _).
Qed.

(** Without a router the method gives up at once. *)
Lemma initializeMessageClientForLocal_without_router device w :
  messageClient (this w) = None →
  initializeMessageClientForLocal E device w =
    (Resolved false,
     addTrace [ELog Debug "Begin get local ip";
               ELog Error "messageClient not initialized"] w).
Proof.
  intros Hclient. unfold initializeMessageClientForLocal.
  unfold bind at 1. rewrite logger_addTrace.
  unfold bind at 1, getThis at 1. rewrite this_addTrace, Hclient.
  unfold bind. rewrite logger_addTrace. unfold ret. by rewrite addTrace_addTrace.
Qed.

Lemma pollLocalClient_never n localClient w :
  (∀ t, localConnected E localClient t = false) →
  pollLocalClient E n localClient w =
    (Resolved tt,
     {| this := this w; trace := trace w ++ pollEvents n;
        now := (now w + 500 * Z.of_nat n)%Z;
        intervals := intervals w; nextHandle := nextHandle w |}).
Proof.
  intros Hnever. revert w. induction n as [|n IH]; intros w.
  - destruct w. cbn. unfold ret. rewrite app_nil_r. do 2 f_equal. lia.
  - cbn [pollLocalClient]. unfold bind at 1, getNow at 1. rewrite Hnever.
    unfold bind at 1. rewrite logger_addTrace. unfold bind at 1. unfold sleep at 1.
    rewrite IH. cbn -[Z.of_nat Z.mul Z.add]. rewrite <- !app_assoc.
    do 2 f_equal. lia.
Qed.

(** The wait never takes more than [n] rounds, whatever the client does. *)
Lemma pollLocalClient_bounded n localClient w :
  ∃ k, (k ≤ n)%nat ∧
    pollLocalClient E n localClient w =
      (Resolved tt,
       {| this := this w; trace := trace w ++ pollEvents k;
          now := (now w + 500 * Z.of_nat k)%Z;
          intervals := intervals w; nextHandle := nextHandle w |}).
Proof.
  revert w. induction n as [|n IH]; intros w.
  - exists 0. split; [lia |]. destruct w. cbn. unfold ret. rewrite app_nil_r.
    do 2 f_equal. lia.
  - cbn [pollLocalClient]. unfold bind at 1, getNow at 1.
    destruct (localConnected E localClient (now w)).
    + exists 0. split; [lia |]. destruct w. cbn. unfold ret. rewrite app_nil_r.
      do 2 f_equal. lia.
    + unfold bind at 1. rewrite logger_addTrace. unfold bind at 1. unfold sleep at 1.
      match goal with |- context [pollLocalClient E n localClient ?w1] =>
        destruct (IH w1) as (k & Hk & ->) end.
      exists (S k). split; [lia |]. cbn -[Z.of_nat Z.mul Z.add]. rewrite <- !app_assoc.
      do 2 f_equal. lia.
Qed.

Lemma connectLocalClient_never client device a w :
  a ≠ "" →
  (∀ t, localConnected E {| clientDuid := duid device; clientIp := a |} t = false) →
  connectLocalClient E client device (Some a) w =
    (Rejected "Local client did not connect after 10 attempts, something is wrong",
     {| this := this w;
        trace := trace w ++
          [ELog Debug "initializing the local connection for this client towards ";
           ERouter client (RRegisterClient (duid device) a);
           EClient {| clientDuid := duid device; clientIp := a |} CConnect]
          ++ pollEvents 20;
        now := (now w + 10000)%Z;
        intervals := intervals w; nextHandle := nextHandle w |}).
Proof.
  intros Ha Hnever. unfold connectLocalClient.
  apply String.eqb_neq in Ha as ->. cbn [negb].
  unfold bind at 1. rewrite logger_addTrace.
  unfold bind at 1. rewrite emit_addTrace.
  unfold bind at 1. rewrite emit_addTrace.
  unfold bind at 1. rewrite pollLocalClient_never by exact Hnever.
  unfold bind, getNow. rewrite Hnever. cbn [negb]. unfold throw.
  cbn -[pollEvents Z.of_nat Z.mul Z.add].
  rewrite <- !app_assoc. do 2 f_equal.
Qed.

(** C4.  On a service whose router exists, for a device that is not
    cloud-only and whose address [a] is known or can be asked for: if
    the local client never reports connected, the wait runs 20 rounds,
    each a debug line and a sleep of 500 ms, 10 s in all, and stops
    there.  The failure is thrown as an error, which the method catches,
    logs and turns into the answer [false]; no address and no local
    client are recorded for the device. *)
Theorem local_connect_gives_up device client a w :
  messageClient (this w) = Some client →
  pv device ≠ "B01" →
  a ≠ "" →
  let messageProcessor := {| processorClient := client |} in
  let localClient := {| clientDuid := duid device; clientIp := a |} in
  (ipMap (this w) !! duid device = Some a
   ∨ (truthy (ipMap (this w) !! duid device) = false
      ∧ procRejects E messageProcessor (PGetNetworkInfo (duid device)) = None
      ∧ networkInfoReply E messageProcessor (duid device) ≫= ip = Some a)) →
  (∀ t, localConnected E localClient t = false) →
  let w' := snd (initializeMessageClientForLocal E device w) in
  initializeMessageClientForLocal E device w = (Resolved false, w')
  ∧ (∃ pre, trace w' =
              (trace w ++ pre ++ [EClient localClient CConnect] ++ pollEvents 20
               ++ [ELog Error "Error requesting network info"])%list
            ∧ Forall (fun e => isSleep e = false) pre)
  ∧ length (List.filter isSleep (pollEvents 20)) = 20
  ∧ sleptMs (pollEvents 20) = 10000%Z
  ∧ now w' = (now w + 10000)%Z
  ∧ ipMap (this w') = ipMap (this w)
  ∧ localClientMap (this w') = localClientMap (this w)
  ∧ (∀ w0, fst (connectLocalClient E client device (Some a) w0) =
           Rejected "Local client did not connect after 10 attempts, something is wrong").
Proof.
  intros Hclient Hpv Ha messageProcessor localClient Hip Hnever w'.
  apply String.eqb_neq in Hpv.
  assert (Htruthy : truthy (Some a) = true).
  { unfold truthy. by apply String.eqb_neq in Ha as ->. }
  assert (Hrun : ∃ pre,
    initializeMessageClientForLocal E device w =
      (Resolved false,
       {| this :=
            set_mqttAlwaysOnDevices
              (<[duid device := false]> (mqttAlwaysOnDevices (this w)))
              (set_messageProcessorMap
                 (JsMap.set (duid device) messageProcessor (messageProcessorMap (this w)))
                 (this w));
          trace := trace w ++ pre ++ [EClient localClient CConnect] ++ pollEvents 20
                   ++ [ELog Error "Error requesting network info"];
          now := (now w + 10000)%Z;
          intervals := intervals w; nextHandle := nextHandle w |})
    ∧ Forall (fun e => isSleep e = false) pre).
  { unfold initializeMessageClientForLocal.
    unfold bind at 1. rewrite logger_addTrace.
    unfold bind at 1, getThis at 1. rewrite this_addTrace, Hclient, Hpv.
    fold messageProcessor.
    unfold awaitProc, fireProc, logger, tryCatch, modifyThis, getThis, bind, emit, ret.
    cbn [this trace now intervals nextHandle fst snd ipMap set_messageProcessorMap
         set_mqttAlwaysOnDevices addTrace].
    destruct Hip as [Hip | (Hno & Hrej & Hinfo)].
    - rewrite Hip, Htruthy. cbn [negb].
      rewrite connectLocalClient_never by done.
      exists [ELog Debug "Begin get local ip";
              EProc messageProcessor PInjectLogger;
              EProc messageProcessor PRegisterListener;
              ELog Debug "Checking if device supports local connection";
              ELog Debug "Local device";
              ELog Debug "initializing the local connection for this client towards ";
              ERouter client (RRegisterClient (duid device) a)].
      split.
      + cbn -[pollEvents Z.add]. rewrite <- !app_assoc. reflexivity.
      + repeat constructor.
    - rewrite Hno, Hrej. cbn [negb].
      cbn [this trace now intervals nextHandle fst snd].
      rewrite Hinfo, Htruthy. cbn [negb].
      cbn [this trace now intervals nextHandle fst snd].
      rewrite connectLocalClient_never by done.
      exists [ELog Debug "Begin get local ip";
              EProc messageProcessor PInjectLogger;
              EProc messageProcessor PRegisterListener;
              ELog Debug "Checking if device supports local connection";
              ELog Debug "Local device";
              ELog Debug "Requesting network info for device";
              EProc messageProcessor (PGetNetworkInfo (duid device));
              ELog Debug "Network ip for device";
              ELog Debug "initializing the local connection for this client towards ";
              ERouter client (RRegisterClient (duid device) a)].
      split.
      + cbn -[pollEvents Z.add]. rewrite <- !app_assoc. reflexivity.
      + repeat constructor. }
  destruct Hrun as (pre & Hrun & Hpre). subst w'. rewrite Hrun. cbn [snd].
  split; [reflexivity |].
  split; [exists pre; by split |].
  repeat split.
  intros w0. by rewrite connectLocalClient_never.
Qed.

End LocalPath.

(** ** Waiting for the cloud router *)

Lemma sleeps_zero w : sleeps 0 w = w.
Proof.
  destruct w. unfold sleeps. cbn -[Z.add Z.mul]. rewrite app_nil_r. f_equal. lia.
Qed.

Lemma sleeps_succ k w : sleeps k (snd (sleep 500 w)) = sleeps (S k) w.
Proof.
  unfold sleeps, sleep. cbn -[Z.add Z.mul Z.of_nat]. rewrite <- app_assoc. f_equal. lia.
Qed.

(** The wait returns only in a world in which the router is connected, after
    as many sleeps as there were polls that found it disconnected. *)
Lemma awaitRouterConnected_sound E fuel client w w' :
  awaitRouterConnected E fuel client w = Some w' →
  ∃ k, (k ≤ fuel)%nat
       ∧ w' = sleeps k w
       ∧ routerConnected E client (now w') = true
       ∧ ∀ j, (j < k)%nat → routerConnected E client (now w + 500 * Z.of_nat j)%Z = false.
Proof.
  revert w. induction fuel as [|fuel IH]; intros w Hrun; cbn [awaitRouterConnected] in Hrun.
  - destruct (routerConnected E client (now w)) eqn:Hc; [| discriminate].
    simplify_eq. exists 0. rewrite sleeps_zero. repeat split; [lia | done | intros; lia].
  - destruct (routerConnected E client (now w)) eqn:Hc.
    + simplify_eq. exists 0. rewrite sleeps_zero. repeat split; [lia | done | intros; lia].
    + destruct (IH _ Hrun) as (k & Hk & -> & Hconn & Hbefore).
      exists (S k). rewrite sleeps_succ in *. repeat split; [lia | done |].
      intros [|j] Hj.
      * by replace (now w + 500 * Z.of_nat 0)%Z with (now w) by lia.
      * specialize (Hbefore j ltac:(lia)). cbn [sleep snd now] in Hbefore.
        by replace (now w + 500 * Z.of_nat (S j))%Z
          with (now w + 500 + 500 * Z.of_nat j)%Z by lia.
Qed.

(** Once the router is connected at the [k]-th poll, any fuel from [k] on
    sees the wait return there. *)
Lemma awaitRouterConnected_complete E client k :
  ∀ fuel w,
    (k ≤ fuel)%nat →
    (∀ j, (j < k)%nat → routerConnected E client (now w + 500 * Z.of_nat j)%Z = false) →
    routerConnected E client (now w + 500 * Z.of_nat k)%Z = true →
    awaitRouterConnected E fuel client w = Some (sleeps k w).
Proof.
  induction k as [|k IH]; intros fuel w Hfuel Hbefore Hat.
  - replace (now w + 500 * Z.of_nat 0)%Z with (now w) in Hat by lia.
    rewrite sleeps_zero. destruct fuel; cbn [awaitRouterConnected]; by rewrite Hat.
  - destruct fuel as [|fuel]; [lia |]. cbn [awaitRouterConnected].
    pose proof (Hbefore 0 ltac:(lia)) as H0.
    replace (now w + 500 * Z.of_nat 0)%Z with (now w) in H0 by lia. rewrite H0.
    rewrite <- sleeps_succ. apply IH; [lia | |].
    + intros j Hj. specialize (Hbefore (S j) ltac:(lia)). cbn [sleep snd now].
      by replace (now w + 500 + 500 * Z.of_nat j)%Z
        with (now w + 500 * Z.of_nat (S j))%Z by lia.
    + cbn [sleep snd now].
      by replace (now w + 500 + 500 * Z.of_nat k)%Z
        with (now w + 500 * Z.of_nat (S k))%Z by lia.
Qed.

(** A router that never connects keeps the wait going through any fuel. *)
Lemma awaitRouterConnected_never E client fuel :
  ∀ w,
    (∀ j : nat, routerConnected E client (now w + 500 * Z.of_nat j)%Z = false) →
    awaitRouterConnected E fuel client w = None.
Proof.
  induction fuel as [|fuel IH]; intros w Hnever; cbn [awaitRouterConnected];
    pose proof (Hnever 0) as H0;
    replace (now w + 500 * Z.of_nat 0)%Z with (now w) in H0 by lia; rewrite H0.
  - reflexivity.
  - apply IH. intros j. specialize (Hnever (S j)). cbn [sleep snd now].
    by replace (now w + 500 + 500 * Z.of_nat j)%Z
      with (now w + 500 * Z.of_nat (S j))%Z by lia.
Qed.

(** The world in which [initializeMessageClient] starts to wait. *)
Lemma initializeMessageClient_unfold E fuel username device ud manager w :
  clientManager (this w) = Some manager →
  let client := {| routerUser := username; routerUserData := ud |} in
  let w1 :=
    {| this := set_messageClient (Some client) (this w);
       trace := trace w ++
         [ERouter client (RRegisterDevice (duid device) (localKey device) (pv device));
          ERouter client RRegisterMessageListener;
          ERouter client RConnect];
       now := now w; intervals := intervals w; nextHandle := nextHandle w |} in
  initializeMessageClient E fuel username device ud w =
    match awaitRouterConnected E fuel client w1 with
    | Some w2 => Some (Resolved tt, addTrace [ELog Debug "MessageClient connected"] w2)
    | None => None
    end.
Proof.
  intros Hm client w1. unfold initializeMessageClient. rewrite Hm.
  unfold bind, modifyThis, emit. cbn [snd this trace now intervals nextHandle].
  rewrite <- !app_assoc. reflexivity.
Qed.

(** C7.  [initializeMessageClient] polls the router every 500 ms and has
    no bound on the number of polls.  When it returns, the router was seen
    connected, after as many sleeps as polls that found it disconnected;
    once the router connects it does return; while the router stays
    disconnected it never does; and for every [n] there is a run that
    sleeps more than [n] times before it returns. *)
Theorem initializeMessageClient_waits_without_bound username device ud manager w :
  clientManager (this w) = Some manager →
  let client := {| routerUser := username; routerUserData := ud |} in
  let started :=
    [ERouter client (RRegisterDevice (duid device) (localKey device) (pv device));
     ERouter client RRegisterMessageListener;
     ERouter client RConnect] in
  let returned k :=
    (trace w ++ started ++ replicate k (ESleep 500)
     ++ [ELog Debug "MessageClient connected"])%list in
  (∀ E fuel out w',
     initializeMessageClient E fuel username device ud w = Some (out, w') →
     out = Resolved tt
     ∧ routerConnected E client (now w') = true
     ∧ ∃ k, (k ≤ fuel)%nat
            ∧ trace w' = returned k
            ∧ now w' = (now w + 500 * Z.of_nat k)%Z
            ∧ ∀ j, (j < k)%nat →
                   routerConnected E client (now w + 500 * Z.of_nat j)%Z = false)
  ∧ (∀ E k,
       (∀ j, (j < k)%nat → routerConnected E client (now w + 500 * Z.of_nat j)%Z = false) →
       routerConnected E client (now w + 500 * Z.of_nat k)%Z = true →
       ∀ fuel, (k ≤ fuel)%nat →
         ∃ w', initializeMessageClient E fuel username device ud w = Some (Resolved tt, w')
               ∧ trace w' = returned k)
  ∧ (∀ E,
       (∀ j : nat, routerConnected E client (now w + 500 * Z.of_nat j)%Z = false) →
       ∀ fuel, initializeMessageClient E fuel username device ud w = None)
  ∧ (∀ n : nat,
       ∃ E k w', (n < k)%nat
                 ∧ initializeMessageClient E k username device ud w = Some (Resolved tt, w')
                 ∧ trace w' = returned k).
Proof.
  intros Hm client started returned.
  assert (Hdone : ∀ E k fuel,
    (∀ j, (j < k)%nat → routerConnected E client (now w + 500 * Z.of_nat j)%Z = false) →
    routerConnected E client (now w + 500 * Z.of_nat k)%Z = true →
    (k ≤ fuel)%nat →
    ∃ w', initializeMessageClient E fuel username device ud w = Some (Resolved tt, w')
          ∧ trace w' = returned k).
  { intros E k fuel Hbefore Hat Hfuel.
    rewrite (initializeMessageClient_unfold E fuel username device ud manager w Hm).
    cbv zeta. fold client.
    erewrite (awaitRouterConnected_complete E client k) by done.
    eexists. split; [reflexivity |].
    unfold returned, started. cbn. by rewrite <- !app_assoc. }
  split; [| split; [| split]].
  - intros E fuel out w' Hrun.
    rewrite (initializeMessageClient_unfold E fuel username device ud manager w Hm) in Hrun.
    cbv zeta in Hrun. fold client in Hrun.
    destruct (awaitRouterConnected E fuel client _) as [w2|] eqn:Hwait; [| discriminate].
    simplify_eq.
    apply awaitRouterConnected_sound in Hwait as (k & Hk & -> & Hconn & Hbefore).
    split; [reflexivity |]. split; [exact Hconn |].
    exists k. repeat split; [exact Hk | | exact Hbefore].
    unfold returned, started. cbn. by rewrite <- !app_assoc.
  - intros E k Hbefore Hat fuel Hfuel. by apply Hdone.
  - intros E Hnever fuel.
    rewrite (initializeMessageClient_unfold E fuel username device ud manager w Hm).
    cbv zeta. fold client.
    by rewrite awaitRouterConnected_never.
  - intros n.
    destruct (Hdone (connectsAt (now w + 500 * Z.of_nat (S n))) (S n) (S n))
      as (w' & Hrun & Htrace).
    + intros j Hj. cbn [connectsAt routerConnected]. apply Z.leb_gt. lia.
    + cbn [connectsAt routerConnected]. apply Z.leb_le. lia.
    + lia.
    + exists (connectsAt (now w + 500 * Z.of_nat (S n))), (S n), w'.
      repeat split; [lia | exact Hrun | exact Htrace].
Qed.

(** * The theorems at concrete inputs *)

(** Supported rooms 1 and 2, room 1 selected: a room clean of [[1]]. *)
Lemma startClean_without_routines_witness :
  let w := newWorld (sampleService [room 1; room 2] [] [1%Z]) in
  default [] (supportedRoutines (this w) !! "d") = []
  ∧ JsMap.get "d" (messageProcessorMap (this w)) = Some sampleProcessor
  ∧ startClean quietEnv "d" w =
      (Resolved tt,
       addTrace [ELog Debug "RoborockService - begin cleaning";
                 ELog Debug "RoborockService - startRoomClean";
                 EProc sampleProcessor (PStartRoomClean "d" [1%Z] 1)] w).
Proof.
  intros w. split; [reflexivity |]. split; [reflexivity |].
  refine (proj2 (startClean_without_routines quietEnv "d" sampleProcessor w
                   eq_refl eq_refl) _).
  change (¬ ([1%Z] = [] ∨ length [1%Z] = length [room 1; room 2] ∨ [room 1; room 2] = [])).
  intros [H | [H | H]]; discriminate H.
Defined.

(** One supported room with id 1 and the selection [[2]]: the selection is
    not empty, it is not the set of supported rooms, and a room is
    supported, yet the processor is asked for a global clean. *)
Lemma specifiedCleanRule_counterexample :
  ¬ specifiedCleanRule quietEnv "d" (newWorld (sampleService [room 1] [] [2%Z])).
Proof.
  intros Hrule.
  destruct (Hrule sampleProcessor eq_refl eq_refl) as [_ Hroom].
  assert (Hcalls : List.filter isProcCall
            (emitted (startClean quietEnv "d") (newWorld (sampleService [room 1] [] [2%Z])))
          = [EProc sampleProcessor (PStartClean "d")]) by (vm_compute; reflexivity).
  rewrite Hcalls in Hroom.
  assert (Hne : [EProc sampleProcessor (PStartClean "d")]
                ≠ [EProc sampleProcessor (PStartRoomClean "d" [2%Z] 1)]) by discriminate.
  apply Hne, Hroom.
  change (¬ ([2%Z] = [] ∨ sameSet [2%Z] [1%Z] ∨ [room 1] = [])).
  intros [H | [H | H]]; try discriminate H.
  destruct (H 2%Z) as [Hin _]. destruct (Hin (or_introl eq_refl)) as [H1 | []].
  discriminate H1.
Qed.

(** One supported routine, 99, and it is selected: scene 99 is started. *)
Lemma startClean_single_routine_witness :
  let w := newWorld (sampleService [room 1; room 2] [room 99] [99%Z]) in
  let api := {| apiUserData := sampleUser |} in
  startClean quietEnv "d" w =
    (Resolved tt,
     addTrace [ELog Debug "RoborockService - begin cleaning";
               ELog Debug "RoborockService - startScene";
               EStartScene api 99] w).
Proof.
  intros w api.
  exact (proj2 (proj2 (proj2
    (startClean_single_routine quietEnv "d" 99%Z api w eq_refl eq_refl)))).
Defined.

(** Routines 99 and 100, both selected: a warning and nothing else. *)
Lemma startClean_multiple_routines_witness :
  let w := newWorld (sampleService [room 1; room 2] [room 99; room 100] [99%Z; 100%Z]) in
  startClean quietEnv "d" w =
    (Resolved tt,
     addTrace [ELog Debug "RoborockService - begin cleaning";
               ELog Warn "RoborockService - Multiple routines selected, which is not supported."] w).
Proof.
  intros w. apply (startClean_multiple_routines quietEnv "d" w).
  change (1 < 2). lia.
Defined.

(** A known address and a client that never connects. *)
Lemma local_connect_gives_up_witness :
  let w := newWorld serviceWithIp in
  initializeMessageClientForLocal quietEnv deviceC w
  = (Resolved false, snd (initializeMessageClientForLocal quietEnv deviceC w))
  ∧ now (snd (initializeMessageClientForLocal quietEnv deviceC w)) = 10000%Z.
Proof.
  intros w.
  assert (Hpv : pv deviceC ≠ "B01") by discriminate.
  assert (Ha : "192.168.1.7" ≠ "") by discriminate.
  destruct (local_connect_gives_up quietEnv deviceC sampleRouter "192.168.1.7" w
              eq_refl Hpv Ha (or_introl eq_refl) (fun _ => eq_refl))
    as (Hrun & _ & _ & _ & Hnow & _).
  split; [exact Hrun | exact Hnow].
Defined.

(** A fresh service has no processor for any device. *)
Lemma commands_without_processor_witness :
  let w := newWorld (newService 10 None) in
  pauseClean quietEnv "d" w =
    (Resolved tt,
     addTrace [ELog Debug "RoborockService - pauseClean";
               ELog Error "MessageApi is not initialized."] w)
  ∧ getCleanModeData quietEnv "d" w =
    (Rejected "Failed to retrieve clean mode data",
     addTrace [ELog Notice "RoborockService - getCleanModeData";
               ELog Error "MessageApi is not initialized."] w).
Proof.
  intros w.
  destruct (commands_without_processor quietEnv "d"
              {| method := "get_status"; params := None; secure := false |} w eq_refl)
    as (Hpause & _ & _ & _ & _ & _ & Hmode & _).
  split; [exact Hpause | exact Hmode].
Defined.

(** Without a processor, [getCleanModeData] rejects; and [startClean] on a
    selected routine starts the scene without a word about the processor. *)
Lemma resolvesWithMissingLog_counterexample :
  ¬ resolvesWithMissingLog (getCleanModeData quietEnv "d") (newWorld (newService 10 None))
  ∧ JsMap.get "d" (messageProcessorMap routineOnlyService) = None
  ∧ ¬ resolvesWithMissingLog (startClean quietEnv "d") (newWorld routineOnlyService).
Proof.
  split; [| split].
  - intros [[a Ha] _].
    assert (Hrejects : fst (getCleanModeData quietEnv "d" (newWorld (newService 10 None)))
                       = Rejected "Failed to retrieve clean mode data")
      by (vm_compute; reflexivity).
    rewrite Hrejects in Ha. discriminate Ha.
  - reflexivity.
  - intros [_ Hlog].
    assert (Hevents : emitted (startClean quietEnv "d") (newWorld routineOnlyService)
                      = [ELog Debug "RoborockService - begin cleaning";
                         ELog Debug "RoborockService - startScene";
                         EStartScene {| apiUserData := sampleUser |} 99])
      by (vm_compute; reflexivity).
    rewrite Hevents in Hlog.
    destruct Hlog as [H | [H | [H | []]]]; discriminate H.
Qed.

(** A cloud-only device on a service whose router exists. *)
Lemma initializeMessageClientForLocal_cloud_only_witness :
  let w := newWorld serviceWithIp in
  let w' := snd (initializeMessageClientForLocal quietEnv deviceA w) in
  initializeMessageClientForLocal quietEnv deviceA w = (Resolved true, w')
  ∧ isRequestSecure (this w') "a" = true.
Proof.
  intros w w'.
  destruct (initializeMessageClientForLocal_cloud_only quietEnv deviceA sampleRouter w
              eq_refl eq_refl)
    as (Hrun & _ & _ & _ & _ & _ & Hsecure & _).
  split; [exact Hrun | exact Hsecure].
Defined.

(** A router that connects after three sleeps is waited for three times. *)
Lemma initializeMessageClient_waits_without_bound_witness :
  let w := newWorld (newService 10 (Some {| managerName := "manager" |})) in
  ∃ w', initializeMessageClient (connectsAt 1500) 5 "user" deviceA sampleUser w
        = Some (Resolved tt, w')
        ∧ now w' = 1500%Z.
Proof.
  intros w.
  destruct (initializeMessageClient_waits_without_bound "user" deviceA sampleUser
              {| managerName := "manager" |} w eq_refl) as (Hsound & Hdone & _).
  assert (Hbefore : ∀ j, (j < 3)%nat →
            routerConnected (connectsAt 1500) {| routerUser := "user"; routerUserData := sampleUser |}
              (now w + 500 * Z.of_nat j)%Z = false).
  { intros j Hj. cbn [connectsAt routerConnected]. apply Z.leb_gt.
    change (now w) with 0%Z. lia. }
  assert (Hfuel : (3 ≤ 5)%nat) by lia.
  destruct (Hdone (connectsAt 1500) 3 Hbefore eq_refl 5 Hfuel) as (w' & Hrun & _).
  exists w'. split; [exact Hrun |].
  assert (Hfive : ∃ w5, initializeMessageClient (connectsAt 1500) 5 "user" deviceA sampleUser w
                        = Some (Resolved tt, w5) ∧ now w5 = 1500%Z)
    by (eexists; split; vm_compute; reflexivity).
  destruct Hfive as (w5 & Hrun5 & Hnow). rewrite Hrun in Hrun5. by simplify_eq.
Defined.

(** Two vacuums are polled, the service is stopped, and the timer of the
    first is still live. *)
Lemma stopService_cancels_newest_timer_only_witness :
  let w := newWorld (sampleService [] [] []) in
  let w3 := snd (stopService (snd (activate (OverMQTT deviceB)
                   (snd (activateAll [Local deviceA] w))))) in
  handlesFresh w
  ∧ List.map handle (intervals w3) = [0]
  ∧ requestDeviceStatusInterval (this w3) = None.
Proof.
  intros w w3.
  assert (Hw : handlesFresh w) by constructor.
  split; [exact Hw |].
  destruct (stopService_cancels_newest_timer_only [Local deviceA] (OverMQTT deviceB) w Hw)
    as (_ & _ & _ & Hhandles & Hlive & Hfield).
  split; [| exact Hfield].
  subst w3. rewrite Hlive. exact Hhandles.
Defined.

(** No index map for the device: nothing is stored, and the processor is
    asked for a global clean although rooms 1 and 2 were passed. *)
Lemma setSelectedAreas_translates_witness :
  let w := newWorld (sampleService [room 1; room 2; room 3] [] []) in
  let w' := snd (setSelectedAreas "d" [1%Z; 2%Z] w) in
  selectedAreas (this w') !! "d" = Some []
  ∧ startClean quietEnv "d" w' =
      (Resolved tt,
       addTrace [ELog Debug "RoborockService - begin cleaning";
                 ELog Debug "RoborockService - startGlobalClean";
                 EProc sampleProcessor (PStartClean "d")] w').
Proof.
  intros w w'.
  destruct (setSelectedAreas_translates quietEnv "d" [1%Z; 2%Z] w)
    as (_ & _ & _ & _ & Hnone).
  destruct (Hnone eq_refl) as [Hsel Hclean].
  split; [exact Hsel | exact (Hclean sampleProcessor eq_refl)].
Defined.

(** C8 at a session with two vacuums.  After [stopService] the processor
    map is empty and the stored handle is cleared, and only timer 1 was
    cancelled: timer 0, started for the first vacuum, is still live, and
    its next tick asks that vacuum's processor for the device status and
    passes the answer on. *)
Lemma stopService_leaves_earlier_timer_live :
  let w := afterTwoDeviceSession in
  messageProcessorMap (this w) = JsMap.empty
  ∧ localClientMap (this w) = JsMap.empty
  ∧ messageClient (this w) = None
  ∧ requestDeviceStatusInterval (this w) = None
  ∧ List.filter (fun e => match e with EClearInterval _ => true | _ => false end) (trace w)
    = [EClearInterval 1]
  ∧ intervals w =
      [{| handle := 0; overMQTT := false; timerDuid := "a";
          timerProcessor := Some sampleProcessor; period := 10000 |}]
  ∧ ∀ i, In i (intervals w) →
      emitted (tick readyEnv i) w =
        [EProc sampleProcessor (PGetDeviceStatus "a");
         ELog Debug "Socket - Device status update";
         ENotify LocalMessage "a" {| errorStatus := []; message := [] |}].
Proof.
  intros w.
  assert (Hlive : intervals w =
            [{| handle := 0; overMQTT := false; timerDuid := "a";
                timerProcessor := Some sampleProcessor; period := 10000 |}])
    by (vm_compute; reflexivity).
  repeat split; try (vm_compute; reflexivity).
  intros i Hi. rewrite Hlive in Hi. destruct Hi as [<- | []]. vm_compute. reflexivity.
Qed.

(** * Further properties of the service *)

Lemma emitted_addTrace {A} (m : M A) w evs :
  snd (m w) = addTrace evs w → emitted m w = evs.
Proof.
  intros H. unfold emitted. rewrite H. cbn [addTrace trace]. apply drop_app_length.
Qed.

Section CleaningFacts.

Variable E : Env.

(** Every run of [startClean] only adds to the trace; what it adds never
    holds the warning of the last branch and holds at most one request. *)
Lemma startClean_addTrace d w :
  ∃ evs,
    snd (startClean E d w) = addTrace evs w
    ∧ ¬ In (ELog Warn "RoborockService - something goes wrong.") evs
    ∧ (length (List.filter isRequest evs) ≤ 1)%nat.
Proof.
  rewrite startClean_unfold. cbv zeta.
  set (w0 := addTrace [ELog Debug "RoborockService - begin cleaning"] w).
  destruct (JsMap.get d (messageProcessorMap (this w))) as [p|] eqn:Hp.
  - assert (Hp0 : JsMap.get d (messageProcessorMap (this w0)) = Some p) by exact Hp.
    repeat case_match;
      rewrite ?(globalClean_present d p w0 Hp0), ?(roomClean_present E d p _ w0 Hp0);
      subst w0; rewrite ?addTrace_addTrace; cbn [snd];
      try (eexists; split; [reflexivity | split; [| cbn; lia]];
           cbn; intros Hin; repeat destruct Hin as [Hin | Hin]; discriminate Hin || done).
    all: exfalso; repeat match goal with
         | H : (_ || _) = false |- _ => apply orb_false_iff in H as [? ?]
         | H : (_ =? _)%nat = false |- _ => apply Nat.eqb_neq in H
         | H : (_ <? _)%nat = false |- _ => apply Nat.ltb_ge in H
         end; lia.
  - assert (Hp0 : JsMap.get d (messageProcessorMap (this w0)) = None) by exact Hp.
    repeat case_match;
      rewrite ?(processor_absent d Debug _ _ tt w0 Hp0);
      subst w0; rewrite ?addTrace_addTrace; cbn [snd];
      try (eexists; split; [reflexivity | split; [| cbn; lia]];
           cbn; intros Hin; repeat destruct Hin as [Hin | Hin]; discriminate Hin || done).
    all: exfalso; repeat match goal with
         | H : (_ || _) = false |- _ => apply orb_false_iff in H as [? ?]
         | H : (_ =? _)%nat = false |- _ => apply Nat.eqb_neq in H
         | H : (_ <? _)%nat = false |- _ => apply Nat.ltb_ge in H
         end; lia.
Qed.

(** X2.  Whatever is configured and selected, [startClean] leaves the
    service, the clock and the timers as they were, sends at most one
    request (to the processor or to the IoT API, never both), and never
    takes its last branch: the warning that something goes wrong cannot
    be logged. *)
Theorem startClean_effects d w :
  let w' := snd (startClean E d w) in
  this w' = this w
  ∧ now w' = now w
  ∧ intervals w' = intervals w
  ∧ nextHandle w' = nextHandle w
  ∧ (length (List.filter isRequest (emitted (startClean E d) w)) ≤ 1)%nat
  ∧ ¬ In (ELog Warn "RoborockService - something goes wrong.")
         (emitted (startClean E d) w).
Proof.
  intros w'. destruct (startClean_addTrace d w) as (evs & Hrun & Hwarn & Hone).
  rewrite (emitted_addTrace _ _ _ Hrun). subst w'. rewrite Hrun.
  repeat split; done.
Qed.

(** X1.  With routines configured for the device but none of them
    selected, and a processor registered: the rooms cleaned are the
    selected ids that are ids of supported areas, in the order selected.
    If there is none, or as many as supported areas, the processor is asked
    for a global clean; otherwise for a room clean of exactly those ids,
    once.  Selected ids that are neither rooms nor routines are left out. *)
Theorem startClean_rooms_beside_routines d p w :
  let supportedRooms := default [] (supportedAreas (this w) !! d) in
  let routines := default [] (supportedRoutines (this w) !! d) in
  let selected := default [] (selectedAreas (this w) !! d) in
  let rooms := selectedAmong supportedRooms selected in
  routines ≠ [] →
  selectedAmong routines selected = [] →
  JsMap.get d (messageProcessorMap (this w)) = Some p →
  (rooms = [] ∨ length rooms = length supportedRooms →
     startClean E d w =
       (Resolved tt,
        addTrace [ELog Debug "RoborockService - begin cleaning";
                  ELog Debug "RoborockService - startGlobalClean";
                  EProc p (PStartClean d)] w))
  ∧ (rooms ≠ [] → length rooms ≠ length supportedRooms →
     startClean E d w =
       (match procRejects E p (PStartRoomClean d rooms 1) with
        | Some err => Rejected err
        | None => Resolved tt
        end,
        addTrace [ELog Debug "RoborockService - begin cleaning";
                  ELog Debug "RoborockService - startRoomClean";
                  EProc p (PStartRoomClean d rooms 1)] w))
  ∧ (∀ x, In x rooms ↔ In x selected ∧ ∃ a, In a supportedRooms ∧ areaId a = x).
Proof.
  intros supportedRooms routines selected rooms Hroutines Hrt Hp.
  assert (Hp0 : JsMap.get d (messageProcessorMap
            (this (addTrace [ELog Debug "RoborockService - begin cleaning"] w))) = Some p)
    by exact Hp.
  assert (Hlen : (length routines =? 0)%nat = false).
  { apply Nat.eqb_neq. destruct routines; [done | cbn; lia]. }
  split; [| split].
  - intros Hcond. rewrite startClean_unfold. cbv zeta.
    fold supportedRooms routines selected. rewrite Hlen, Hrt. fold rooms.
    cbn [length Nat.ltb Nat.leb Nat.eqb].
    replace ((length rooms =? length supportedRooms)%nat
             || (length rooms =? 0)%nat || (length supportedRooms =? 0)%nat) with true.
    + rewrite (globalClean_present d p _ Hp0). by rewrite addTrace_addTrace.
    + symmetry. rewrite !orb_true_iff, !Nat.eqb_eq.
      destruct Hcond as [-> | Heq]; [by left; right | by left; left].
  - intros Hne Hdiff. rewrite startClean_unfold. cbv zeta.
    fold supportedRooms routines selected. rewrite Hlen, Hrt. fold rooms.
    cbn [length Nat.ltb Nat.leb Nat.eqb].
    assert (Hpos : (0 < length rooms)%nat) by (destruct rooms; [done | cbn; lia]).
    assert (Hsup : (0 < length supportedRooms)%nat).
    { destruct supportedRooms; [| cbn; lia].
      subst rooms. by rewrite selectedAmong_nil in Hne. }
    replace ((length rooms =? length supportedRooms)%nat
             || (length rooms =? 0)%nat || (length supportedRooms =? 0)%nat) with false.
    + apply Nat.ltb_lt in Hpos as Hpos'. unfold Nat.ltb in Hpos'. 
      replace (match length rooms with 0 => false | S m' => true end) with true
        by (destruct (length rooms); [lia | done]).
      rewrite (roomClean_present E d p rooms _ Hp0). by rewrite addTrace_addTrace.
    + symmetry. rewrite !orb_false_iff, !Nat.eqb_neq. lia.
  - intros x. apply selectedAmong_In.
Qed.

(** X3.  Selecting areas and then starting a clean, with no routine
    configured and a processor registered: the processor is asked to clean
    the room ids that the index map gives for the selected area ids, not
    the area ids themselves (unless the translated list is empty or as
    long as the list of supported areas, when the clean is global). *)
Theorem select_then_clean d p indexMap areas w :
  default [] (supportedRoutines (this w) !! d) = [] →
  JsMap.get d (messageProcessorMap (this w)) = Some p →
  supportedAreaIndexMaps (this w) !! d = Some indexMap →
  let supportedRooms := default [] (supportedAreas (this w) !! d) in
  let roomIds := omap (getRoomId indexMap) areas in
  let w' := snd (setSelectedAreas d areas w) in
  roomIds ≠ [] →
  length roomIds ≠ length supportedRooms →
  supportedRooms ≠ [] →
  startClean E d w' =
    (match procRejects E p (PStartRoomClean d roomIds 1) with
     | Some err => Rejected err
     | None => Resolved tt
     end,
     addTrace [ELog Debug "RoborockService - begin cleaning";
               ELog Debug "RoborockService - startRoomClean";
               EProc p (PStartRoomClean d roomIds 1)] w').
Proof.
  intros Hroutines Hp Hmap supportedRooms roomIds w' Hne Hlen Hsup.
  assert (Hsel : selectedAreas (this w') !! d = Some roomIds).
  { subst w'. unfold setSelectedAreas, bind, getThis, logger, emit, modifyThis. simpl.
    rewrite lookup_insert_eq, Hmap. f_equal. apply omap_translate. }
  assert (Hp0 : JsMap.get d (messageProcessorMap
            (this (addTrace [ELog Debug "RoborockService - begin cleaning"] w'))) = Some p)
    by exact Hp.
  rewrite startClean_unfold. cbv zeta. rewrite Hsel.
  change (supportedRoutines (this w')) with (supportedRoutines (this w)).
  change (supportedAreas (this w')) with (supportedAreas (this w)).
  rewrite Hroutines. fold supportedRooms. cbn [default length Nat.eqb]. unfold id.
  replace ((length roomIds =? length supportedRooms)%nat
           || (length roomIds =? 0)%nat || (length supportedRooms =? 0)%nat) with false.
  - rewrite (roomClean_present E d p roomIds _ Hp0). by rewrite addTrace_addTrace.
  - symmetry. rewrite !orb_false_iff, !Nat.eqb_neq.
    repeat split; [done | |]; intros H0; apply length_zero_iff_nil in H0; done.
Qed.

(** X4.  With a processor registered for the device, each command makes
    exactly one call on it, for the same device id, and fails exactly when
    that call fails: [pauseClean], [resumeClean], [stopAndGoHome] (the
    processor's [gotoDock]), [playSoundToLocate] (its [findMyRobot]),
    [customSend], [customGet] (which hands back the processor's answer) and
    [changeCleanMode] (which passes suction, water, mop route and distance
    in that order, a missing mop route as 0). *)
Theorem commands_with_processor d p request setting w :
  JsMap.get d (messageProcessorMap (this w)) = Some p →
  let outcome c :=
    match procRejects E p c with
    | Some err => @Rejected unit err
    | None => Resolved tt
    end in
  pauseClean E d w =
    (outcome (PPauseClean d),
     addTrace [ELog Debug "RoborockService - pauseClean"; EProc p (PPauseClean d)] w)
  ∧ resumeClean E d w =
    (outcome (PResumeClean d),
     addTrace [ELog Debug "RoborockService - resumeClean"; EProc p (PResumeClean d)] w)
  ∧ stopAndGoHome E d w =
    (outcome (PGotoDock d),
     addTrace [ELog Debug "RoborockService - stopAndGoHome"; EProc p (PGotoDock d)] w)
  ∧ playSoundToLocate E d w =
    (outcome (PFindMyRobot d),
     addTrace [ELog Debug "RoborockService - findMe"; EProc p (PFindMyRobot d)] w)
  ∧ customSend E d request w =
    (outcome (PSendCustomMessage d request),
     addTrace [EProc p (PSendCustomMessage d request)] w)
  ∧ customGet E d request w =
    (match procRejects E p (PGetCustomMessage d request) with
     | Some err => Rejected err
     | None => Resolved (customReply E p d request)
     end,
     addTrace [ELog Debug "RoborockService - customSend-message";
               EProc p (PGetCustomMessage d request)] w)
  ∧ changeCleanMode E d setting w =
    (outcome (PChangeCleanMode d (suctionPower setting) (waterFlow setting)
                (default 0%Z (mopRoute setting)) (distance_off setting)),
     addTrace [ELog Notice "RoborockService - changeCleanMode";
               EProc p (PChangeCleanMode d (suctionPower setting) (waterFlow setting)
                          (default 0%Z (mopRoute setting)) (distance_off setting))] w).
Proof.
  intros Hp outcome.
  assert (Hcall : ∀ lv msg c,
    (logger lv msg;;
     mp <- getMessageProcessor d;;
     match mp with
     | Some p => awaitProc E p c
     | None => ret tt
     end) w = (outcome c, addTrace [ELog lv msg; EProc p c] w)).
  { intros lv msg c. unfold bind at 1. rewrite logger_addTrace.
    erewrite bind_resolved by (by apply getMessageProcessor_present).
    unfold awaitProc, bind. rewrite emit_addTrace, addTrace_addTrace. cbn [app].
    unfold outcome. by destruct (procRejects E p c). }
  repeat split; try apply Hcall.
  - unfold customSend. rewrite (bind_resolved _ _ _ _ _ (getMessageProcessor_present d p w Hp)).
    unfold awaitProc, bind. rewrite emit_addTrace. unfold outcome.
    by destruct (procRejects E p _).
  - unfold customGet. unfold bind at 1. rewrite logger_addTrace.
    erewrite bind_resolved by (by apply getMessageProcessor_present).
    unfold awaitProc, bind. rewrite emit_addTrace, addTrace_addTrace. cbn [app].
    by destruct (procRejects E p _).
Qed.

(** X5.  With a processor registered, [getCleanModeData] asks it once and
    resolves with its answer; it rejects when the call rejects, and also
    when the processor answers nothing, then with the same error as when
    there is no processor at all. *)
Theorem getCleanModeData_with_processor d p w :
  JsMap.get d (messageProcessorMap (this w)) = Some p →
  getCleanModeData E d w =
    (match procRejects E p (PGetCleanModeData d) with
     | Some err => Rejected err
     | None =>
         match cleanModeReply E p d with
         | Some data => Resolved data
         | None => Rejected "Failed to retrieve clean mode data"
         end
     end,
     addTrace [ELog Notice "RoborockService - getCleanModeData";
               EProc p (PGetCleanModeData d)] w).
Proof.
  intros Hp. unfold getCleanModeData. unfold bind at 1. rewrite logger_addTrace.
  erewrite bind_resolved by (by apply getMessageProcessor_present).
  unfold awaitProc, bind. rewrite emit_addTrace, addTrace_addTrace. cbn [app].
  destruct (procRejects E p _); [reflexivity |]. unfold ret, throw.
  by destruct (cleanModeReply E p d).
Qed.

End CleaningFacts.

(** ** Stopping, and what is left afterwards *)

(** X6.  Stopping a stopped service does nothing: the second
    [stopService] sends nothing out and leaves the world as the first one
    left it. *)
Theorem stopService_idempotent w :
  let w' := snd (stopService w) in
  stopService w' = (Resolved tt, w')
  ∧ emitted stopService w' = [].
Proof.
  intros w'. subst w'. rewrite (stopService_stopped w). cbn [snd].
  assert (Hagain : stopped (stopped w) = stopped w).
  { unfold stopped at 1. cbn. rewrite app_nil_r. reflexivity. }
  split.
  - rewrite (stopService_stopped (stopped w)). by rewrite Hagain.
  - unfold emitted. rewrite (stopService_stopped (stopped w)). cbn [snd]. rewrite Hagain.
    apply drop_all.
Qed.

Section AfterStop.

Variable E : Env.

(** X7.  After [stopService] no device is known any more: every look-up of
    a processor fails and logs, [getRoomMappings] warns and asks nobody, and
    [initializeMessageClientForLocal] gives up at once.  What was learnt
    about the devices is kept: their addresses, cloud-only flags, supported
    areas and routines, selections and index maps, as are the IoT API
    object and the notify callback. *)
Theorem stopService_forgets_devices_only d device w :
  let w' := snd (stopService w) in
  getMessageProcessor d w' =
    (Resolved None, addTrace [ELog Error "MessageApi is not initialized."] w')
  ∧ getRoomMappings E d w' =
    (Resolved None,
     addTrace [ELog Warn "messageClient not initialized. Waititing for next execution"] w')
  ∧ initializeMessageClientForLocal E device w' =
    (Resolved false,
     addTrace [ELog Debug "Begin get local ip";
               ELog Error "messageClient not initialized"] w')
  ∧ ipMap (this w') = ipMap (this w)
  ∧ mqttAlwaysOnDevices (this w') = mqttAlwaysOnDevices (this w)
  ∧ supportedAreas (this w') = supportedAreas (this w)
  ∧ supportedRoutines (this w') = supportedRoutines (this w)
  ∧ selectedAreas (this w') = selectedAreas (this w)
  ∧ supportedAreaIndexMaps (this w') = supportedAreaIndexMaps (this w)
  ∧ iotApi (this w') = iotApi (this w)
  ∧ deviceNotify (this w') = deviceNotify (this w).
Proof.
  intros w'. subst w'. rewrite (stopService_stopped w). cbn [snd].
  split; [by apply getMessageProcessor_absent |].
  split; [reflexivity |].
  split; [by apply initializeMessageClientForLocal_without_router |].
  repeat split.
Qed.



End AfterStop.

(** ** The local path, in full *)

Lemma JsMap_get_set_eq {V} k (v : V) m : JsMap.get k (JsMap.set k v m) = Some v.
Proof.
  induction m as [|[k' v'] m IH]; cbn.
  - by rewrite String.eqb_refl.
  - destruct (String.eqb k' k) eqn:Hk; cbn.
    + by rewrite String.eqb_refl.
    + by rewrite Hk.
Qed.

Lemma JsMap_get_set_ne {V} k k' (v : V) m :
  k ≠ k' → JsMap.get k' (JsMap.set k v m) = JsMap.get k' m.
Proof.
  intros Hne. induction m as [|[k0 v0] m IH]; cbn.
  - by apply String.eqb_neq in Hne as ->.
  - destruct (String.eqb k0 k) eqn:Hk; cbn.
    + apply String.eqb_eq in Hk as ->. by apply String.eqb_neq in Hne as ->.
    + by rewrite IH.
Qed.

Section LocalFacts.

Variable E : Env.

(** The wait stops at the first poll that finds the client connected. *)
Lemma pollLocalClient_connects n k localClient w :
  (k ≤ n)%nat →
  (∀ j, (j < k)%nat → localConnected E localClient (now w + 500 * Z.of_nat j)%Z = false) →
  (k < n)%nat → localConnected E localClient (now w + 500 * Z.of_nat k)%Z = true →
  pollLocalClient E n localClient w =
    (Resolved tt,
     {| this := this w; trace := trace w ++ pollEvents k;
        now := (now w + 500 * Z.of_nat k)%Z;
        intervals := intervals w; nextHandle := nextHandle w |}).
Proof.
  revert n w. induction k as [|k IH]; intros n w Hle Hbefore Hlt Hat.
  - destruct n as [|n]; [lia |]. cbn [pollLocalClient]. unfold bind at 1, getNow at 1.
    replace (now w + 500 * Z.of_nat 0)%Z with (now w) in Hat by lia. rewrite Hat.
    destruct w. cbn. unfold ret. rewrite app_nil_r. do 2 f_equal. lia.
  - destruct n as [|n]; [lia |]. cbn [pollLocalClient]. unfold bind at 1, getNow at 1.
    pose proof (Hbefore 0 ltac:(lia)) as H0.
    replace (now w + 500 * Z.of_nat 0)%Z with (now w) in H0 by lia. rewrite H0.
    unfold bind at 1. rewrite logger_addTrace. unfold bind at 1. unfold sleep at 1.
    rewrite (IH n); [| lia | | lia |].
    + cbn -[Z.of_nat Z.mul Z.add]. rewrite <- !app_assoc. do 2 f_equal. lia.
    + intros j Hj. specialize (Hbefore (S j) ltac:(lia)). cbn [now addTrace].
      by replace (now w + 500 + 500 * Z.of_nat j)%Z
        with (now w + 500 * Z.of_nat (S j))%Z by lia.
    + cbn [now addTrace].
      by replace (now w + 500 + 500 * Z.of_nat k)%Z
        with (now w + 500 * Z.of_nat (S k))%Z by lia.
Qed.

(** A client that is disconnected at each of the [n] polls is waited for
    [n] times. *)
Lemma pollLocalClient_exhausted n localClient w :
  (∀ j, (j < n)%nat → localConnected E localClient (now w + 500 * Z.of_nat j)%Z = false) →
  pollLocalClient E n localClient w =
    (Resolved tt,
     {| this := this w; trace := trace w ++ pollEvents n;
        now := (now w + 500 * Z.of_nat n)%Z;
        intervals := intervals w; nextHandle := nextHandle w |}).
Proof.
  revert w. induction n as [|n IH]; intros w Hbefore.
  - destruct w. cbn. unfold ret. rewrite app_nil_r. do 2 f_equal. lia.
  - cbn [pollLocalClient]. unfold bind at 1, getNow at 1.
    pose proof (Hbefore 0 ltac:(lia)) as H0.
    replace (now w + 500 * Z.of_nat 0)%Z with (now w) in H0 by lia. rewrite H0.
    unfold bind at 1. rewrite logger_addTrace. unfold bind at 1. unfold sleep at 1.
    rewrite IH.
    + cbn -[Z.of_nat Z.mul Z.add]. rewrite <- !app_assoc. do 2 f_equal. lia.
    + intros j Hj. specialize (Hbefore (S j) ltac:(lia)). cbn [now addTrace].
      by replace (now w + 500 + 500 * Z.of_nat j)%Z
        with (now w + 500 * Z.of_nat (S j))%Z by lia.
Qed.

(** The outcome of the connection block is decided by the state of the
    client after the wait, which has taken [k] rounds, [k] at most 20. *)
Lemma connectLocalClient_cases client device a w :
  a ≠ "" →
  let localClient := {| clientDuid := duid device; clientIp := a |} in
  let started :=
    [ELog Debug "initializing the local connection for this client towards ";
     ERouter client (RRegisterClient (duid device) a);
     EClient localClient CConnect] in
  ∃ k, (k ≤ 20)%nat ∧
    connectLocalClient E client device (Some a) w =
      if localConnected E localClient (now w + 500 * Z.of_nat k)%Z
      then
        (Resolved tt,
         {| this :=
              set_localClientMap
                (JsMap.set (duid device) localClient (localClientMap (this w)))
                (set_ipMap (<[duid device := a]> (ipMap (this w))) (this w));
            trace := trace w ++ started ++ pollEvents k ++ [ELog Debug "LocalClient connected"];
            now := (now w + 500 * Z.of_nat k)%Z;
            intervals := intervals w; nextHandle := nextHandle w |})
      else
        (Rejected "Local client did not connect after 10 attempts, something is wrong",
         {| this := this w;
            trace := trace w ++ started ++ pollEvents k;
            now := (now w + 500 * Z.of_nat k)%Z;
            intervals := intervals w; nextHandle := nextHandle w |}).
Proof.
  intros Ha localClient started. unfold connectLocalClient.
  apply String.eqb_neq in Ha as ->. cbn [negb].
  unfold bind at 1. rewrite logger_addTrace.
  unfold bind at 1. rewrite emit_addTrace.
  unfold bind at 1. rewrite emit_addTrace.
  fold localClient. rewrite !addTrace_addTrace. cbn [app].
  destruct (pollLocalClient_bounded E 20 localClient
              (addTrace [ELog Debug "initializing the local connection for this client towards ";
                         ERouter client (RRegisterClient (duid device) a);
                         EClient localClient CConnect] w)) as (k & Hk & Hpoll).
  exists k. split; [exact Hk |].
  unfold bind at 1. rewrite Hpoll. unfold bind at 1, getNow at 1.
  cbn [now addTrace this trace intervals nextHandle].
  destruct (localConnected E localClient _); cbn [negb].
  - unfold bind, modifyThis, logger, emit. cbn. subst started.
    rewrite <- !app_assoc. reflexivity.
  - unfold throw. subst started. cbn. rewrite <- !app_assoc. reflexivity.
Qed.

(** The connection block when the client is first found connected at poll
    [k], and when it is found disconnected at all 21 polls. *)
Lemma connectLocalClient_first client device a k w :
  a ≠ "" →
  let localClient := {| clientDuid := duid device; clientIp := a |} in
  (k ≤ 20)%nat →
  (∀ j, (j < k)%nat → localConnected E localClient (now w + 500 * Z.of_nat j)%Z = false) →
  localConnected E localClient (now w + 500 * Z.of_nat k)%Z = true →
  connectLocalClient E client device (Some a) w =
    (Resolved tt,
     {| this :=
          set_localClientMap
            (JsMap.set (duid device) localClient (localClientMap (this w)))
            (set_ipMap (<[duid device := a]> (ipMap (this w))) (this w));
        trace := trace w ++
          [ELog Debug "initializing the local connection for this client towards ";
           ERouter client (RRegisterClient (duid device) a);
           EClient localClient CConnect]
          ++ pollEvents k ++ [ELog Debug "LocalClient connected"];
        now := (now w + 500 * Z.of_nat k)%Z;
        intervals := intervals w; nextHandle := nextHandle w |}).
Proof.
  intros Ha localClient Hk Hbefore Hat. unfold connectLocalClient.
  apply String.eqb_neq in Ha as ->. cbn [negb]. fold localClient.
  unfold bind at 1. rewrite logger_addTrace.
  unfold bind at 1. rewrite emit_addTrace.
  unfold bind at 1. rewrite emit_addTrace.
  unfold bind at 1.
  assert (Hpoll : ∀ w1, now w1 = now w →
    pollLocalClient E 20 localClient w1 =
      (Resolved tt,
       {| this := this w1; trace := trace w1 ++ pollEvents k;
          now := (now w1 + 500 * Z.of_nat k)%Z;
          intervals := intervals w1; nextHandle := nextHandle w1 |})).
  { intros w1 Hnow. destruct (decide (k = 20)) as [-> | Hne].
    - apply pollLocalClient_exhausted. intros j Hj. rewrite Hnow. by apply Hbefore.
    - apply pollLocalClient_connects; rewrite ?Hnow; [lia | done | lia | done]. }
  rewrite Hpoll by reflexivity.
  unfold bind at 1, getNow at 1. cbn [now addTrace this trace intervals nextHandle].
  rewrite Hat. cbn [negb].
  unfold bind, modifyThis, logger, emit.
  cbn [this trace now intervals nextHandle fst snd].
  rewrite <- !app_assoc. reflexivity.
Qed.

Lemma connectLocalClient_window client device a w :
  a ≠ "" →
  let localClient := {| clientDuid := duid device; clientIp := a |} in
  (∀ j, (j ≤ 20)%nat → localConnected E localClient (now w + 500 * Z.of_nat j)%Z = false) →
  connectLocalClient E client device (Some a) w =
    (Rejected "Local client did not connect after 10 attempts, something is wrong",
     {| this := this w;
        trace := trace w ++
          [ELog Debug "initializing the local connection for this client towards ";
           ERouter client (RRegisterClient (duid device) a);
           EClient localClient CConnect]
          ++ pollEvents 20;
        now := (now w + 500 * Z.of_nat 20)%Z;
        intervals := intervals w; nextHandle := nextHandle w |}).
Proof.
  intros Ha localClient Hwindow. unfold connectLocalClient.
  apply String.eqb_neq in Ha as ->. cbn [negb]. fold localClient.
  unfold bind at 1. rewrite logger_addTrace.
  unfold bind at 1. rewrite emit_addTrace.
  unfold bind at 1. rewrite emit_addTrace.
  unfold bind at 1.
  rewrite pollLocalClient_exhausted
    by (intros j Hj; cbn [now addTrace]; apply Hwindow; lia).
  unfold bind at 1, getNow at 1. cbn [now addTrace this trace intervals nextHandle].
  rewrite (Hwindow 20 ltac:(lia)). cbn [negb]. unfold throw.
  rewrite <- !app_assoc. reflexivity.
Qed.

(** Up to the connection block: the processor is registered, the device
    is marked as not cloud-only, and the address is found. *)
Lemma initializeMessageClientForLocal_connect device client a w :
  messageClient (this w) = Some client →
  pv device ≠ "B01" →
  a ≠ "" →
  let messageProcessor := {| processorClient := client |} in
  (ipMap (this w) !! duid device = Some a
   ∨ (truthy (ipMap (this w) !! duid device) = false
      ∧ procRejects E messageProcessor (PGetNetworkInfo (duid device)) = None
      ∧ networkInfoReply E messageProcessor (duid device) ≫= ip = Some a)) →
  ∃ pre,
    Forall (fun e => isSleep e = false) pre
    ∧ initializeMessageClientForLocal E device w =
        match connectLocalClient E client device (Some a)
                {| this :=
                     set_mqttAlwaysOnDevices
                       (<[duid device := false]> (mqttAlwaysOnDevices (this w)))
                       (set_messageProcessorMap
                          (JsMap.set (duid device) messageProcessor
                             (messageProcessorMap (this w)))
                          (this w));
                   trace := trace w ++ pre; now := now w;
                   intervals := intervals w; nextHandle := nextHandle w |}
        with
        | (Resolved _, w2) => (Resolved true, w2)
        | (Rejected _, w2) =>
            (Resolved false, addTrace [ELog Error "Error requesting network info"] w2)
        end.
Proof.
  intros Hclient Hpv Ha messageProcessor Hip.
  apply String.eqb_neq in Hpv.
  assert (Htruthy : truthy (Some a) = true).
  { unfold truthy. by apply String.eqb_neq in Ha as ->. }
  unfold initializeMessageClientForLocal.
  unfold bind at 1. rewrite logger_addTrace.
  unfold bind at 1, getThis at 1. rewrite this_addTrace, Hclient, Hpv.
  fold messageProcessor.
  unfold awaitProc, fireProc, logger, tryCatch, modifyThis, getThis, bind, emit, ret.
  cbn [this trace now intervals nextHandle fst snd ipMap set_messageProcessorMap
       set_mqttAlwaysOnDevices addTrace].
  destruct Hip as [Hip | (Hno & Hrej & Hinfo)].
  - rewrite Hip, Htruthy. cbn [negb].
    exists [ELog Debug "Begin get local ip";
            EProc messageProcessor PInjectLogger;
            EProc messageProcessor PRegisterListener;
            ELog Debug "Checking if device supports local connection";
            ELog Debug "Local device"].
    split; [repeat constructor |].
    rewrite <- !app_assoc. cbn [app].
    by destruct (connectLocalClient E client device (Some a) _) as [[?|?] ?].
  - rewrite Hno, Hrej. cbn [negb].
    cbn [this trace now intervals nextHandle fst snd].
    rewrite Hinfo, Htruthy. cbn [negb].
    cbn [this trace now intervals nextHandle fst snd].
    exists [ELog Debug "Begin get local ip";
            EProc messageProcessor PInjectLogger;
            EProc messageProcessor PRegisterListener;
            ELog Debug "Checking if device supports local connection";
            ELog Debug "Local device";
            ELog Debug "Requesting network info for device";
            EProc messageProcessor (PGetNetworkInfo (duid device));
            ELog Debug "Network ip for device"].
    split; [repeat constructor |].
    rewrite <- !app_assoc. cbn [app].
    by destruct (connectLocalClient E client device (Some a) _) as [[?|?] ?].
Qed.

Lemma pollEvents_sleeps k : length (List.filter isSleep (pollEvents k)) = k.
Proof.
  induction k as [|k IH]; [done |].
  change (pollEvents (S k))
    with ([ELog Debug "Keep waiting for local client to connect"; ESleep 500]
          ++ pollEvents k)%list.
  rewrite List.filter_app, length_app, IH. reflexivity.
Qed.

Lemma sleeps_of_wait (pre mid post : list event) k :
  Forall (fun e => isSleep e = false) pre →
  Forall (fun e => isSleep e = false) mid →
  Forall (fun e => isSleep e = false) post →
  length (List.filter isSleep (pre ++ mid ++ pollEvents k ++ post)) = k.
Proof.
  assert (Hnone : ∀ l, Forall (fun e => isSleep e = false) l → List.filter isSleep l = []).
  { intros l Hl. induction Hl as [|e l He _ IH]; [done |]. cbn. by rewrite He. }
  intros Hpre Hmid Hpost.
  rewrite !List.filter_app, !length_app, pollEvents_sleeps.
  rewrite (Hnone _ Hpre), (Hnone _ Hmid), (Hnone _ Hpost). cbn. lia.
Qed.

(** X9.  On a service whose router exists, for a device that is not
    cloud-only and whose address [a] is known or can be asked for: if the
    local client is first found connected at poll [k], [k] from 0 to 20,
    the method returns [true] after exactly [k] sleeps of 500 ms, and
    records the address and the client for the device.  The poll after the
    20th sleep still counts. *)
Theorem local_connect_succeeds device client a k w :
  messageClient (this w) = Some client →
  pv device ≠ "B01" →
  a ≠ "" →
  let messageProcessor := {| processorClient := client |} in
  let localClient := {| clientDuid := duid device; clientIp := a |} in
  (ipMap (this w) !! duid device = Some a
   ∨ (truthy (ipMap (this w) !! duid device) = false
      ∧ procRejects E messageProcessor (PGetNetworkInfo (duid device)) = None
      ∧ networkInfoReply E messageProcessor (duid device) ≫= ip = Some a)) →
  (k ≤ 20)%nat →
  (∀ j, (j < k)%nat → localConnected E localClient (now w + 500 * Z.of_nat j)%Z = false) →
  localConnected E localClient (now w + 500 * Z.of_nat k)%Z = true →
  let w' := snd (initializeMessageClientForLocal E device w) in
  initializeMessageClientForLocal E device w = (Resolved true, w')
  ∧ now w' = (now w + 500 * Z.of_nat k)%Z
  ∧ length (List.filter isSleep (emitted (initializeMessageClientForLocal E device) w)) = k
  ∧ ipMap (this w') !! duid device = Some a
  ∧ JsMap.get (duid device) (localClientMap (this w')) = Some localClient
  ∧ JsMap.get (duid device) (messageProcessorMap (this w')) = Some messageProcessor
  ∧ isRequestSecure (this w') (duid device) = false.
Proof.
  intros Hclient Hpv Ha messageProcessor localClient Hip Hk Hbefore Hat w'.
  destruct (initializeMessageClientForLocal_connect device client a w Hclient Hpv Ha Hip)
    as (pre & Hpre & Hrun).
  rewrite (connectLocalClient_first client device a k) in Hrun by done.
  subst w'. unfold emitted. rewrite Hrun. cbn [snd this trace now].
  split; [reflexivity |]. split; [reflexivity |].
  split.
  { rewrite <- !app_assoc. rewrite drop_app_length.
    apply (sleeps_of_wait pre
             [ELog Debug "initializing the local connection for this client towards ";
              ERouter client (RRegisterClient (duid device) a);
              EClient localClient CConnect]
             [ELog Debug "LocalClient connected"] k); [done | |]; repeat constructor. }
  split; [apply lookup_insert_eq |].
  split; [apply JsMap_get_set_eq |].
  split; [apply JsMap_get_set_eq |].
  unfold isRequestSecure. cbn. by rewrite lookup_insert_eq.
Qed.

(** X10.  Only the first ten seconds count.  If the local client is
    found disconnected at each of the 21 polls, the one before the first
    sleep and the one after each of the 20 sleeps, the method returns
    [false] after 20 sleeps, whatever the client does later; the address
    and the client are not recorded, while the processor stays registered
    and the device is marked as not cloud-only. *)
Theorem local_connect_window device client a w :
  messageClient (this w) = Some client →
  pv device ≠ "B01" →
  a ≠ "" →
  let messageProcessor := {| processorClient := client |} in
  let localClient := {| clientDuid := duid device; clientIp := a |} in
  (ipMap (this w) !! duid device = Some a
   ∨ (truthy (ipMap (this w) !! duid device) = false
      ∧ procRejects E messageProcessor (PGetNetworkInfo (duid device)) = None
      ∧ networkInfoReply E messageProcessor (duid device) ≫= ip = Some a)) →
  (∀ j, (j ≤ 20)%nat → localConnected E localClient (now w + 500 * Z.of_nat j)%Z = false) →
  let w' := snd (initializeMessageClientForLocal E device w) in
  initializeMessageClientForLocal E device w = (Resolved false, w')
  ∧ now w' = (now w + 10000)%Z
  ∧ length (List.filter isSleep (emitted (initializeMessageClientForLocal E device) w)) = 20
  ∧ ipMap (this w') = ipMap (this w)
  ∧ localClientMap (this w') = localClientMap (this w)
  ∧ JsMap.get (duid device) (messageProcessorMap (this w')) = Some messageProcessor
  ∧ isRequestSecure (this w') (duid device) = false.
Proof.
  intros Hclient Hpv Ha messageProcessor localClient Hip Hwindow w'.
  destruct (initializeMessageClientForLocal_connect device client a w Hclient Hpv Ha Hip)
    as (pre & Hpre & Hrun).
  rewrite (connectLocalClient_window client device a) in Hrun by done.
  subst w'. unfold emitted. rewrite Hrun. cbn [snd this trace now addTrace].
  split; [reflexivity |]. split; [reflexivity |].
  split.
  { rewrite <- !app_assoc. rewrite drop_app_length.
    apply (sleeps_of_wait pre
             [ELog Debug "initializing the local connection for this client towards ";
              ERouter client (RRegisterClient (duid device) a);
              EClient localClient CConnect]
             [ELog Error "Error requesting network info"] 20); [done | |];
      repeat constructor. }
  split; [reflexivity |]. split; [reflexivity |].
  split; [apply JsMap_get_set_eq |].
  unfold isRequestSecure. cbn. by rewrite lookup_insert_eq.
Qed.

(** The run when no address is known and none can be obtained. *)
Lemma initializeMessageClientForLocal_no_address_run device client w :
  messageClient (this w) = Some client →
  pv device ≠ "B01" →
  truthy (ipMap (this w) !! duid device) = false →
  let messageProcessor := {| processorClient := client |} in
  (procRejects E messageProcessor (PGetNetworkInfo (duid device)) ≠ None
   ∨ truthy (networkInfoReply E messageProcessor (duid device) ≫= ip) = false) →
  initializeMessageClientForLocal E device w =
    (Resolved false,
     {| this :=
          set_mqttAlwaysOnDevices
            (<[duid device := false]> (mqttAlwaysOnDevices (this w)))
            (set_messageProcessorMap
               (JsMap.set (duid device) messageProcessor (messageProcessorMap (this w)))
               (this w));
        trace := trace w ++
          [ELog Debug "Begin get local ip";
           EProc messageProcessor PInjectLogger;
           EProc messageProcessor PRegisterListener;
           ELog Debug "Checking if device supports local connection";
           ELog Debug "Local device";
           ELog Debug "Requesting network info for device";
           EProc messageProcessor (PGetNetworkInfo (duid device));
           ELog Error
             (match procRejects E messageProcessor (PGetNetworkInfo (duid device)) with
              | Some _ => "Error requesting network info"
              | None => "Failed to retrieve network info for device"
              end)];
        now := now w; intervals := intervals w; nextHandle := nextHandle w |}).
Proof.
  intros Hclient Hpv Hno messageProcessor Hfail.
  apply String.eqb_neq in Hpv.
  unfold initializeMessageClientForLocal.
  unfold bind at 1. rewrite logger_addTrace.
  unfold bind at 1, getThis at 1. rewrite this_addTrace, Hclient, Hpv.
  fold messageProcessor.
  unfold awaitProc, fireProc, logger, tryCatch, modifyThis, getThis, bind, emit, ret, throw.
  cbn [this trace now intervals nextHandle fst snd ipMap set_messageProcessorMap
       set_mqttAlwaysOnDevices addTrace].
  rewrite Hno. cbn [negb].
  destruct (procRejects E messageProcessor (PGetNetworkInfo (duid device))) as [err|] eqn:Hrej.
  - cbn. rewrite <- !app_assoc. reflexivity.
  - destruct Hfail as [Hfail | Hfail]; [done |].
    cbn [this trace now intervals nextHandle fst snd]. rewrite Hfail. cbn.
    rewrite <- !app_assoc. reflexivity.
Qed.

(** X11.  On a service whose router exists, for a device that is not
    cloud-only and has no usable address on record: when the request for
    the network info rejects, or is answered with nothing, with no address
    or with an empty one, the method returns [false] without registering
    or connecting a local client and without waiting; the processor stays
    registered for the device. *)
Theorem local_path_without_address device client w :
  messageClient (this w) = Some client →
  pv device ≠ "B01" →
  truthy (ipMap (this w) !! duid device) = false →
  let messageProcessor := {| processorClient := client |} in
  (procRejects E messageProcessor (PGetNetworkInfo (duid device)) ≠ None
   ∨ truthy (networkInfoReply E messageProcessor (duid device) ≫= ip) = false) →
  let w' := snd (initializeMessageClientForLocal E device w) in
  let evs := emitted (initializeMessageClientForLocal E device) w in
  initializeMessageClientForLocal E device w = (Resolved false, w')
  ∧ (∀ e, In e evs →
       isSleep e = false
       ∧ (∀ c call, e ≠ EClient c call)
       ∧ (∀ r d a, e ≠ ERouter r (RRegisterClient d a)))
  ∧ In (EProc messageProcessor (PGetNetworkInfo (duid device))) evs
  ∧ now w' = now w
  ∧ localClientMap (this w') = localClientMap (this w)
  ∧ ipMap (this w') = ipMap (this w)
  ∧ JsMap.get (duid device) (messageProcessorMap (this w')) = Some messageProcessor.
Proof.
  intros Hclient Hpv Hno messageProcessor Hfail w' evs.
  pose proof (initializeMessageClientForLocal_no_address_run device client w
                Hclient Hpv Hno Hfail) as Hrun.
  subst w' evs. unfold emitted. rewrite Hrun. cbn [snd trace this now].
  rewrite drop_app_length.
  split; [reflexivity |].
  split.
  { intros e Hin. cbn in Hin.
    repeat destruct Hin as [<- | Hin]; try done; repeat split; try done;
      by destruct (procRejects E messageProcessor _). }
  split; [cbn; tauto |].
  split; [reflexivity |]. split; [reflexivity |]. split; [reflexivity |].
  apply JsMap_get_set_eq.
Qed.

(** X12.  On a service whose router exists, [initializeMessageClientForLocal]
    never rejects: every failure on the way is turned into the answer
    [false].  Whatever the answer, the processor built on the router is
    registered for the device and the cloud-only flag of the device says
    whether its protocol version is ["B01"].  The answer [true] means that
    the device is cloud-only or that a local client for it is connected
    and recorded together with its address; with the answer [false] the
    recorded addresses and local clients are as before. *)
Theorem initializeMessageClientForLocal_contains_failures device client w :
  messageClient (this w) = Some client →
  let r := initializeMessageClientForLocal E device w in
  let w' := snd r in
  ∃ b,
    fst r = Resolved b
    ∧ JsMap.get (duid device) (messageProcessorMap (this w'))
      = Some {| processorClient := client |}
    ∧ mqttAlwaysOnDevices (this w') !! duid device = Some (String.eqb (pv device) "B01")
    ∧ (b = true →
         pv device = "B01"
         ∨ ∃ a, a ≠ ""
                ∧ ipMap (this w') !! duid device = Some a
                ∧ JsMap.get (duid device) (localClientMap (this w'))
                  = Some {| clientDuid := duid device; clientIp := a |})
    ∧ (b = false →
         ipMap (this w') = ipMap (this w)
         ∧ localClientMap (this w') = localClientMap (this w)).
Proof.
  intros Hclient r w'. subst r w'.
  destruct (String.eqb (pv device) "B01") eqn:Hpv.
  - (* cloud-only *)
    assert (Hrun : initializeMessageClientForLocal E device w =
      (Resolved true,
       {| this :=
            set_mqttAlwaysOnDevices (<[duid device := true]> (mqttAlwaysOnDevices (this w)))
              (set_messageProcessorMap
                 (JsMap.set (duid device) {| processorClient := client |}
                    (messageProcessorMap (this w)))
                 (this w));
          trace := trace w ++ [ELog Debug "Begin get local ip";
                               EProc {| processorClient := client |} PInjectLogger;
                               EProc {| processorClient := client |} PRegisterListener;
                               ELog Debug "Checking if device supports local connection";
                               ELog Warn "Device does not support local connection"];
          now := now w; intervals := intervals w; nextHandle := nextHandle w |})).
    { unfold initializeMessageClientForLocal.
      unfold bind at 1. rewrite logger_addTrace.
      unfold bind at 1, getThis at 1. rewrite this_addTrace, Hclient, Hpv.
      cbn. by rewrite <- !app_assoc. }
    rewrite Hrun. exists true. cbn [fst snd this].
    split; [reflexivity |]. split; [apply JsMap_get_set_eq |].
    split; [apply lookup_insert_eq |].
    split; [intros _; left; by apply String.eqb_eq | discriminate].
  - apply String.eqb_neq in Hpv as Hpv'.
    assert (Hconnect : ∀ a,
      a ≠ "" →
      (ipMap (this w) !! duid device = Some a
       ∨ (truthy (ipMap (this w) !! duid device) = false
          ∧ procRejects E {| processorClient := client |} (PGetNetworkInfo (duid device)) = None
          ∧ networkInfoReply E {| processorClient := client |} (duid device) ≫= ip = Some a)) →
      ∃ b,
        fst (initializeMessageClientForLocal E device w) = Resolved b
        ∧ JsMap.get (duid device)
            (messageProcessorMap (this (snd (initializeMessageClientForLocal E device w))))
          = Some {| processorClient := client |}
        ∧ mqttAlwaysOnDevices (this (snd (initializeMessageClientForLocal E device w)))
            !! duid device = Some false
        ∧ (b = true →
             pv device = "B01"
             ∨ ∃ a, a ≠ ""
                    ∧ ipMap (this (snd (initializeMessageClientForLocal E device w)))
                        !! duid device = Some a
                    ∧ JsMap.get (duid device)
                        (localClientMap (this (snd (initializeMessageClientForLocal E device w))))
                      = Some {| clientDuid := duid device; clientIp := a |})
        ∧ (b = false →
             ipMap (this (snd (initializeMessageClientForLocal E device w))) = ipMap (this w)
             ∧ localClientMap (this (snd (initializeMessageClientForLocal E device w)))
               = localClientMap (this w))).
    { intros a Ha Hip.
      destruct (initializeMessageClientForLocal_connect device client a w
                  Hclient Hpv' Ha Hip) as (pre & _ & Hrun).
      match type of Hrun with context [connectLocalClient E client device (Some a) ?w1] =>
        destruct (connectLocalClient_cases client device a w1 Ha) as (k & _ & Hcase) end.
      rewrite Hcase in Hrun. rewrite Hrun.
      destruct (localConnected E _ _).
      - exists true. cbn [fst snd this].
        split; [reflexivity |]. split; [apply JsMap_get_set_eq |].
        split; [apply lookup_insert_eq |].
        split; [| discriminate].
        intros _. right. exists a. split; [exact Ha |].
        split; [apply lookup_insert_eq | apply JsMap_get_set_eq].
      - exists false. cbn [fst snd this addTrace].
        split; [reflexivity |]. split; [apply JsMap_get_set_eq |].
        split; [apply lookup_insert_eq |].
        split; [discriminate | done]. }
    destruct (truthy (ipMap (this w) !! duid device)) eqn:Hcached.
    + destruct (ipMap (this w) !! duid device) as [a|] eqn:Hip; [| discriminate].
      apply (Hconnect a); [| by left].
      unfold truthy in Hcached. apply negb_true_iff, String.eqb_neq in Hcached. exact Hcached.
    + destruct (procRejects E {| processorClient := client |} (PGetNetworkInfo (duid device)))
        as [err|] eqn:Hrej.
      * rewrite (initializeMessageClientForLocal_no_address_run device client w
                   Hclient Hpv' Hcached) by (left; by rewrite Hrej).
        exists false. cbn [fst snd this].
        split; [reflexivity |]. split; [apply JsMap_get_set_eq |].
        split; [apply lookup_insert_eq |]. split; [discriminate | done].
      * destruct (truthy (networkInfoReply E {| processorClient := client |} (duid device)
                          ≫= ip)) eqn:Hinfo.
        -- destruct (networkInfoReply E {| processorClient := client |} (duid device) ≫= ip)
             as [a|] eqn:Hreply; [| discriminate].
           apply (Hconnect a); [| right; by repeat split].
           unfold truthy in Hinfo. apply negb_true_iff, String.eqb_neq in Hinfo. exact Hinfo.
        -- rewrite (initializeMessageClientForLocal_no_address_run device client w
                      Hclient Hpv' Hcached) by (by right).
           exists false. cbn [fst snd this].
           split; [reflexivity |]. split; [apply JsMap_get_set_eq |].
           split; [apply lookup_insert_eq |]. split; [discriminate | done].
Qed.

End LocalFacts.

(** * The further properties at concrete inputs *)

(** Rooms 1, 2 and 3, routine 99, rooms 1 and 3 selected. *)
Lemma startClean_rooms_beside_routines_witness :
  let w := newWorld (sampleService [room 1; room 2; room 3] [room 99] [1%Z; 3%Z]) in
  startClean quietEnv "d" w =
    (Resolved tt,
     addTrace [ELog Debug "RoborockService - begin cleaning";
               ELog Debug "RoborockService - startRoomClean";
               EProc sampleProcessor (PStartRoomClean "d" [1%Z; 3%Z] 1)] w).
Proof.
  intros w.
  assert (Hroutines : default [] (supportedRoutines (this w) !! "d") ≠ []) by discriminate.
  destruct (startClean_rooms_beside_routines quietEnv "d" sampleProcessor w
              Hroutines eq_refl eq_refl) as (_ & Hroom & _).
  apply Hroom; discriminate.
Defined.

(** Areas 100 and 102 are selected; the index map knows area 100 as room
    16 and does not know area 102. *)
Lemma select_then_clean_witness :
  let w := newWorld (set_supportedAreaIndexMaps (<["d" := sampleIndexMap]> ∅)
                       (sampleService [room 100; room 101] [] [])) in
  let w' := snd (setSelectedAreas "d" [100%Z; 102%Z] w) in
  startClean quietEnv "d" w' =
    (Resolved tt,
     addTrace [ELog Debug "RoborockService - begin cleaning";
               ELog Debug "RoborockService - startRoomClean";
               EProc sampleProcessor (PStartRoomClean "d" [16%Z] 1)] w').
Proof.
  intros w w'.
  apply (select_then_clean quietEnv "d" sampleProcessor sampleIndexMap [100%Z; 102%Z] w
           eq_refl eq_refl eq_refl); discriminate.
Defined.

Lemma commands_with_processor_witness :
  let w := newWorld (sampleService [] [] []) in
  stopAndGoHome quietEnv "d" w =
    (Resolved tt,
     addTrace [ELog Debug "RoborockService - stopAndGoHome";
               EProc sampleProcessor (PGotoDock "d")] w).
Proof.
  intros w.
  destruct (commands_with_processor quietEnv "d" sampleProcessor
              {| method := "get_status"; params := None; secure := false |}
              {| suctionPower := 1; waterFlow := 2; distance_off := 3; mopRoute := None |}
              w eq_refl) as (_ & _ & Hdock & _).
  exact Hdock.
Defined.

(** The processor answers nothing: the same error as without a processor. *)
Lemma getCleanModeData_with_processor_witness :
  let w := newWorld (sampleService [] [] []) in
  getCleanModeData quietEnv "d" w =
    (Rejected "Failed to retrieve clean mode data",
     addTrace [ELog Notice "RoborockService - getCleanModeData";
               EProc sampleProcessor (PGetCleanModeData "d")] w).
Proof.
  intros w. exact (getCleanModeData_with_processor quietEnv "d" sampleProcessor w eq_refl).
Defined.

(** The client of device ["c"] comes up after two seconds: four sleeps. *)
Lemma local_connect_succeeds_witness :
  let w := newWorld serviceWithIp in
  let w' := snd (initializeMessageClientForLocal (localConnectsAt 2000) deviceC w) in
  initializeMessageClientForLocal (localConnectsAt 2000) deviceC w = (Resolved true, w')
  ∧ now w' = 2000%Z.
Proof.
  intros w w'.
  assert (Hpv : pv deviceC ≠ "B01") by discriminate.
  assert (Ha : "192.168.1.7" ≠ "") by discriminate.
  assert (Hk : (4 ≤ 20)%nat) by lia.
  assert (Hbefore : ∀ j, (j < 4)%nat →
            localConnected (localConnectsAt 2000)
              {| clientDuid := duid deviceC; clientIp := "192.168.1.7" |}
              (now w + 500 * Z.of_nat j)%Z = false).
  { intros j Hj. cbn [localConnectsAt localConnected]. apply Z.leb_gt.
    change (now w) with 0%Z. lia. }
  destruct (local_connect_succeeds (localConnectsAt 2000) deviceC sampleRouter
              "192.168.1.7" 4 w eq_refl Hpv Ha (or_introl eq_refl) Hk Hbefore eq_refl)
    as (Hrun & Hnow & _).
  split; [exact Hrun | exact Hnow].
Defined.

(** The client of device ["c"] comes up after eleven seconds: too late. *)
Lemma local_connect_window_witness :
  let w := newWorld serviceWithIp in
  let w' := snd (initializeMessageClientForLocal (localConnectsAt 11000) deviceC w) in
  initializeMessageClientForLocal (localConnectsAt 11000) deviceC w = (Resolved false, w')
  ∧ now w' = 10000%Z.
Proof.
  intros w w'.
  assert (Hpv : pv deviceC ≠ "B01") by discriminate.
  assert (Ha : "192.168.1.7" ≠ "") by discriminate.
  assert (Hwindow : ∀ j, (j ≤ 20)%nat →
            localConnected (localConnectsAt 11000)
              {| clientDuid := duid deviceC; clientIp := "192.168.1.7" |}
              (now w + 500 * Z.of_nat j)%Z = false).
  { intros j Hj. cbn [localConnectsAt localConnected]. apply Z.leb_gt.
    change (now w) with 0%Z. lia. }
  destruct (local_connect_window (localConnectsAt 11000) deviceC sampleRouter
              "192.168.1.7" w eq_refl Hpv Ha (or_introl eq_refl) Hwindow)
    as (Hrun & Hnow & _).
  split; [exact Hrun | exact Hnow].
Defined.

(** No address on record and no answer to the network-info request. *)
Lemma local_path_without_address_witness :
  let w := newWorld serviceWithRouter in
  let w' := snd (initializeMessageClientForLocal quietEnv deviceC w) in
  initializeMessageClientForLocal quietEnv deviceC w = (Resolved false, w')
  ∧ JsMap.get "c" (messageProcessorMap (this w')) = Some sampleProcessor.
Proof.
  intros w w'.
  assert (Hpv : pv deviceC ≠ "B01") by discriminate.
  destruct (local_path_without_address quietEnv deviceC sampleRouter w
              eq_refl Hpv eq_refl (or_intror eq_refl))
    as (Hrun & _ & _ & _ & _ & _ & Hproc).
  split; [exact Hrun | exact Hproc].
Defined.

Lemma initializeMessageClientForLocal_contains_failures_witness :
  let w := newWorld serviceWithRouter in
  ∃ b, fst (initializeMessageClientForLocal quietEnv deviceC w) = Resolved b.
Proof.
  intros w.
  destruct (initializeMessageClientForLocal_contains_failures quietEnv deviceC sampleRouter w
              eq_refl) as (b & Hb & _).
  exists b. exact Hb.
Defined.

(** ** Logging in *)

Section LoginFacts.

Variable loginApi : LoginApi.


(** X14.  [loginWithCode] uses the V4 login only when the URL result has
    both a country and a country code, each a non-empty string; otherwise
    it uses the V1 login, with the base URL alone.  The user data are
    saved before the service is authenticated: when the login or the
    saving rejects, the method rejects and does not authenticate the
    service; when both succeed the service is authenticated for the user
    data, which are the answer. *)
Theorem loginWithCode_flow username twofa urlResult save w :
  let v4 := negb (String.eqb (country urlResult) "")
            && negb (String.eqb (countryCode urlResult) "") in
  let login :=
    if v4
    then login_loginWithCodeV4 loginApi username twofa (baseUrl urlResult)
           (country urlResult) (countryCode urlResult)
    else login_loginWithCode loginApi username twofa (baseUrl urlResult) in
  let w0 :=
    addTrace [ELog Debug (if v4 then "Logging in with V4 API"
                          else "Logging in with V1 API (no country info)")] w in
  (∀ err w1, login w0 = (Rejected err, w1) →
     loginWithCode loginApi username twofa urlResult save w = (Rejected err, w1))
  ∧ (∀ ud w1 err w2, login w0 = (Resolved ud, w1) → save ud w1 = (Rejected err, w2) →
       loginWithCode loginApi username twofa urlResult save w = (Rejected err, w2))
  ∧ (∀ ud w1 w2, login w0 = (Resolved ud, w1) → save ud w1 = (Resolved tt, w2) →
       loginWithCode loginApi username twofa urlResult save w
       = (Resolved ud, authenticated ud w2)).
Proof.
  intros v4 login w0.
  assert (Hfirst : ∀ k : UserData → M UserData,
    bind (if hasCountryInfo urlResult then
            logger Debug "Logging in with V4 API";;
            login_loginWithCodeV4 loginApi username twofa (baseUrl urlResult)
              (country urlResult) (countryCode urlResult)
          else
            logger Debug "Logging in with V1 API (no country info)";;
            login_loginWithCode loginApi username twofa (baseUrl urlResult)) k w
    = match login w0 with
      | (Resolved ud, w1) => k ud w1
      | (Rejected err, w1) => (Rejected err, w1)
      end).
  { intros k. subst login w0. unfold hasCountryInfo. fold v4.
    unfold bind. destruct v4; by rewrite logger_addTrace. }
  split; [| split].
  - intros err w1 Hlogin. unfold loginWithCode. by rewrite Hfirst, Hlogin.
  - intros ud w1 err w2 Hlogin Hsave. unfold loginWithCode. rewrite Hfirst, Hlogin.
    unfold bind. by rewrite Hsave.
  - intros ud w1 w2 Hlogin Hsave. unfold loginWithCode. rewrite Hfirst, Hlogin.
    unfold bind at 1. rewrite Hsave. reflexivity.
Qed.

End LoginFacts.

(** ** Listing the devices of a home *)

Lemma await_resolved {A} (o : Outcome A) (a : A) w :
  o = Resolved a → await o w = (Resolved a, w).
Proof. by intros ->. Qed.

Lemma currentIotApi_present api w :
  iotApi (this w) = Some api → currentIotApi w = (Resolved api, w).
Proof. intros H. unfold currentIotApi, bind, getThis. by rewrite H. Qed.

Lemma mapM_resolved {A B} (f : A → M B) (g : A → B) l w :
  (∀ x, In x l → f x w = (Resolved (g x), w)) →
  mapM f l w = (Resolved (List.map g l), w).
Proof.
  induction l as [|x l IH]; intros Hf; [reflexivity |].
  cbn [mapM List.map]. rewrite (bind_resolved _ _ _ _ _ (Hf x (or_introl eq_refl))).
  rewrite (bind_resolved _ _ _ _ _ (IH (fun y Hy => Hf y (or_intror Hy)))).
  reflexivity.
Qed.

Section HomeFacts.

Variables (loginApi : LoginApi) (homeApi : HomeApi) (Protocol_battery : Z).

Lemma scenesOf_resolved duid all w :
  (∀ sc, In sc all → truthy (param sc) = true →
     ∃ entities, parseSceneParam homeApi (default "" (param sc)) = Resolved entities) →
  scenesOf homeApi duid all w = (Resolved (List.filter (sceneTargets homeApi duid) all), w).
Proof.
  induction all as [|sc rest IH]; intros Hparse; [reflexivity |].
  cbn [scenesOf List.filter]. unfold sceneTargets at 1.
  destruct (truthy (param sc)) eqn:Htruthy.
  - destruct (Hparse sc (or_introl eq_refl) Htruthy) as [entities Hentities].
    unfold bind at 1. unfold bind at 1. rewrite Hentities. cbn [await].
    unfold ret at 1. unfold ret at 1.
    rewrite (bind_resolved _ _ _ _ _ (IH (fun s Hs => Hparse s (or_intror Hs)))).
    cbn [andb]. unfold ret. by destruct (existsb _ entities).
  - unfold bind at 1. unfold ret at 1.
    rewrite (bind_resolved _ _ _ _ _ (IH (fun s Hs => Hparse s (or_intror Hs)))).
    reflexivity.
Qed.

(** X15.  Merging the devices of the v3 API into those already known
    keeps the known devices, in their order and first, and adds exactly
    the v3 devices whose [duid] no known device has.  Merging a list into
    itself changes nothing, and device ids stay unique when they are
    unique in each of the two lists. *)
Theorem mergeByDuid_spec old fresh :
  (∀ d, In d (mergeByDuid old fresh) ↔
        In d old ∨ (In d fresh ∧ ∀ x, In x old → device_duid x ≠ device_duid d))
  ∧ take (length old) (mergeByDuid old fresh) = old
  ∧ mergeByDuid old old = old
  ∧ (List.NoDup (List.map device_duid old) → List.NoDup (List.map device_duid fresh) →
     List.NoDup (List.map device_duid (mergeByDuid old fresh))).
Proof.
  assert (Hnew : ∀ d,
    negb (existsb (fun x => String.eqb (device_duid x) (device_duid d)) old) = true
    ↔ ∀ x, In x old → device_duid x ≠ device_duid d).
  { intros d. rewrite negb_true_iff. split.
    - intros Hnone x Hx Heq.
      assert (Hsome : existsb (fun x => String.eqb (device_duid x) (device_duid d)) old = true).
      { apply existsb_exists. exists x. split; [exact Hx | by apply String.eqb_eq]. }
      rewrite Hsome in Hnone. discriminate.
    - intros Hall. apply not_true_is_false. intros Hsome.
      apply existsb_exists in Hsome as (x & Hx & Heq).
      apply String.eqb_eq in Heq. by apply (Hall x). }
  split; [| split; [| split]].
  - intros d. unfold mergeByDuid. rewrite in_app_iff, filter_In, Hnew. tauto.
  - unfold mergeByDuid. by rewrite take_app_length.
  - unfold mergeByDuid.
    assert (Hnil : List.filter
              (fun d => negb (existsb (fun x => String.eqb (device_duid x) (device_duid d)) old))
              old = []).
    { assert (Hsub : ∀ l, (∀ d, In d l → In d old) →
        List.filter
          (fun d => negb (existsb (fun x => String.eqb (device_duid x) (device_duid d)) old))
          l = []).
      { induction l as [|d l IH]; intros Hl; [reflexivity |]. cbn [List.filter].
        replace (negb (existsb (fun x => String.eqb (device_duid x) (device_duid d)) old))
          with false.
        - apply IH. intros y Hy. apply Hl. by right.
        - symmetry. apply not_true_is_false. intros Htrue.
          apply (proj1 (Hnew d) Htrue d); [apply Hl; by left | reflexivity]. }
      by apply Hsub. }
    by rewrite Hnil, app_nil_r.
  - intros Hold Hfresh. unfold mergeByDuid. rewrite List.map_app.
    apply List.NoDup_app; [exact Hold | |].
    + clear Hold. induction fresh as [|d l IH]; [constructor |].
      cbn [List.filter]. inversion Hfresh as [|? ? Hnotin Hrest]; subst.
      destruct (negb _); [| by apply IH].
      cbn [List.map]. constructor; [| by apply IH].
      intros Hin. apply Hnotin. apply in_map_iff in Hin as (y & Hy & Hin).
      apply filter_In in Hin as [Hin _]. apply in_map_iff. by exists y.
    + intros u Hu Hu'. apply in_map_iff in Hu as (x & <- & Hx).
      apply in_map_iff in Hu' as (d & Heq & Hd). apply filter_In in Hd as [_ Hd].
      by apply (proj1 (Hnew d) Hd x).
Qed.

(** X16.  The model of a device is looked up twice, for [data] by the
    first product with the device's product id and for [store] by the last
    one.  The two agree whenever product ids are unique. *)
Theorem models_agree ps device :
  List.NoDup (List.map product_id ps) →
  data_model (deviceData Protocol_battery ps device)
  = productModels ps !! device_productId device.
Proof.
  intros Hnodup. unfold deviceData, findProduct, productModels. cbn [data_model].
  set (pid := device_productId device).
  assert (Hfold : ∀ m : gmap string string,
    (∀ p, In p ps → m !! product_id p = None) →
    fold_left (fun m p => <[product_id p := product_model p]> m) ps m !! pid
    = match List.find (fun p => String.eqb (product_id p) pid) ps with
      | Some p => Some (product_model p)
      | None => m !! pid
      end).
  { induction ps as [|p l IH]; intros m Hfree; [reflexivity |].
    cbn [fold_left List.find List.map] in *.
    inversion Hnodup as [|? ? Hnotin Hrest]; subst.
    destruct (String.eqb (product_id p) pid) eqn:Hp.
    - apply String.eqb_eq in Hp. rewrite (IH Hrest).
      + destruct (List.find _ l) as [q|] eqn:Hq.
        * exfalso. apply find_some in Hq as [Hq Heq]. apply String.eqb_eq in Heq.
          apply Hnotin. apply in_map_iff. exists q. split; [congruence | exact Hq].
        * rewrite <- Hp. apply lookup_insert_eq.
      + intros q Hq. rewrite lookup_insert_ne; [by apply Hfree; right |].
        intros Heq. apply Hnotin. apply in_map_iff. by exists q.
    - apply String.eqb_neq in Hp. rewrite (IH Hrest).
      + destruct (List.find _ l); [reflexivity |]. by rewrite lookup_insert_ne.
      + intros q Hq. rewrite lookup_insert_ne; [by apply Hfree; right |].
        intros Heq. apply Hnotin. apply in_map_iff. by exists q. }
  rewrite Hfold by (intros; apply lookup_empty).
  destruct (List.find _ ps); [reflexivity |]. by rewrite lookup_empty.
Qed.

(** X17.  [listDevices] stops early in four ways.  Before login (no IoT
    API object or no user data) it fails on its assertion and asks nobody.
    When the login API has no home details it fails with that message.
    When the IoT API has no home it answers the empty list, without asking
    for scenes.  When a product of the home needs the v3 API and that API
    has no home, it fails. *)
Theorem listDevices_early_exits username w :
  (iotApi (this w) = None ∨ userdata (this w) = None →
     listDevices loginApi homeApi Protocol_battery username w
     = (Rejected "AssertionError", w))
  ∧ (∀ api0 ud0 w1,
       iotApi (this w) = Some api0 → userdata (this w) = Some ud0 →
       login_getHomeDetails loginApi w = (Resolved None, w1) →
       listDevices loginApi homeApi Protocol_battery username w
       = (Rejected "Failed to retrieve the home details", w1))
  ∧ (∀ api0 ud0 details w1 api,
       iotApi (this w) = Some api0 → userdata (this w) = Some ud0 →
       login_getHomeDetails loginApi w = (Resolved (Some details), w1) →
       iotApi (this w1) = Some api →
       getHome homeApi api (rrHomeId details) = Resolved None →
       listDevices loginApi homeApi Protocol_battery username w = (Resolved [], w1))
  ∧ (∀ api0 ud0 details w1 api home listedScenes,
       iotApi (this w) = Some api0 → userdata (this w) = Some ud0 →
       login_getHomeDetails loginApi w = (Resolved (Some details), w1) →
       iotApi (this w1) = Some api →
       getHome homeApi api (rrHomeId details) = Resolved (Some home) →
       getScenes homeApi api (rrHomeId details) = Resolved listedScenes →
       needsV3 home = true →
       getHomev3 homeApi api (rrHomeId details) = Resolved None →
       listDevices loginApi homeApi Protocol_battery username w
       = (Rejected "Failed to retrieve the home data from v3 API",
          addTrace [ELog Debug "Using v3 API for home data retrieval"] w1)).
Proof.
  split; [| split; [| split]].
  - intros Hout. unfold listDevices, bind, getThis.
    destruct (iotApi (this w)); [| reflexivity].
    destruct Hout as [? | ->]; [done | reflexivity].
  - intros api0 ud0 w1 Hapi Hud Hdetails. unfold listDevices.
    unfold bind at 1, getThis at 1. rewrite Hapi, Hud. cbn [negb bool_decide].
    rewrite !bool_decide_eq_true_2 by eauto. cbn [negb].
    by rewrite (bind_resolved _ _ _ _ _ Hdetails).
  - intros api0 ud0 details w1 api Hapi Hud Hdetails Hapi1 Hhome. unfold listDevices.
    unfold bind at 1, getThis at 1. rewrite Hapi, Hud.
    rewrite !bool_decide_eq_true_2 by eauto. cbn [negb].
    rewrite (bind_resolved _ _ _ _ _ Hdetails).
    rewrite (bind_resolved _ _ _ _ _ (currentIotApi_present api w1 Hapi1)).
    by rewrite (bind_resolved _ _ _ _ _ (await_resolved _ _ w1 Hhome)).
  - intros api0 ud0 details w1 api home listedScenes Hapi Hud Hdetails Hapi1 Hhome
      Hscenes Hneed Hv3. unfold listDevices.
    unfold bind at 1, getThis at 1. rewrite Hapi, Hud.
    rewrite !bool_decide_eq_true_2 by eauto. cbn [negb].
    rewrite (bind_resolved _ _ _ _ _ Hdetails).
    rewrite (bind_resolved _ _ _ _ _ (currentIotApi_present api w1 Hapi1)).
    rewrite (bind_resolved _ _ _ _ _ (await_resolved _ _ w1 Hhome)).
    rewrite (bind_resolved _ _ _ _ _ (currentIotApi_present api w1 Hapi1)).
    rewrite (bind_resolved _ _ _ _ _ (await_resolved _ _ w1 Hscenes)).
    unfold needsV3 in Hneed. rewrite Hneed.
    unfold bind at 1. unfold bind at 1. rewrite logger_addTrace.
    rewrite (bind_resolved _ _ _ _ _
               (currentIotApi_present api (addTrace _ w1) Hapi1)).
    by rewrite (bind_resolved _ _ _ _ _ (await_resolved _ _ _ Hv3)).
Qed.

(** X18.  What [listDevices] answers when everything is there.  The list
    has one entry for each device of the home followed by one for each
    received device, in their order; when a product of the home needs the
    v3 API, each of the two lists is first extended by the v3 devices with
    a new [duid].  Every entry carries the rooms of the home, or when
    there are none those of the v2 home, or else those of the v3 home, and
    the scenes that act on the device.  The v2 home is asked for only if
    the home has no rooms, the v3 home only if it is needed for devices or
    rooms. *)
Theorem listDevices_result username w api0 ud0 details w1 api home listedScenes v2 v3 :
  iotApi (this w) = Some api0 → userdata (this w) = Some ud0 →
  login_getHomeDetails loginApi w = (Resolved (Some details), w1) →
  iotApi (this w1) = Some api →
  getHome homeApi api (rrHomeId details) = Resolved (Some home) →
  getScenes homeApi api (rrHomeId details) = Resolved listedScenes →
  (∀ sc, In sc (default [] listedScenes) → truthy (param sc) = true →
     ∃ entities, parseSceneParam homeApi (default "" (param sc)) = Resolved entities) →
  (rooms home = [] → getHomev2 homeApi api (rrHomeId details) = Resolved v2) →
  (needsV3 home = true ∨ (rooms home = [] ∧ hasRooms v2 = false) →
     getHomev3 homeApi api (rrHomeId details) = Resolved v3) →
  (needsV3 home = true → v3 ≠ None) →
  let listedDevices :=
    if needsV3 home
    then (mergeByDuid (devices home) (default [] (devices <$> v3))
          ++ mergeByDuid (receivedDevices home) (default [] (receivedDevices <$> v3)))%list
    else (devices home ++ receivedDevices home)%list in
  let w2 :=
    if needsV3 home
    then addTrace [ELog Debug "Using v3 API for home data retrieval"] w1
    else w1 in
  listDevices loginApi homeApi Protocol_battery username w =
    (Resolved
       (List.map
          (listedEntry homeApi Protocol_battery username (userdata (this w1))
             (rrHomeId details) home (roomsByPriority home v2 v3)
             (default [] listedScenes))
          listedDevices),
     w2).
Proof.
  intros Hapi Hud Hdetails Hapi1 Hhome Hscenes Hparse Hv2 Hv3 Hv3some listedDevices w2.
  unfold listDevices.
  unfold bind at 1, getThis at 1. rewrite Hapi, Hud.
  rewrite !bool_decide_eq_true_2 by eauto. cbn [negb].
  rewrite (bind_resolved _ _ _ _ _ Hdetails).
  rewrite (bind_resolved _ _ _ _ _ (currentIotApi_present api w1 Hapi1)).
  rewrite (bind_resolved _ _ _ _ _ (await_resolved _ _ w1 Hhome)).
  rewrite (bind_resolved _ _ _ _ _ (currentIotApi_present api w1 Hapi1)).
  rewrite (bind_resolved _ _ _ _ _ (await_resolved _ _ w1 Hscenes)).
  assert (Hapi2 : iotApi (this w2) = Some api) by (subst w2; by destruct (needsV3 home)).
  (* the devices *)
  assert (Hmerged :
    (if existsb (fun p => existsb (String.eqb (product_model p)) vacuumNeedAPIV3)
          (products home)
     then
       logger Debug "Using v3 API for home data retrieval";;
       api <- currentIotApi;;
       homeDataV3 <- await (getHomev3 homeApi api (rrHomeId details));;
       match homeDataV3 with
       | None => throw "Failed to retrieve the home data from v3 API"
       | Some v3 =>
           ret (mergeByDuid (devices home) (devices v3),
                mergeByDuid (receivedDevices home) (receivedDevices v3))
       end
     else ret (devices home, receivedDevices home)) w1
    = (Resolved
         (if needsV3 home
          then (mergeByDuid (devices home) (default [] (devices <$> v3)),
                mergeByDuid (receivedDevices home) (default [] (receivedDevices <$> v3)))
          else (devices home, receivedDevices home)),
       w2)).
  { subst w2. fold (needsV3 home). destruct (needsV3 home) eqn:Hneed; [| reflexivity].
    unfold bind at 1. rewrite logger_addTrace.
    rewrite (bind_resolved _ _ _ _ _
               (currentIotApi_present api (addTrace _ w1) Hapi1)).
    rewrite (bind_resolved _ _ _ _ _ (await_resolved _ _ _ (Hv3 (or_introl eq_refl)))).
    destruct v3 as [h3|]; [reflexivity |]. by destruct Hv3some. }
  rewrite (bind_resolved _ _ _ _ _ Hmerged).
  (* the rooms *)
  assert (Hrooms :
    (if (length (rooms home) =? 0)%nat then
       api <- currentIotApi;;
       homeDataV2 <- await (getHomev2 homeApi api (rrHomeId details));;
       if hasRooms homeDataV2 then ret (default [] (rooms <$> homeDataV2))
       else
         api <- currentIotApi;;
         homeDataV3 <- await (getHomev3 homeApi api (rrHomeId details));;
         if hasRooms homeDataV3 then ret (default [] (rooms <$> homeDataV3))
         else ret (rooms home)
     else ret (rooms home)) w2
    = (Resolved (roomsByPriority home v2 v3), w2)).
  { unfold roomsByPriority. destruct (rooms home) as [|r rs] eqn:Hr; [| reflexivity].
    cbn [length Nat.eqb Nat.ltb Nat.leb].
    rewrite (bind_resolved _ _ _ _ _ (currentIotApi_present api w2 Hapi2)).
    rewrite (bind_resolved _ _ _ _ _ (await_resolved _ _ w2 (Hv2 eq_refl))).
    destruct (hasRooms v2) eqn:H2; [reflexivity |].
    rewrite (bind_resolved _ _ _ _ _ (currentIotApi_present api w2 Hapi2)).
    rewrite (bind_resolved _ _ _ _ _
               (await_resolved _ _ w2 (Hv3 (or_intror (conj eq_refl eq_refl))))).
    by destruct (hasRooms v3). }
  rewrite (bind_resolved _ _ _ _ _ Hrooms).
  assert (Hw2 : userdata (this w2) = userdata (this w1))
    by (subst w2; by destruct (needsV3 home)).
  rewrite <- Hw2.
  replace ((fst (if needsV3 home
                then (mergeByDuid (devices home) (default [] (devices <$> v3)),
                      mergeByDuid (receivedDevices home)
                        (default [] (receivedDevices <$> v3)))
                else (devices home, receivedDevices home))
           ++ snd (if needsV3 home
                   then (mergeByDuid (devices home) (default [] (devices <$> v3)),
                         mergeByDuid (receivedDevices home)
                           (default [] (receivedDevices <$> v3)))
                   else (devices home, receivedDevices home)))%list)
    with listedDevices by (subst listedDevices; by destruct (needsV3 home)).
  apply mapM_resolved. intros device _.
  rewrite (bind_resolved _ _ _ _ _ (scenesOf_resolved _ _ w2 Hparse)).
  reflexivity.
Qed.

(** X19.  [getHomeDataForUpdating] starts from the v2 home and fails when
    there is none.  Its entries are built from the devices of the home
    alone when there are any, and from the received devices only when the
    home has no device of its own, where [listDevices] lists both; the
    received devices are handed on as they came.  The rooms are those of
    the v2 home, or when there are none those of the v3 home, or else
    those of the v1 home. *)
Theorem getHomeDataForUpdating_result homeid w api ud :
  iotApi (this w) = Some api → userdata (this w) = Some ud →
  (getHomev2 homeApi api homeid = Resolved None →
     getHomeDataForUpdating homeApi Protocol_battery homeid w
     = (Rejected "Failed to retrieve the home data", w))
  ∧ (∀ home v3 v1,
       getHomev2 homeApi api homeid = Resolved (Some home) →
       (rooms home = [] → getHomev3 homeApi api homeid = Resolved v3) →
       (rooms home = [] → hasRooms v3 = false → getHome homeApi api homeid = Resolved v1) →
       let homeRooms := roomsByPriority home v3 v1 in
       let chosen := if devices home is [] then receivedDevices home else devices home in
       getHomeDataForUpdating homeApi Protocol_battery homeid w =
         (Resolved
            {| updated_products := products home;
               updated_devices :=
                 List.map (updatedEntry Protocol_battery (Some ud) homeid home homeRooms) chosen;
               updated_receivedDevices := receivedDevices home;
               updated_rooms := homeRooms |},
          w)).
Proof.
  intros Hapi Hud. split.
  - intros Hnone. unfold getHomeDataForUpdating.
    unfold bind at 1, getThis at 1. rewrite Hapi, Hud.
    rewrite !bool_decide_eq_true_2 by eauto. cbn [negb].
    rewrite (bind_resolved _ _ _ _ _ (currentIotApi_present api w Hapi)).
    by rewrite (bind_resolved _ _ _ _ _ (await_resolved _ _ w Hnone)).
  - intros home v3 v1 Hhome Hv3 Hv1 homeRooms chosen. unfold getHomeDataForUpdating.
    unfold bind at 1, getThis at 1. rewrite Hapi, Hud.
    rewrite !bool_decide_eq_true_2 by eauto. cbn [negb].
    rewrite (bind_resolved _ _ _ _ _ (currentIotApi_present api w Hapi)).
    rewrite (bind_resolved _ _ _ _ _ (await_resolved _ _ w Hhome)).
    assert (Hrooms :
      (if (length (rooms home) =? 0)%nat then
         api <- currentIotApi;;
         homeDataV3 <- await (getHomev3 homeApi api homeid);;
         if hasRooms homeDataV3 then ret (default [] (rooms <$> homeDataV3))
         else
           api <- currentIotApi;;
           homeDataV1 <- await (getHome homeApi api homeid);;
           if hasRooms homeDataV1 then ret (default [] (rooms <$> homeDataV1))
           else ret (rooms home)
       else ret (rooms home)) w
      = (Resolved homeRooms, w)).
    { subst homeRooms. unfold roomsByPriority.
      destruct (rooms home) as [|r rs] eqn:Hr; [| reflexivity].
      cbn [length Nat.eqb Nat.ltb Nat.leb].
      rewrite (bind_resolved _ _ _ _ _ (currentIotApi_present api w Hapi)).
      rewrite (bind_resolved _ _ _ _ _ (await_resolved _ _ w (Hv3 eq_refl))).
      destruct (hasRooms v3) eqn:H3; [reflexivity |].
      rewrite (bind_resolved _ _ _ _ _ (currentIotApi_present api w Hapi)).
      rewrite (bind_resolved _ _ _ _ _ (await_resolved _ _ w (Hv1 eq_refl eq_refl))).
      by destruct (hasRooms v1). }
    rewrite (bind_resolved _ _ _ _ _ Hrooms).
    replace (if (0 <? length (devices home))%nat then devices home else receivedDevices home)
      with chosen by (subst chosen; by destruct (devices home)).
    erewrite bind_resolved; [reflexivity |].
    rewrite <- Hud. apply mapM_resolved. intros device _. reflexivity.
Qed.

End HomeFacts.


(** A login that the API rejects: nothing is saved and the service stays
    as it was. *)
Lemma loginWithCode_flow_witness :
  let w := newWorld (newService 10 None) in
  loginWithCode strictLoginApi "user" "123456"
    {| baseUrl := "https://euiot.roborock.com"; country := "DE"; countryCode := "49" |}
    (fun _ => throw "disk full") w
  = (Rejected "offline", addTrace [ELog Debug "Logging in with V4 API"] w).
Proof.
  intros w.
  destruct (loginWithCode_flow strictLoginApi "user" "123456"
              {| baseUrl := "https://euiot.roborock.com"; country := "DE";
                 countryCode := "49" |}
              (fun _ => throw "disk full") w) as (Hrejected & _).
  exact (Hrejected "offline" _ eq_refl).
Defined.

Lemma mergeByDuid_spec_witness :
  List.map device_duid (mergeByDuid (devices sampleHome) (devices sampleHomeV3)) = ["d1"; "d3"]
  ∧ List.NoDup (List.map device_duid (mergeByDuid (devices sampleHome) (devices sampleHomeV3))).
Proof.
  split; [reflexivity |].
  destruct (mergeByDuid_spec (devices sampleHome) (devices sampleHomeV3))
    as (_ & _ & _ & Hnodup).
  apply Hnodup.
  - constructor; [intros [] | constructor].
  - constructor; [intros [Heq | []]; discriminate Heq |].
    constructor; [intros [] | constructor].
Defined.

Lemma models_agree_witness :
  data_model (deviceData 8 (products sampleHome) (homeDevice "d1" "p1"))
  = productModels (products sampleHome) !! "p1".
Proof.
  apply (models_agree 8 (products sampleHome) (homeDevice "d1" "p1")).
  constructor; [intros [] | constructor].
Defined.

(** Before login. *)
Lemma listDevices_early_exits_witness :
  let w := newWorld (newService 10 None) in
  listDevices homeLoginApi sampleHomeApi 8 "user" w = (Rejected "AssertionError", w).
Proof.
  intros w.
  destruct (listDevices_early_exits homeLoginApi sampleHomeApi 8 "user" w) as (Hassert & _).
  apply Hassert. left. reflexivity.
Defined.

(** A home without rooms whose product needs the v3 API: the v3 device
    [d3] is listed between the home's own and the received one, the rooms
    are those of the v3 home, and the scene goes to the device it names. *)
Lemma listDevices_result_witness :
  let w := newWorld loggedInService in
  ∃ entries,
    fst (listDevices homeLoginApi sampleHomeApi 8 "user" w) = Resolved entries
    ∧ List.map (fun e => (device_duid (listed e),
                          List.map room_name (listed_rooms e),
                          List.map scene_name <$> scenes e)) entries
      = [("d1", ["Kitchen"], Some []);
         ("d3", ["Kitchen"], Some ["morning"]);
         ("d2", ["Kitchen"], Some [])].
Proof.
  intros w.
  assert (Hparse : ∀ sc, In sc (default [] (Some sampleScenes)) → truthy (param sc) = true →
            ∃ entities,
              parseSceneParam sampleHomeApi (default "" (param sc)) = Resolved entities).
  { intros sc [<- | [<- | []]] Htruthy; [by eexists | discriminate Htruthy]. }
  pose proof (listDevices_result homeLoginApi sampleHomeApi 8 "user" w
                {| apiUserData := sampleUser |} sampleUser {| rrHomeId := 7 |} w
                {| apiUserData := sampleUser |} sampleHome (Some sampleScenes)
                None (Some sampleHomeV3)
                eq_refl eq_refl eq_refl eq_refl eq_refl eq_refl Hparse
                (fun _ => eq_refl) (fun _ => eq_refl)
                (fun _ (H : Some sampleHomeV3 = None) => eq_ind (Some sampleHomeV3)
                   (fun o => if o is Some _ then True else False) I None H)) as Hrun.
  cbv zeta in Hrun. rewrite Hrun. eexists. split; reflexivity.
Defined.

(** The home 7 has no v2 form; the home 9 has one, with a device of its
    own, so that the received device [d2] gets no entry. *)
Lemma getHomeDataForUpdating_result_witness :
  let w := newWorld loggedInService in
  getHomeDataForUpdating sampleHomeApi 8 7 w = (Rejected "Failed to retrieve the home data", w)
  ∧ ∃ home,
      getHomeDataForUpdating sampleHomeApi 8 9 w = (Resolved home, w)
      ∧ List.map (fun e => device_duid (listed e)) (updated_devices home) = ["d1"]
      ∧ List.map device_duid (updated_receivedDevices home) = ["d2"]
      ∧ List.map room_name (updated_rooms home) = ["Kitchen"].
Proof.
  intros w.
  destruct (getHomeDataForUpdating_result sampleHomeApi 8 7 w
              {| apiUserData := sampleUser |} sampleUser eq_refl eq_refl) as (Hnone & _).
  destruct (getHomeDataForUpdating_result sampleHomeApi 8 9 w
              {| apiUserData := sampleUser |} sampleUser eq_refl eq_refl) as (_ & Hsome).
  split; [exact (Hnone eq_refl) |].
  pose proof (Hsome sampleHome (Some sampleHomeV3) None eq_refl
                (fun _ => eq_refl) (fun _ (H : hasRooms (Some sampleHomeV3) = false) =>
                   False_ind _ (eq_ind true (fun b => if b then True else False) I false H)))
    as Hrun.
  cbv zeta in Hrun. rewrite Hrun. eexists. split; [reflexivity |]. by repeat split.
Defined.

(** ** The login API *)

Section AuthenticateFacts.

Import RoborockAuthenticateApi.

Variable N : Net.

Lemma sentBy_app {A} (m : AuthM A) w l :
  sent (snd (m w)) = (sent w ++ l)%list → sentBy m w = l.
Proof. intros H. unfold sentBy. rewrite H. apply drop_app_length. Qed.

Lemma truthy_Some_true s : s ≠ "" → truthy (Some s) = true.
Proof. intros H. cbn. by apply negb_true_iff, String.eqb_neq. Qed.

(** What [auth] does with an answer. *)
Lemma auth_cases username response w :
  let run := auth username response w in
  sent (snd run) = sent w ∧ draws (snd run) = draws w
  ∧ (∀ err, fst run = Rejected err → self (snd run) = self w)
  ∧ (∀ ud, fst run = Resolved ud →
       token ud ≠ "" ∧ response_data response = Some ud
       ∧ this_username (self (snd run)) = Some username
       ∧ this_authToken (self (snd run)) = Some (token ud)
       ∧ this_deviceId (self (snd run)) = this_deviceId (self w)).
Proof.
  unfold auth. destruct (response_data response) as [ud|]; cbn.
  - destruct (String.eqb (token ud) "") eqn:Htoken; cbn.
    + split; [done |]. split; [done |]. split; [done | discriminate].
    + split; [done |]. split; [done |]. split; [discriminate |].
      intros ud' [= <-]. repeat split; try done. by apply String.eqb_neq.
  - split; [done |]. split; [done |]. split; [done | discriminate].
Qed.

(** X20.  [getHomeDetails] answers nothing exactly when the object holds
    no user name or no token (or an empty one), and then it sends no
    request and changes nothing; once logged in it answers a home or
    rejects. *)
Theorem getHomeDetails_needs_login w :
  (truthy (this_username (self w)) = false ∨ truthy (this_authToken (self w)) = false →
     getHomeDetails N w = (Resolved None, w))
  ∧ (fst (getHomeDetails N w) = Resolved None →
     truthy (this_username (self w)) = false ∨ truthy (this_authToken (self w)) = false).
Proof.
  split.
  - intros Hout. unfold getHomeDetails, mbind, AuthM_bind, getSelf.
    destruct Hout as [-> | ->]; [reflexivity |]. by rewrite orb_true_r.
  - unfold getHomeDetails, mbind, AuthM_bind, getSelf.
    destruct (truthy (this_username (self w))); [| by left].
    destruct (truthy (this_authToken (self w))); [| by right].
    cbn [negb orb]. unfold getAPIFor, getUrlByEmail, apiForUser, mbind, AuthM_bind,
      getSelf, send, mret, AuthM_ret, setSelf, fail.
    cbn.
    destruct (answer_getUrlByEmail N _) as [r|err]; [| discriminate].
    destruct (response_data r) as [d|]; [| discriminate].
    cbn.
    destruct (answer_getHomeDetail N _) as [r'|err]; [| discriminate].
    destruct (response_data r'); discriminate.
Qed.

(** X21.  Logged in, [getHomeDetails] first asks the default server for
    the base URL of the user and then, if it got one, asks that server for
    the home.  Both requests carry the stored token and the client id of
    the user; the login is left as it was, and the country of the answer
    is noted. *)
Theorem getHomeDetails_logged_in w u tok :
  this_username (self w) = Some u → this_authToken (self w) = Some tok →
  u ≠ "" → tok ≠ "" →
  let run := getHomeDetails N w in
  let asked := sentBy (getHomeDetails N) w in
  this_username (self (snd run)) = Some u
  ∧ this_authToken (self (snd run)) = Some tok
  ∧ Forall (fun r => Authorization (req_instance r) = Some tok
                     ∧ header_clientid (req_instance r) = md5 N u (this_deviceId (self w)))
      asked
  ∧ ∃ first,
      head asked = Some first
      ∧ baseURL (req_instance first) = "https://usiot.roborock.com"
      ∧ req_path first = "api/v1/getUrlByEmail"
      ∧ req_body first = [("email", u); ("needtwostepauth", "false")]
      ∧ match answer_getUrlByEmail N first with
        | Rejected err => asked = [first] ∧ fst run = Rejected err
        | Resolved r =>
            match response_data r with
            | None =>
                asked = [first]
                ∧ fst run = Rejected ("Failed to retrieve base URL: " ++ response_msg r)
            | Some d =>
                ∃ second,
                  asked = [first; second]
                  ∧ baseURL (req_instance second) = url d
                  ∧ req_verb second = HttpGet
                  ∧ req_path second = "api/v1/getHomeDetail"
                  ∧ this_country (self (snd run)) = base_country d
                  ∧ this_countryCode (self (snd run)) = base_countrycode d
                  ∧ fst run =
                      match answer_getHomeDetail N second with
                      | Rejected err => Rejected err
                      | Resolved r' =>
                          match response_data r' with
                          | Some h => Resolved (Some h)
                          | None => Rejected "Failed to retrieve the home details"
                          end
                      end
            end
        end.
Proof.
  intros Hu Htok Hu' Htok' run asked. subst run asked.
  unfold sentBy, getHomeDetails, mbind, AuthM_bind, getSelf.
  rewrite Hu, Htok, !truthy_Some_true by done. cbn [negb orb default].
  unfold getAPIFor, getUrlByEmail, apiForUser, mbind, AuthM_bind,
    getSelf, send, mret, AuthM_ret, setSelf, fail.
  cbn. rewrite Htok.
  set (first := {| req_instance := _; req_verb := HttpPost;
                   req_path := "api/v1/getUrlByEmail" |}).
  destruct (answer_getUrlByEmail N first) as [r|err] eqn:Hfirst; cbn.
  - destruct (response_data r) as [d|] eqn:Hd; cbn.
    + rewrite Htok.
      set (second := {| req_instance := _; req_verb := HttpGet |}).
      assert (Hdrop : ∀ l, drop (length (sent w)) ((sent w ++ [first]) ++ l)
                           = first :: l).
      { intros l. by rewrite <- app_assoc, drop_app_length. }
      destruct (answer_getHomeDetail N second) as [r'|err] eqn:Hsecond; cbn.
      * destruct (response_data r') as [h|] eqn:Hh; cbn; rewrite Hdrop;
          (split; [done | split; [done | split; [by repeat constructor |]]]);
          exists first; rewrite Hfirst, Hd; (repeat split; try done);
          exists second; rewrite Hsecond, Hh; by repeat split.
      * rewrite Hdrop. (split; [done | split; [done | split; [by repeat constructor |]]]).
        exists first. rewrite Hfirst, Hd. (repeat split; try done).
        exists second. rewrite Hsecond. by repeat split.
    + rewrite drop_app_length. (split; [done | split; [done | split; [by repeat constructor |]]]).
      exists first. rewrite Hfirst, Hd. by repeat split.
  - rewrite drop_app_length. (split; [done | split; [done | split; [by repeat constructor |]]]).
    exists first. rewrite Hfirst. by repeat split.
Qed.

(** X22.  [loginWithCode] sends one request, to the base URL it is given
    and under the token of the login before it, if any.  When it rejects,
    because the request failed or the answer holds no user data or an
    empty token, the object is left as it was, so an earlier login stays
    in force; when it resolves, the token is not empty and the object
    holds the user name and that token. *)
Theorem loginWithCode_stores_or_keeps username twofa base w :
  let run := loginWithCode N username twofa base w in
  (∃ r, sentBy (loginWithCode N username twofa base) w = [r]
        ∧ req_instance r = instanceFor N username (self w) base
        ∧ req_path r = "api/v1/login"
        ∧ req_body r = [("username", username); ("verifycode", twofa);
                        ("verifycodetype", "AUTH_EMAIL_CODE")])
  ∧ (∀ err, fst run = Rejected err → self (snd run) = self w)
  ∧ (∀ ud, fst run = Resolved ud →
       token ud ≠ ""
       ∧ this_username (self (snd run)) = Some username
       ∧ this_authToken (self (snd run)) = Some (token ud)).
Proof.
  intros run. subst run.
  unfold sentBy, loginWithCode, apiForUser, mbind, AuthM_bind, getSelf, send, mret, AuthM_ret.
  cbn [default].
  set (r := {| req_instance := _; req_verb := HttpPost; req_path := "api/v1/login" |}).
  set (w1 := {| self := self w; sent := (sent w ++ [r])%list; draws := draws w |}).
  destruct (answer_login N r) as [response|err] eqn:Hanswer.
  - destruct (auth_cases username response w1) as (Hsent & _ & Hrejected & Hresolved).
    cbv zeta in *. split; [| split].
    + exists r. rewrite Hsent. cbn [sent w1]. by rewrite drop_app_length.
    + intros err Herr. by rewrite (Hrejected err Herr).
    + intros ud Hud. destruct (Hresolved ud Hud) as (? & _ & ? & ? & _). done.
  - cbn. split; [| split].
    + exists r. by rewrite drop_app_length.
    + done.
    + discriminate.
Qed.

(** X23.  [loginWithCodeV4] asks for a sign key first, with the first 16
    characters of a fresh UUID as the nonce.  Without a key (the request
    fails, or the key is missing or empty) it rejects and no login request
    leaves.  With a key the login request follows, carrying the nonce and
    the key in its headers.  As for the V1 login, the object changes only
    when the method resolves. *)
Theorem loginWithCodeV4_signs_first username twofa base country countryCode w :
  let nonce := String.substring 0 16 (randomUUID N (draws w)) in
  let run := loginWithCodeV4 N username twofa base country countryCode w in
  let asked := sentBy (loginWithCodeV4 N username twofa base country countryCode) w in
  (∃ sign,
     head asked = Some sign
     ∧ req_instance sign = instanceFor N username (self w) base
     ∧ req_path sign = "api/v3/key/sign"
     ∧ req_body sign = [("s", nonce)]
     ∧ match answer_sign N sign with
       | Rejected err => asked = [sign] ∧ fst run = Rejected err
       | Resolved k =>
           if truthy k then
             ∃ login,
               asked = [sign; login]
               ∧ req_instance login = instanceFor N username (self w) base
               ∧ req_path login = "api/v4/auth/email/login/code"
               ∧ In ("code", twofa) (req_body login)
               ∧ In ("x-mercy-ks", nonce) (req_headers login)
               ∧ In ("x-mercy-k", default "" k) (req_headers login)
           else asked = [sign] ∧ fst run = Rejected "Failed to obtain sign key for V4 login"
       end)
  ∧ (∀ err, fst run = Rejected err → self (snd run) = self w)
  ∧ (∀ ud, fst run = Resolved ud →
       token ud ≠ ""
       ∧ this_username (self (snd run)) = Some username
       ∧ this_authToken (self (snd run)) = Some (token ud)).
Proof.
  intros nonce run asked. subst run asked.
  unfold sentBy, loginWithCodeV4, signKeyV3, drawUUID, apiForUser, mbind, AuthM_bind,
    getSelf, send, mret, AuthM_ret, fail.
  cbn [default self sent draws fst snd]. fold nonce.
  set (sign := {| req_instance := _; req_verb := HttpPost; req_path := "api/v3/key/sign" |}).
  destruct (answer_sign N sign) as [k|err] eqn:Hsign.
  - destruct (truthy k) eqn:Hk; cbn [negb self sent draws fst snd].
    + set (login := {| req_instance := _; req_verb := HttpPost;
                       req_path := "api/v4/auth/email/login/code" |}).
      set (w1 := {| self := self w; sent := ((sent w ++ [sign]) ++ [login])%list;
                    draws := S (draws w) |}).
      assert (Hdrop : drop (length (sent w)) (sent w1) = [sign; login]).
      { cbn [sent w1]. by rewrite <- app_assoc, drop_app_length. }
      destruct (answer_loginV4 N login) as [response|err] eqn:Hanswer.
      * destruct (auth_cases username response w1) as (Hsent & _ & Hrejected & Hresolved).
        cbv zeta in *. split; [| split].
        -- exists sign. rewrite Hsent, Hdrop, Hsign, Hk.
           split; [done |]. split; [done |]. split; [done |]. split; [done |].
           exists login. split; [done |]. split; [done |]. split; [done |].
           cbn. tauto.
        -- intros err Herr. by rewrite (Hrejected err Herr).
        -- intros ud Hud. destruct (Hresolved ud Hud) as (? & _ & ? & ? & _). done.
      * cbn [fst snd]. split; [| split].
        -- exists sign. rewrite Hdrop, Hsign, Hk.
           split; [done |]. split; [done |]. split; [done |]. split; [done |].
           exists login. split; [done |]. split; [done |]. split; [done |].
           cbn. tauto.
        -- done.
        -- discriminate.
    + cbn [fst snd sent self]. rewrite drop_app_length. split; [| split].
      * exists sign. rewrite Hsign, Hk. by repeat split.
      * done.
      * discriminate.
  - cbn [fst snd sent self]. rewrite drop_app_length. split; [| split].
    + exists sign. rewrite Hsign. by repeat split.
    + done.
    + discriminate.
Qed.

(** X24.  [requestCode] never touches the stored login.  It asks for the
    base URL first; without one no code is requested.  When it resolves,
    two requests have left, the second to the base URL that is answered,
    and the country of the answer is noted in the object. *)
Theorem requestCode_keeps_login username w :
  let run := requestCode N username w in
  let asked := sentBy (requestCode N username) w in
  this_username (self (snd run)) = this_username (self w)
  ∧ this_authToken (self (snd run)) = this_authToken (self w)
  ∧ (∃ first,
       head asked = Some first
       ∧ req_instance first = instanceFor N username (self w) "https://usiot.roborock.com"
       ∧ req_path first = "api/v1/getUrlByEmail"
       ∧ ((∀ r, answer_getUrlByEmail N first = Resolved r → response_data r = None) →
          asked = [first] ∧ ∃ err, fst run = Rejected err))
  ∧ (∀ urlResult, fst run = Resolved urlResult →
       ∃ first second,
         asked = [first; second]
         ∧ baseURL (req_instance second) = baseUrl urlResult
         ∧ req_path second = "api/v4/email/code/send"
         ∧ In ("email", username) (req_body second)
         ∧ this_country (self (snd run)) = country urlResult
         ∧ this_countryCode (self (snd run)) = countryCode urlResult).
Proof.
  intros run asked. subst run asked.
  unfold sentBy, requestCode, getUrlByEmail, apiForUser, mbind, AuthM_bind,
    getSelf, send, mret, AuthM_ret, setSelf, fail.
  cbn [default self sent draws fst snd].
  set (first := {| req_instance := _; req_verb := HttpPost;
                   req_path := "api/v1/getUrlByEmail" |}).
  destruct (answer_getUrlByEmail N first) as [r|err] eqn:Hfirst.
  - destruct (response_data r) as [d|] eqn:Hd; cbn [self sent draws fst snd baseUrl].
    + set (second := {| req_instance := _; req_verb := HttpPost;
                        req_path := "api/v4/email/code/send" |}).
      assert (Hdrop : drop (length (sent w)) ((sent w ++ [first]) ++ [second])
                      = [first; second]).
      { by rewrite <- app_assoc, drop_app_length. }
      destruct (answer_codeSend N second) as [[]|err] eqn:Hsecond;
        cbn [self sent draws fst snd this_username this_authToken];
        rewrite Hdrop; (split; [done | split; [done | split]]).
      * exists first. split; [done |]. split; [done |]. split; [done |].
        intros Hnone. specialize (Hnone r Hfirst). congruence.
      * intros urlResult [= <-]. exists first, second. cbn. tauto.
      * exists first. split; [done |]. split; [done |]. split; [done |].
        intros Hnone. specialize (Hnone r Hfirst). congruence.
      * discriminate.
    + rewrite drop_app_length. split; [done | split; [done | split]].
      * exists first. split; [done |]. split; [done |]. split; [done |].
        intros _. split; [done |]. by eexists.
      * discriminate.
  - cbn [self sent draws fst snd]. rewrite drop_app_length.
    split; [done | split; [done | split]].
    + exists first. split; [done |]. split; [done |]. split; [done |].
      intros _. split; [done |]. by eexists.
    + discriminate.
Qed.

(** X25.  [loginWithUserData] takes saved user data on trust: it resolves
    with them for any data, sends no request, and makes them the login of
    the object.  Whether the token is of use shows later: [getHomeDetails]
    then answers nothing exactly when the user name or the token is
    empty. *)
Theorem loginWithUserData_unchecked username userData w :
  let run := loginWithUserData username userData w in
  fst run = Resolved userData
  ∧ sent (snd run) = sent w
  ∧ this_username (self (snd run)) = Some username
  ∧ this_authToken (self (snd run)) = Some (token userData)
  ∧ (fst (getHomeDetails N (snd run)) = Resolved None
     ↔ username = "" ∨ token userData = "").
Proof.
  intros run. subst run.
  destruct (getHomeDetails_needs_login (snd (loginWithUserData username userData w)))
    as (Hout & Hin).
  assert (Hempty : ∀ s, truthy (Some s) = false ↔ s = "").
  { intros s. cbn. rewrite negb_false_iff. apply String.eqb_eq. }
  assert (Hname : this_username (self (snd (loginWithUserData username userData w)))
                  = Some username) by reflexivity.
  assert (Htoken : this_authToken (self (snd (loginWithUserData username userData w)))
                   = Some (token userData)) by reflexivity.
  split; [done |]. split; [done |]. split; [done |]. split; [done |].
  rewrite Hname, Htoken, !Hempty in Hout, Hin. split; [exact Hin |].
  intros H. by rewrite (Hout H).
Qed.

End AuthenticateFacts.

Section AuthenticateSamples.

Import RoborockAuthenticateApi.

(** A new object is not logged in. *)
Lemma getHomeDetails_needs_login_witness :
  getHomeDetails sampleNet (constructor sampleNet) = (Resolved None, constructor sampleNet).
Proof.
  destruct (getHomeDetails_needs_login sampleNet (constructor sampleNet)) as (Hout & _).
  apply Hout. left. reflexivity.
Defined.

(** After a restored login the home is asked for under the restored
    token. *)
Lemma getHomeDetails_logged_in_witness :
  let w := snd (loginWithUserData "user" {| token := "t0" |} (constructor sampleNet)) in
  Forall (fun r => Authorization (req_instance r) = Some "t0"
                   ∧ header_clientid (req_instance r)
                     = md5 sampleNet "user" (this_deviceId (self w)))
    (sentBy (getHomeDetails sampleNet) w).
Proof.
  intros w.
  destruct (getHomeDetails_logged_in sampleNet w "user" "t0" eq_refl eq_refl)
    as (_ & _ & Hasked & _); [discriminate | discriminate |].
  exact Hasked.
Defined.

(** A wrong code after a restored login: the restored login stays. *)
Lemma loginWithCode_stores_or_keeps_witness :
  let w := snd (loginWithUserData "user" {| token := "t0" |} (constructor sampleNet)) in
  self (snd (loginWithCode sampleNet "user" "000000" "https://euiot.roborock.com" w))
  = self w.
Proof.
  intros w.
  destruct (loginWithCode_stores_or_keeps sampleNet "user" "000000"
              "https://euiot.roborock.com" w) as (_ & Hrejected & _).
  apply (Hrejected "Authentication failed: invalid code code: 2018"). reflexivity.
Defined.

(** The right code on a new object. *)
Lemma loginWithCodeV4_signs_first_witness :
  let w := constructor sampleNet in
  this_authToken
    (self (snd (loginWithCodeV4 sampleNet "user" "123456" "https://euiot.roborock.com"
                  "DE" "49" w)))
  = Some "t1".
Proof.
  intros w.
  destruct (loginWithCodeV4_signs_first sampleNet "user" "123456"
              "https://euiot.roborock.com" "DE" "49" w) as (_ & _ & Hresolved).
  destruct (Hresolved {| token := "t1" |} eq_refl) as (_ & _ & Htoken).
  exact Htoken.
Defined.

Lemma requestCode_keeps_login_witness :
  let w := constructor sampleNet in
  ∃ first second,
    sentBy (requestCode sampleNet "user") w = [first; second]
    ∧ baseURL (req_instance second) = "https://euiot.roborock.com".
Proof.
  intros w.
  destruct (requestCode_keeps_login sampleNet "user" w) as (_ & _ & _ & Hresolved).
  destruct (Hresolved {| baseUrl := "https://euiot.roborock.com"; country := "DE";
                         countryCode := "49" |} eq_refl)
    as (first & second & Hasked & Hbase & _).
  exists first, second. split; [exact Hasked | exact Hbase].
Defined.

End AuthenticateSamples.
